(** * Pimax-OpenXR: system bring-up and format interoperability

  A shallow embedding of [pimax-openxr/system.cpp] and of the format and
  context helpers of [pimax-openxr/utils.h], with the properties of the
  system negotiation layer stated over it.

  Layout:
  - [Float32]  : IEEE-754 binary32 values, as the C++ [float] of the source;
  - [Format]   : the DXGI / PVR texture-format tables of [utils.h];
  - [Gl]       : the scoped OpenGL context switch [GlContextSwitch];
  - [Xr]       : the OpenXR and PVR data the runtime handles;
  - [Runtime]  : the members of [OpenXrRuntime], the PVR client interface
                 and the trace of its calls;
  - [System]   : [OpenXrRuntime::xrGetSystem], [ensurePvrSession],
                 [xrGetSystemProperties], [xrEnumerateEnvironmentBlendModes];
  - [Scripted] : a scripted PVR service and the scenarios run on it;
  - [ApiFormat], [StringUtil], [Swapchain], [Pose], [Extensions] : the
                 Vulkan / OpenGL format tables, [startsWith] / [endsWith],
                 [isValidSwapchainRect], the pose helpers and
                 [ParseExtensionString] of [utils.h];
  - [TraceRead], [SessionProtocol], [ProjectionTrace], [Scenarios] : how a
                 trace of calls is read, and more scenarios;
  - [FormatFacts], [BlendModeFacts], [GlFacts], [SystemFacts],
    [TraceFacts], [GetSystemFacts] : the properties of the negotiation
                 layer;
  - [FormatTableFacts], [StringUtilFacts], [SwapchainFacts], [PoseFacts],
    [GlScopeFacts], [ExtensionsFacts] : the properties of the helpers;
  - [DerivationFacts], [DerivationOutcomes], [ProjectionDerivation],
    [SessionFacts], [LifecycleFacts], [DeviceChangeFacts],
    [ProjectionFacts], [PropertiesFacts], [ScenarioFacts] : the
                 device-change branch, the projection mode it caches, the
                 session, and [xrGetSystemProperties] after [xrGetSystem]. *)

From Stdlib Require Import ZArith NArith Bool List String Ascii Lia.
From Stdlib Require Import SpecFloat.
Import ListNotations.

Set Implicit Arguments.

(* ------------------------------------------------------------------ *)
(** ** binary32 floats *)

Module Float32.

(** A C++ [float]: an IEEE-754 binary32 datum (24 bits of precision,
    exponents below 128). *)
Definition float32 : Type := spec_float.

Definition prec : Z := 24.
Definition emax : Z := 128.

(** [x > y] on [float]: false as soon as one side is a NaN. *)
Definition gt (x y : float32) : bool := SFltb y x.

Definition div (x y : float32) : float32 := SFdiv prec emax x y.

Definition neg (x : float32) : float32 := SFopp x.

Definition zero : float32 := S754_zero false.

(** The literal [2.f]. *)
Definition two : float32 := S754_finite false 8388608 (-22).

(** The literal [0.0001f], i.e. 13743895 * 2^-37, the binary32 value
    nearest to 1/10000. *)
Definition epsilon_1e4 : float32 := S754_finite false 13743895 (-37).

(** The binary32 value nearest to 0.01, i.e. 10737418 * 2^-30. *)
Definition one_hundredth : float32 := S754_finite false 10737418 (-30).

(** The binary32 value nearest to 0.02. *)
Definition two_hundredths : float32 := S754_finite false 10737418 (-29).

End Float32.

(* ------------------------------------------------------------------ *)
(** ** Texture formats ([utils.h]) *)

Module Format.

(** The enumerators of [DXGI_FORMAT] that [utils.h] names; every other
    enumerator of the Windows header is [DXGI_FORMAT_OTHER] with its
    numeric code. *)
Inductive DXGI_FORMAT : Type :=
| DXGI_FORMAT_UNKNOWN
| DXGI_FORMAT_R8G8B8A8_TYPELESS
| DXGI_FORMAT_R8G8B8A8_UNORM
| DXGI_FORMAT_R8G8B8A8_UNORM_SRGB
| DXGI_FORMAT_B8G8R8A8_TYPELESS
| DXGI_FORMAT_B8G8R8A8_UNORM
| DXGI_FORMAT_B8G8R8A8_UNORM_SRGB
| DXGI_FORMAT_B8G8R8X8_TYPELESS
| DXGI_FORMAT_B8G8R8X8_UNORM
| DXGI_FORMAT_B8G8R8X8_UNORM_SRGB
| DXGI_FORMAT_R16G16B16A16_TYPELESS
| DXGI_FORMAT_R16G16B16A16_FLOAT
| DXGI_FORMAT_R32_TYPELESS
| DXGI_FORMAT_D32_FLOAT
| DXGI_FORMAT_R32G8X24_TYPELESS
| DXGI_FORMAT_D32_FLOAT_S8X24_UINT
| DXGI_FORMAT_R24G8_TYPELESS
| DXGI_FORMAT_D24_UNORM_S8_UINT
| DXGI_FORMAT_R16_TYPELESS
| DXGI_FORMAT_D16_UNORM
| DXGI_FORMAT_OTHER (code : N).

(** The enumerators of [pvrTextureFormat] that [utils.h] names; the
    remaining enumerators of the PVR header are [PVR_FORMAT_OTHER]. *)
Inductive pvrTextureFormat : Type :=
| PVR_FORMAT_UNKNOWN
| PVR_FORMAT_R8G8B8A8_UNORM
| PVR_FORMAT_R8G8B8A8_UNORM_SRGB
| PVR_FORMAT_B8G8R8A8_UNORM
| PVR_FORMAT_B8G8R8A8_UNORM_SRGB
| PVR_FORMAT_B8G8R8X8_UNORM
| PVR_FORMAT_B8G8R8X8_UNORM_SRGB
| PVR_FORMAT_R16G16B16A16_FLOAT
| PVR_FORMAT_D16_UNORM
| PVR_FORMAT_D24_UNORM_S8_UINT
| PVR_FORMAT_D32_FLOAT
| PVR_FORMAT_D32_FLOAT_S8X24_UINT
| PVR_FORMAT_OTHER (code : N).


Definition isSRGBFormat (format : DXGI_FORMAT) : bool :=
  match format with
  | DXGI_FORMAT_R8G8B8A8_UNORM_SRGB
  | DXGI_FORMAT_B8G8R8A8_UNORM_SRGB
  | DXGI_FORMAT_B8G8R8X8_UNORM_SRGB => true
  | _ => false
  end.

Definition dxgiToPvrTextureFormat (format : DXGI_FORMAT) : pvrTextureFormat :=
  match format with
  | DXGI_FORMAT_R8G8B8A8_UNORM => PVR_FORMAT_R8G8B8A8_UNORM
  | DXGI_FORMAT_R8G8B8A8_UNORM_SRGB => PVR_FORMAT_R8G8B8A8_UNORM_SRGB
  | DXGI_FORMAT_B8G8R8A8_UNORM => PVR_FORMAT_B8G8R8A8_UNORM
  | DXGI_FORMAT_B8G8R8A8_UNORM_SRGB => PVR_FORMAT_B8G8R8A8_UNORM_SRGB
  | DXGI_FORMAT_B8G8R8X8_UNORM => PVR_FORMAT_B8G8R8X8_UNORM
  | DXGI_FORMAT_B8G8R8X8_UNORM_SRGB => PVR_FORMAT_B8G8R8X8_UNORM_SRGB
  | DXGI_FORMAT_R16G16B16A16_FLOAT => PVR_FORMAT_R16G16B16A16_FLOAT
  | DXGI_FORMAT_D16_UNORM => PVR_FORMAT_D16_UNORM
  | DXGI_FORMAT_D24_UNORM_S8_UINT => PVR_FORMAT_D24_UNORM_S8_UINT
  | DXGI_FORMAT_D32_FLOAT => PVR_FORMAT_D32_FLOAT
  | DXGI_FORMAT_D32_FLOAT_S8X24_UINT => PVR_FORMAT_D32_FLOAT_S8X24_UINT
  | _ => PVR_FORMAT_UNKNOWN
  end.

Definition pvrToDxgiTextureFormat (format : pvrTextureFormat) : DXGI_FORMAT :=
  match format with
  | PVR_FORMAT_R8G8B8A8_UNORM => DXGI_FORMAT_R8G8B8A8_UNORM
  | PVR_FORMAT_R8G8B8A8_UNORM_SRGB => DXGI_FORMAT_R8G8B8A8_UNORM_SRGB
  | PVR_FORMAT_B8G8R8A8_UNORM => DXGI_FORMAT_B8G8R8A8_UNORM
  | PVR_FORMAT_B8G8R8A8_UNORM_SRGB => DXGI_FORMAT_B8G8R8A8_UNORM_SRGB
  | PVR_FORMAT_B8G8R8X8_UNORM => DXGI_FORMAT_B8G8R8X8_UNORM
  | PVR_FORMAT_B8G8R8X8_UNORM_SRGB => DXGI_FORMAT_B8G8R8X8_UNORM_SRGB
  | PVR_FORMAT_R16G16B16A16_FLOAT => DXGI_FORMAT_R16G16B16A16_FLOAT
  | PVR_FORMAT_D16_UNORM => DXGI_FORMAT_D16_UNORM
  | PVR_FORMAT_D24_UNORM_S8_UINT => DXGI_FORMAT_D24_UNORM_S8_UINT
  | PVR_FORMAT_D32_FLOAT => DXGI_FORMAT_D32_FLOAT
  | PVR_FORMAT_D32_FLOAT_S8X24_UINT => DXGI_FORMAT_D32_FLOAT_S8X24_UINT
  | _ => DXGI_FORMAT_UNKNOWN
  end.

(** The DXGI formats that [dxgiToPvrTextureFormat] has a case for. *)
Definition dxgiCatalog : list DXGI_FORMAT :=
  [ DXGI_FORMAT_R8G8B8A8_UNORM; DXGI_FORMAT_R8G8B8A8_UNORM_SRGB;
    DXGI_FORMAT_B8G8R8A8_UNORM; DXGI_FORMAT_B8G8R8A8_UNORM_SRGB;
    DXGI_FORMAT_B8G8R8X8_UNORM; DXGI_FORMAT_B8G8R8X8_UNORM_SRGB;
    DXGI_FORMAT_R16G16B16A16_FLOAT; DXGI_FORMAT_D16_UNORM;
    DXGI_FORMAT_D24_UNORM_S8_UINT; DXGI_FORMAT_D32_FLOAT;
    DXGI_FORMAT_D32_FLOAT_S8X24_UINT ].

End Format.

(* ------------------------------------------------------------------ *)
(** ** Scoped OpenGL context switch ([utils.h], [GlContextSwitch]) *)

Module Gl.

(** WGL handles; [0] is the null handle. *)
Definition HDC : Type := N.
Definition HGLRC : Type := N.

Definition GLenum : Type := N.
Definition GL_NO_ERROR : GLenum := 0%N.
Definition GL_INVALID_ENUM : GLenum := 1280%N.
Definition GL_INVALID_VALUE : GLenum := 1281%N.
Definition GL_INVALID_OPERATION : GLenum := 1282%N.

Record GlContext : Type := mkGlContext {
  glDC : HDC;
  glRC : HGLRC;
  valid : bool
}.

(** The ambient WGL state of the calling thread: the current device and
    rendering context, and for every rendering context the error codes it
    has recorded and not yet reported.  OpenGL allows several recorded
    flag-code pairs; each [glGetError] reports and clears one of them. *)
Record GlThread : Type := mkGlThread {
  currentDC : HDC;
  currentRC : HGLRC;
  errorFlags : HGLRC -> list positive
}.

Definition wglGetCurrentDC (t : GlThread) : HDC := currentDC t.
Definition wglGetCurrentContext (t : GlThread) : HGLRC := currentRC t.

(** [wglMakeCurrent]: makes [(dc, rc)] the calling thread's current
    context.  The source ignores the returned BOOL. *)
Definition wglMakeCurrent (dc : HDC) (rc : HGLRC) (t : GlThread) : GlThread :=
  {| currentDC := dc; currentRC := rc; errorFlags := errorFlags t |}.

Definition setFlags (rc : HGLRC) (l : list positive) (t : GlThread) : GlThread :=
  {| currentDC := currentDC t;
     currentRC := currentRC t;
     errorFlags := fun rc' => if N.eqb rc' rc then l else errorFlags t rc' |}.

(** [glGetError]: reports one recorded code of the current context and
    clears it; [GL_NO_ERROR] when none is recorded. *)
Definition glGetError (t : GlThread) : GLenum * GlThread :=
  match errorFlags t (currentRC t) with
  | [] => (GL_NO_ERROR, t)
  | e :: rest => (Npos e, setFlags (currentRC t) rest t)
  end.

(** [while (glGetError() != GL_NO_ERROR);] with an iteration bound. *)
Fixpoint resetErrorCodes (fuel : nat) (t : GlThread) : option GlThread :=
  match fuel with
  | O => None
  | S fuel' =>
      let '(e, t') := glGetError t in
      if N.eqb e GL_NO_ERROR then Some t' else resetErrorCodes fuel' t'
  end.

(** The object: [m_glDC] and [m_glRC] are left uninitialised by the
    constructor when [m_valid] is false and are never read then; the model
    gives them the null handle. *)
Record GlContextSwitch : Type := mkGlContextSwitch {
  m_valid : bool;
  m_glDC : HDC;
  m_glRC : HGLRC
}.

Inductive Exn : Type :=
| OpenGLError (error : GLenum).

(** [GlContextSwitch::GlContextSwitch(const GlContext&)]. *)
Definition construct (fuel : nat) (context : GlContext) (t : GlThread)
  : option (GlContextSwitch * GlThread) :=
  if valid context then
    let dc := wglGetCurrentDC t in
    let rc := wglGetCurrentContext t in
    let t1 := wglMakeCurrent (glDC context) (glRC context) t in
    match resetErrorCodes fuel t1 with
    | Some t2 => Some ({| m_valid := true; m_glDC := dc; m_glRC := rc |}, t2)
    | None => None
    end
  else
    Some ({| m_valid := false; m_glDC := 0%N; m_glRC := 0%N |}, t).

(** [GlContextSwitch::~GlContextSwitch() noexcept(false)]: [None] is a
    normal return, [Some e] the exception of [CHECK_MSG]. *)
Definition destruct_ (g : GlContextSwitch) (t : GlThread) : option Exn * GlThread :=
  if m_valid g then
    let '(error, t1) := glGetError t in
    let t2 := wglMakeCurrent (m_glDC g) (m_glRC g) t1 in
    (if N.eqb error GL_NO_ERROR then None else Some (OpenGLError error), t2)
  else
    (None, t).

(** How the protected region leaves the scope. *)
Inductive Exit (A E : Type) : Type :=
| Normal (a : A)
| Raised (e : E).
Arguments Normal {A E} a.
Arguments Raised {A E} e.

(** What the caller of the scope sees.  A destructor that throws while
    the stack is unwound for another exception ends the process
    ([std::terminate]). *)
Inductive ScopeResult (A E : Type) : Type :=
| Completed (a : A)
| Failed (e : Exn)
| Propagated (e : E)
| Terminated.
Arguments Completed {A E} a.
Arguments Failed {A E} e.
Arguments Propagated {A E} e.
Arguments Terminated {A E}.

(** [{ GlContextSwitch context(ctx); region }]: the object lives for the
    block, its destructor runs on every exit of [region]. *)
Definition scoped {A E : Type} (fuel : nat) (context : GlContext)
    (region : GlThread -> Exit A E * GlThread) (t : GlThread)
  : option (ScopeResult A E * GlThread) :=
  match construct fuel context t with
  | None => None
  | Some (g, t1) =>
      let '(x, t2) := region t1 in
      let '(d, t3) := destruct_ g t2 in
      Some (match x, d with
            | Normal a, None => Completed a
            | Normal _, Some e => Failed e
            | Raised e, None => Propagated e
            | Raised _, Some _ => Terminated
            end, t3)
  end.

(** A region that records the codes [errs] on the current context, in
    this order, and returns. *)
Definition raiseErrors (errs : list positive) (t : GlThread) : Exit unit unit * GlThread :=
  (Normal tt, setFlags (currentRC t) (errorFlags t (currentRC t) ++ errs) t).

(** The same, leaving by an exception. *)
Definition raiseErrorsAndThrow (errs : list positive) (t : GlThread)
  : Exit unit unit * GlThread :=
  (Raised tt, setFlags (currentRC t) (errorFlags t (currentRC t) ++ errs) t).

(** A thread of the host application: context [(7, 8)] current, nothing
    recorded anywhere. *)
Definition hostThread : GlThread :=
  {| currentDC := 7%N; currentRC := 8%N; errorFlags := fun _ => [] |}.

Definition runtimeContext : GlContext := {| glDC := 3%N; glRC := 4%N; valid := true |}.
Definition invalidContext : GlContext := {| glDC := 3%N; glRC := 4%N; valid := false |}.

End Gl.

(* ------------------------------------------------------------------ *)
(** ** The OpenXR and PVR data the runtime handles *)

Module Xr.

Import Float32.

(** The [XrResult] codes that [system.cpp] returns. *)
Inductive XrResult : Type :=
| XR_SUCCESS
| XR_ERROR_VALIDATION_FAILURE
| XR_ERROR_HANDLE_INVALID
| XR_ERROR_SIZE_INSUFFICIENT
| XR_ERROR_SYSTEM_INVALID
| XR_ERROR_FORM_FACTOR_UNSUPPORTED
| XR_ERROR_FORM_FACTOR_UNAVAILABLE
| XR_ERROR_VIEW_CONFIGURATION_TYPE_UNSUPPORTED.

Inductive XrStructureType : Type :=
| XR_TYPE_SYSTEM_GET_INFO
| XR_TYPE_SYSTEM_PROPERTIES
| XR_TYPE_SYSTEM_HAND_TRACKING_PROPERTIES_EXT
| XR_TYPE_SYSTEM_EYE_GAZE_INTERACTION_PROPERTIES_EXT
| XR_TYPE_OTHER (code : Z).

Inductive XrFormFactor : Type :=
| XR_FORM_FACTOR_HEAD_MOUNTED_DISPLAY
| XR_FORM_FACTOR_HANDHELD_DISPLAY
| XR_FORM_FACTOR_OTHER (code : Z).

Inductive XrViewConfigurationType : Type :=
| XR_VIEW_CONFIGURATION_TYPE_PRIMARY_MONO
| XR_VIEW_CONFIGURATION_TYPE_PRIMARY_STEREO
| XR_VIEW_CONFIGURATION_TYPE_OTHER (code : Z).

Inductive XrEnvironmentBlendMode : Type :=
| XR_ENVIRONMENT_BLEND_MODE_OPAQUE
| XR_ENVIRONMENT_BLEND_MODE_ADDITIVE
| XR_ENVIRONMENT_BLEND_MODE_ALPHA_BLEND.

(** Handles and atoms are 64-bit integers. *)
Definition XrInstance : Type := N.
Definition XrSystemId : Type := N.

Record XrSystemGetInfo : Type := mkXrSystemGetInfo {
  gi_type : XrStructureType;
  formFactor : XrFormFactor
}.

Record XrFovf : Type := mkXrFovf {
  angleLeft : float32;
  angleRight : float32;
  angleUp : float32;
  angleDown : float32
}.

(** An entry of a [next] chain, seen as the source sees it after its
    [reinterpret_cast]: the type tag and the [XrBool32] that follows the
    [next] pointer ([supportsHandTracking], [supportsEyeGazeInteraction]). *)
Record XrChainStruct : Type := mkXrChainStruct {
  cs_type : XrStructureType;
  cs_supports : bool
}.

Record XrSystemTrackingProperties : Type := mkXrSystemTrackingProperties {
  orientationTracking : bool;
  positionTracking : bool
}.

Record XrSystemGraphicsProperties : Type := mkXrSystemGraphicsProperties {
  maxSwapchainImageHeight : N;
  maxSwapchainImageWidth : N;
  maxLayerCount : N
}.

Record XrSystemProperties : Type := mkXrSystemProperties {
  sp_type : XrStructureType;
  sp_next : list XrChainStruct;
  sp_systemId : XrSystemId;
  sp_vendorId : Z;
  sp_systemName : string;
  graphicsProperties : XrSystemGraphicsProperties;
  trackingProperties : XrSystemTrackingProperties
}.

(** The [pvrResult] codes, as [xr::ToString(pvrResult)] lists them. *)
Inductive pvrResult : Type :=
| pvr_success
| pvr_failed
| pvr_dll_failed
| pvr_dll_wrong
| pvr_interface_not_found
| pvr_invalid_param
| pvr_rpc_failed
| pvr_share_mem_failed
| pvr_unsupport_render_name
| pvr_no_display
| pvr_no_render_device
| pvr_app_not_visible
| pvr_srv_not_ready
| pvr_dll_srv_mismatch
| pvr_app_adapter_mismatch
| pvr_not_support.

Definition pvrResult_eq_dec : forall a b : pvrResult, {a = b} + {a <> b}.
Proof. decide equality. Defined.

(** A [pvrSessionHandle]; [0] is [nullptr]. *)
Definition pvrSessionHandle : Type := N.
Definition nullptr : pvrSessionHandle := 0%N.

Record pvrHmdStatus : Type := mkPvrHmdStatus {
  ServiceReady : bool;
  HmdPresent : bool;
  HmdMounted : bool;
  IsVisible : bool;
  DisplayLost : bool;
  ShouldQuit : bool
}.

(** [pvrHmdStatus status{}]. *)
Definition pvrHmdStatus_zero : pvrHmdStatus :=
  mkPvrHmdStatus false false false false false false.

(** [pvrSizei], members [w] and [h]. *)
Record pvrSizei : Type := mkPvrSizei { size_w : Z; size_h : Z }.

(** The character arrays hold C strings; the model keeps their text. *)
Record pvrHmdInfo : Type := mkPvrHmdInfo {
  VendorId : Z;
  ProductId : Z;
  Manufacturer : string;
  ProductName : string;
  SerialNumber : string;
  FirmwareMinor : Z;
  FirmwareMajor : Z;
  Resolution : pvrSizei
}.

(** [pvrHmdInfo{}]. *)
Definition pvrHmdInfo_zero : pvrHmdInfo :=
  mkPvrHmdInfo 0 0 EmptyString EmptyString EmptyString 0 0 (mkPvrSizei 0 0).

Record pvrQuatf : Type := mkPvrQuatf {
  qx : float32; qy : float32; qz : float32; qw : float32
}.

Record pvrVector3f : Type := mkPvrVector3f {
  vx : float32; vy : float32; vz : float32
}.

Record pvrPosef : Type := mkPvrPosef {
  Orientation : pvrQuatf;
  Position : pvrVector3f
}.

Record pvrFovPort : Type := mkPvrFovPort {
  UpTan : float32;
  DownTan : float32;
  LeftTan : float32;
  RightTan : float32
}.

(** The members of [pvrEyeRenderInfo] that the runtime reads. *)
Record pvrEyeRenderInfo : Type := mkPvrEyeRenderInfo {
  Fov : pvrFovPort;
  HmdToEyePose : pvrPosef
}.

Definition pvrEyeRenderInfo_zero : pvrEyeRenderInfo :=
  mkPvrEyeRenderInfo (mkPvrFovPort zero zero zero zero)
    (mkPvrPosef (mkPvrQuatf zero zero zero zero) (mkPvrVector3f zero zero zero)).

Definition XrFovf_zero : XrFovf := mkXrFovf zero zero zero zero.

Inductive pvrEyeType : Type := pvrEye_Left | pvrEye_Right.

Inductive pvrTrackingOrigin : Type :=
| pvrTrackingOrigin_EyeLevel
| pvrTrackingOrigin_FloorLevel.

(** [enum class EyeTracking]. *)
Inductive EyeTracking : Type :=
| EyeTracking_None
| EyeTracking_PVR
| EyeTracking_aSeeVR
| EyeTracking_Simulated.

(** [xr::StereoView]: the indices of the two-element per-eye arrays. *)
Inductive StereoView : Type := StereoView_Left | StereoView_Right.

Record PerEye (A : Type) : Type := mkPerEye {
  eyeLeft : A;
  eyeRight : A
}.

Definition getEye {A : Type} (a : PerEye A) (i : StereoView) : A :=
  match i with
  | StereoView_Left => eyeLeft a
  | StereoView_Right => eyeRight a
  end.

Definition setEye {A : Type} (a : PerEye A) (i : StereoView) (v : A) : PerEye A :=
  match i with
  | StereoView_Left => mkPerEye v (eyeRight a)
  | StereoView_Right => mkPerEye (eyeLeft a) v
  end.

(** Conversions between [int] and [bool]. *)
Definition int_to_bool (n : Z) : bool := negb (Z.eqb n 0).
Definition bool_to_int (b : bool) : Z := if b then 1%Z else 0%Z.

(** [std::optional<int>::value_or]. *)
Definition value_or (o : option Z) (dflt : Z) : Z :=
  match o with
  | Some v => v
  | None => dflt
  end.

End Xr.

(* ------------------------------------------------------------------ *)
(** ** The runtime object and the PVR service *)

Module Runtime.

Import Float32 Xr.

(** The members of [OpenXrRuntime] that [system.cpp] reads or writes. *)
Record OpenXrRuntime : Type := mkOpenXrRuntime {
  m_instanceCreated : bool;
  m_systemCreated : bool;
  has_XR_EXT_hand_tracking : bool;
  has_XR_EXT_eye_gaze_interaction : bool;
  m_pvrSession : pvrSessionHandle;
  m_cachedHmdInfo : pvrHmdInfo;
  m_cachedEyeInfo : PerEye pvrEyeRenderInfo;
  m_cachedEyeFov : PerEye XrFovf;
  m_floorHeight : float32;
  m_useParallelProjection : bool;
  m_fovLevel : Z;
  m_isEyeTrackingAvailable : bool;
  m_eyeTrackingType : EyeTracking
}.

Definition set_m_systemCreated (v : bool) (r : OpenXrRuntime) : OpenXrRuntime :=
  mkOpenXrRuntime (m_instanceCreated r) v (has_XR_EXT_hand_tracking r)
    (has_XR_EXT_eye_gaze_interaction r) (m_pvrSession r) (m_cachedHmdInfo r)
    (m_cachedEyeInfo r) (m_cachedEyeFov r) (m_floorHeight r)
    (m_useParallelProjection r) (m_fovLevel r) (m_isEyeTrackingAvailable r)
    (m_eyeTrackingType r).

Definition set_m_pvrSession (v : pvrSessionHandle) (r : OpenXrRuntime) : OpenXrRuntime :=
  mkOpenXrRuntime (m_instanceCreated r) (m_systemCreated r) (has_XR_EXT_hand_tracking r)
    (has_XR_EXT_eye_gaze_interaction r) v (m_cachedHmdInfo r)
    (m_cachedEyeInfo r) (m_cachedEyeFov r) (m_floorHeight r)
    (m_useParallelProjection r) (m_fovLevel r) (m_isEyeTrackingAvailable r)
    (m_eyeTrackingType r).

Definition set_m_cachedHmdInfo (v : pvrHmdInfo) (r : OpenXrRuntime) : OpenXrRuntime :=
  mkOpenXrRuntime (m_instanceCreated r) (m_systemCreated r) (has_XR_EXT_hand_tracking r)
    (has_XR_EXT_eye_gaze_interaction r) (m_pvrSession r) v
    (m_cachedEyeInfo r) (m_cachedEyeFov r) (m_floorHeight r)
    (m_useParallelProjection r) (m_fovLevel r) (m_isEyeTrackingAvailable r)
    (m_eyeTrackingType r).

Definition set_m_cachedEyeInfo (v : PerEye pvrEyeRenderInfo) (r : OpenXrRuntime)
  : OpenXrRuntime :=
  mkOpenXrRuntime (m_instanceCreated r) (m_systemCreated r) (has_XR_EXT_hand_tracking r)
    (has_XR_EXT_eye_gaze_interaction r) (m_pvrSession r) (m_cachedHmdInfo r)
    v (m_cachedEyeFov r) (m_floorHeight r)
    (m_useParallelProjection r) (m_fovLevel r) (m_isEyeTrackingAvailable r)
    (m_eyeTrackingType r).

Definition set_m_cachedEyeFov (v : PerEye XrFovf) (r : OpenXrRuntime) : OpenXrRuntime :=
  mkOpenXrRuntime (m_instanceCreated r) (m_systemCreated r) (has_XR_EXT_hand_tracking r)
    (has_XR_EXT_eye_gaze_interaction r) (m_pvrSession r) (m_cachedHmdInfo r)
    (m_cachedEyeInfo r) v (m_floorHeight r)
    (m_useParallelProjection r) (m_fovLevel r) (m_isEyeTrackingAvailable r)
    (m_eyeTrackingType r).

Definition set_m_floorHeight (v : float32) (r : OpenXrRuntime) : OpenXrRuntime :=
  mkOpenXrRuntime (m_instanceCreated r) (m_systemCreated r) (has_XR_EXT_hand_tracking r)
    (has_XR_EXT_eye_gaze_interaction r) (m_pvrSession r) (m_cachedHmdInfo r)
    (m_cachedEyeInfo r) (m_cachedEyeFov r) v
    (m_useParallelProjection r) (m_fovLevel r) (m_isEyeTrackingAvailable r)
    (m_eyeTrackingType r).

Definition set_m_useParallelProjection (v : bool) (r : OpenXrRuntime) : OpenXrRuntime :=
  mkOpenXrRuntime (m_instanceCreated r) (m_systemCreated r) (has_XR_EXT_hand_tracking r)
    (has_XR_EXT_eye_gaze_interaction r) (m_pvrSession r) (m_cachedHmdInfo r)
    (m_cachedEyeInfo r) (m_cachedEyeFov r) (m_floorHeight r)
    v (m_fovLevel r) (m_isEyeTrackingAvailable r)
    (m_eyeTrackingType r).

Definition set_m_fovLevel (v : Z) (r : OpenXrRuntime) : OpenXrRuntime :=
  mkOpenXrRuntime (m_instanceCreated r) (m_systemCreated r) (has_XR_EXT_hand_tracking r)
    (has_XR_EXT_eye_gaze_interaction r) (m_pvrSession r) (m_cachedHmdInfo r)
    (m_cachedEyeInfo r) (m_cachedEyeFov r) (m_floorHeight r)
    (m_useParallelProjection r) v (m_isEyeTrackingAvailable r)
    (m_eyeTrackingType r).

Definition set_m_isEyeTrackingAvailable (v : bool) (r : OpenXrRuntime) : OpenXrRuntime :=
  mkOpenXrRuntime (m_instanceCreated r) (m_systemCreated r) (has_XR_EXT_hand_tracking r)
    (has_XR_EXT_eye_gaze_interaction r) (m_pvrSession r) (m_cachedHmdInfo r)
    (m_cachedEyeInfo r) (m_cachedEyeFov r) (m_floorHeight r)
    (m_useParallelProjection r) (m_fovLevel r) v
    (m_eyeTrackingType r).

Definition set_m_eyeTrackingType (v : EyeTracking) (r : OpenXrRuntime) : OpenXrRuntime :=
  mkOpenXrRuntime (m_instanceCreated r) (m_systemCreated r) (has_XR_EXT_hand_tracking r)
    (has_XR_EXT_eye_gaze_interaction r) (m_pvrSession r) (m_cachedHmdInfo r)
    (m_cachedEyeInfo r) (m_cachedEyeFov r) (m_floorHeight r)
    (m_useParallelProjection r) (m_fovLevel r) (m_isEyeTrackingAvailable r)
    v.

(** The cached device-capability snapshot: what the device-change branch
    of [xrGetSystem] derives and stores. *)
Record Snapshot : Type := mkSnapshot {
  snap_hmdInfo : pvrHmdInfo;
  snap_eyeInfo : PerEye pvrEyeRenderInfo;
  snap_eyeFov : PerEye XrFovf;
  snap_floorHeight : float32;
  snap_useParallelProjection : bool;
  snap_fovLevel : Z;
  snap_isEyeTrackingAvailable : bool;
  snap_eyeTrackingType : EyeTracking
}.

Definition snapshot (r : OpenXrRuntime) : Snapshot :=
  mkSnapshot (m_cachedHmdInfo r) (m_cachedEyeInfo r) (m_cachedEyeFov r)
    (m_floorHeight r) (m_useParallelProjection r) (m_fovLevel r)
    (m_isEyeTrackingAvailable r) (m_eyeTrackingType r).

(** The part of the snapshot that is not the identity of the device. *)
Definition sameGeometry (a b : OpenXrRuntime) : Prop :=
  m_cachedEyeInfo a = m_cachedEyeInfo b
  /\ m_cachedEyeFov a = m_cachedEyeFov b
  /\ m_floorHeight a = m_floorHeight b
  /\ m_useParallelProjection a = m_useParallelProjection b
  /\ m_fovLevel a = m_fovLevel b
  /\ m_isEyeTrackingAvailable a = m_isEyeTrackingAvailable b
  /\ m_eyeTrackingType a = m_eyeTrackingType b.

(** A runtime on which no device has been seen yet. *)
Definition freshRuntime : OpenXrRuntime :=
  mkOpenXrRuntime true false false false nullptr pvrHmdInfo_zero
    (mkPerEye pvrEyeRenderInfo_zero pvrEyeRenderInfo_zero)
    (mkPerEye XrFovf_zero XrFovf_zero) zero false 0 false EyeTracking_None.

Definition defaultSnapshot : Snapshot := snapshot freshRuntime.

(** The PVR client library and the settings store, over a service state
    [W].  Out-parameters are returned next to the result code and are
    written by the caller's model only when the call succeeds. *)
Record PvrApi (W : Type) : Type := mkPvrApi {
  pvr_createSession : W -> pvrResult * pvrSessionHandle * W;
  pvr_destroySession : pvrSessionHandle -> W -> W;
  pvr_getHmdStatus : pvrSessionHandle -> W -> pvrResult * pvrHmdStatus * W;
  pvr_getHmdInfo : pvrSessionHandle -> W -> pvrResult * pvrHmdInfo * W;
  pvr_getEyeRenderInfo :
    pvrSessionHandle -> pvrEyeType -> W -> pvrResult * pvrEyeRenderInfo * W;
  pvr_setIntConfig : pvrSessionHandle -> string -> Z -> W -> pvrResult * W;
  pvr_getIntConfig : pvrSessionHandle -> string -> Z -> W -> Z * W;
  pvr_getFloatConfig : pvrSessionHandle -> string -> float32 -> W -> float32 * W;
  pvr_setTrackingOriginType :
    pvrSessionHandle -> pvrTrackingOrigin -> W -> pvrResult * W;
  getSetting : string -> W -> option Z;
  initializeDroolon : W -> bool * W
}.

(** What the build and the libraries fix: [atan] on [float],
    [PVR::Quatf::Angle], the PVR macro [CONFIG_KEY_EYE_HEIGHT], the
    constant [pvrMaxLayerCount], and whether [NOASEEVRCLIENT] is defined. *)
Record Platform : Type := mkPlatform {
  atan : float32 -> float32;
  Quatf_Angle : pvrQuatf -> pvrQuatf -> float32;
  CONFIG_KEY_EYE_HEIGHT : string;
  pvrMaxLayerCount : N;
  NOASEEVRCLIENT : bool
}.

(** The calls made to the service, with what they answered. *)
Inductive Event : Type :=
| EvCreateSession (r : pvrResult) (s : pvrSessionHandle)
| EvDestroySession (s : pvrSessionHandle)
| EvGetHmdStatus (s : pvrSessionHandle) (r : pvrResult) (status : pvrHmdStatus)
| EvGetHmdInfo (s : pvrSessionHandle) (r : pvrResult) (info : pvrHmdInfo)
| EvGetEyeRenderInfo (s : pvrSessionHandle) (eye : pvrEyeType) (r : pvrResult)
    (info : pvrEyeRenderInfo)
| EvSetIntConfig (s : pvrSessionHandle) (key : string) (v : Z) (r : pvrResult)
| EvGetIntConfig (s : pvrSessionHandle) (key : string) (dflt : Z) (v : Z)
| EvGetFloatConfig (s : pvrSessionHandle) (key : string) (dflt : float32) (v : float32)
| EvSetTrackingOriginType (s : pvrSessionHandle) (origin : pvrTrackingOrigin) (r : pvrResult)
| EvGetSetting (key : string) (v : option Z)
| EvInitializeDroolon (b : bool).

(** The exception of [CHECK_PVRCMD]: the failing code and the command. *)
Inductive Exn : Type :=
| PvrFailure (r : pvrResult) (originator : string).

Inductive Result (A : Type) : Type :=
| Done (a : A)
| Thrown (e : Exn).
Arguments Done {A} a.
Arguments Thrown {A} e.

End Runtime.

(* ------------------------------------------------------------------ *)
(** ** [system.cpp] *)

Module System.

Import Float32 Xr Runtime.

(** The state a member function runs in: the runtime object, the state of
    the PVR service, and the calls made so far, oldest first. *)
Record St (W : Type) : Type := mkSt {
  rt : OpenXrRuntime;
  world : W;
  trace : list Event
}.
Arguments mkSt {W} rt world trace.

(** State and exception monad: an exception keeps the state reached when
    it was thrown. *)
Definition M (W A : Type) : Type := St W -> Result A * St W.

Definition ret {W A : Type} (a : A) : M W A := fun s => (Done a, s).

Definition bind {W A B : Type} (m : M W A) (k : A -> M W B) : M W B :=
  fun s =>
    match m s with
    | (Done a, s') => k a s'
    | (Thrown e, s') => (Thrown e, s')
    end.

Definition throw {W A : Type} (e : Exn) : M W A := fun s => (Thrown e, s).

Definition getRuntime {W : Type} : M W OpenXrRuntime := fun s => (Done (rt s), s).

Definition modifyRuntime {W : Type} (f : OpenXrRuntime -> OpenXrRuntime) : M W unit :=
  fun s => (Done tt, mkSt (f (rt s)) (world s) (trace s)).

Declare Scope sys_scope.
Delimit Scope sys_scope with sys.
Notation "x <- m ;; k" := (bind m (fun x => k))
  (at level 61, m at next level, right associativity) : sys_scope.
Notation "' p <- m ;; k" := (bind m (fun p => k))
  (at level 61, p pattern, m at next level, right associativity) : sys_scope.
Notation "m ;; k" := (bind m (fun _ => k))
  (at level 61, right associativity) : sys_scope.
Open Scope sys_scope.

(** The serial numbers the service reported in a trace. *)
Fixpoint reportedSerials (tr : list Event) : list string :=
  match tr with
  | [] => []
  | EvGetHmdInfo _ pvr_success info :: rest => SerialNumber info :: reportedSerials rest
  | _ :: rest => reportedSerials rest
  end.

Section Code.

Context {W : Type}.
Variable pvr : PvrApi W.
Variable pf : Platform.

(** *** The service calls, each recorded in the trace *)

Definition call_createSession : M W (pvrResult * pvrSessionHandle) :=
  fun s =>
    let '(r, h, w') := pvr_createSession pvr (world s) in
    (Done (r, h), mkSt (rt s) w' (trace s ++ [EvCreateSession r h])).

Definition call_destroySession (h : pvrSessionHandle) : M W unit :=
  fun s =>
    (Done tt, mkSt (rt s) (pvr_destroySession pvr h (world s))
                (trace s ++ [EvDestroySession h])).

Definition call_getHmdStatus (h : pvrSessionHandle) : M W (pvrResult * pvrHmdStatus) :=
  fun s =>
    let '(r, status, w') := pvr_getHmdStatus pvr h (world s) in
    (Done (r, status), mkSt (rt s) w' (trace s ++ [EvGetHmdStatus h r status])).

Definition call_getHmdInfo (h : pvrSessionHandle) : M W (pvrResult * pvrHmdInfo) :=
  fun s =>
    let '(r, info, w') := pvr_getHmdInfo pvr h (world s) in
    (Done (r, info), mkSt (rt s) w' (trace s ++ [EvGetHmdInfo h r info])).

Definition call_getEyeRenderInfo (h : pvrSessionHandle) (eye : pvrEyeType)
  : M W (pvrResult * pvrEyeRenderInfo) :=
  fun s =>
    let '(r, info, w') := pvr_getEyeRenderInfo pvr h eye (world s) in
    (Done (r, info), mkSt (rt s) w' (trace s ++ [EvGetEyeRenderInfo h eye r info])).

Definition call_setIntConfig (h : pvrSessionHandle) (key : string) (v : Z)
  : M W pvrResult :=
  fun s =>
    let '(r, w') := pvr_setIntConfig pvr h key v (world s) in
    (Done r, mkSt (rt s) w' (trace s ++ [EvSetIntConfig h key v r])).

Definition call_getIntConfig (h : pvrSessionHandle) (key : string) (dflt : Z)
  : M W Z :=
  fun s =>
    let '(v, w') := pvr_getIntConfig pvr h key dflt (world s) in
    (Done v, mkSt (rt s) w' (trace s ++ [EvGetIntConfig h key dflt v])).

Definition call_getFloatConfig (h : pvrSessionHandle) (key : string) (dflt : float32)
  : M W float32 :=
  fun s =>
    let '(v, w') := pvr_getFloatConfig pvr h key dflt (world s) in
    (Done v, mkSt (rt s) w' (trace s ++ [EvGetFloatConfig h key dflt v])).

Definition call_setTrackingOriginType (h : pvrSessionHandle) (o : pvrTrackingOrigin)
  : M W pvrResult :=
  fun s =>
    let '(r, w') := pvr_setTrackingOriginType pvr h o (world s) in
    (Done r, mkSt (rt s) w' (trace s ++ [EvSetTrackingOriginType h o r])).

Definition call_getSetting (key : string) : M W (option Z) :=
  fun s =>
    let v := getSetting pvr key (world s) in
    (Done v, mkSt (rt s) (world s) (trace s ++ [EvGetSetting key v])).

Definition call_initializeDroolon : M W bool :=
  fun s =>
    let '(b, w') := initializeDroolon pvr (world s) in
    (Done b, mkSt (rt s) w' (trace s ++ [EvInitializeDroolon b])).

(** [CHECK_PVRCMD(cmd)]: [xr::detail::_CheckPVRResult]. *)
Definition CHECK_PVRCMD (r : pvrResult) (originator : string) : M W unit :=
  if pvrResult_eq_dec r pvr_success then ret tt else throw (PvrFailure r originator).

(** *** [OpenXrRuntime::ensurePvrSession] *)

Definition ensurePvrSession : M W bool :=
  r0 <- getRuntime ;;
  if N.eqb (m_pvrSession r0) nullptr then
    ' (result, h) <- call_createSession ;;
    (* the handle is written through [&m_pvrSession] on success *)
    (if pvrResult_eq_dec result pvr_success
     then modifyRuntime (set_m_pvrSession h) else ret tt) ;;
    if pvrResult_eq_dec result pvr_rpc_failed then ret false
    else
      CHECK_PVRCMD result "pvr_createSession" ;;
      r1 <- getRuntime ;;
      c <- call_setIntConfig (m_pvrSession r1) "view_rotation_fix"
             (bool_to_int (m_useParallelProjection r1)) ;;
      CHECK_PVRCMD c "pvr_setIntConfig" ;;
      t <- call_setTrackingOriginType (m_pvrSession r1) pvrTrackingOrigin_EyeLevel ;;
      CHECK_PVRCMD t "pvr_setTrackingOriginType" ;;
      ret true
  else ret true.

(** *** The device-change branch of [xrGetSystem] *)

(** [pvr_getEyeRenderInfo(m_pvrSession, eye, &m_cachedEyeInfo[view])] under
    [CHECK_PVRCMD]. *)
Definition cacheEyeRenderInfo (eye : pvrEyeType) (view : StereoView) : M W unit :=
  r0 <- getRuntime ;;
  ' (c, info) <- call_getEyeRenderInfo (m_pvrSession r0) eye ;;
  (if pvrResult_eq_dec c pvr_success
   then modifyRuntime (fun r => set_m_cachedEyeInfo (setEye (m_cachedEyeInfo r) view info) r)
   else ret tt) ;;
  CHECK_PVRCMD c "pvr_getEyeRenderInfo".

(** The selection of [m_eyeTrackingType]. *)
Definition detectEyeTracker : M W unit :=
  modifyRuntime (set_m_eyeTrackingType EyeTracking_None) ;;
  r0 <- getRuntime ;;
  if has_XR_EXT_eye_gaze_interaction r0 then
    dbg <- call_getSetting "debug_eye_tracker" ;;
    if int_to_bool (value_or dbg (bool_to_int false)) then
      modifyRuntime (set_m_eyeTrackingType EyeTracking_Simulated)
    else if Z.eqb (VendorId (m_cachedHmdInfo r0)) 13476 (* 0x34A4 *)
            && Z.eqb (ProductId (m_cachedHmdInfo r0)) 18 (* 0x0012 *) then
      modifyRuntime (set_m_eyeTrackingType EyeTracking_PVR)
    else if NOASEEVRCLIENT pf then ret tt
    else
      b <- call_initializeDroolon ;;
      if b then modifyRuntime (set_m_eyeTrackingType EyeTracking_aSeeVR) else ret tt
  else ret tt.

(** [cantingAngle > 0.0001f &&
     getSetting("force_parallel_projection_state")
       .value_or(!pvr_getIntConfig(m_pvrSession, "steamvr_use_native_fov", 0))]:
    [&&] evaluates its right operand only when the left one holds; the
    argument of [value_or] is evaluated whether or not the setting exists. *)
Definition decideParallelProjection (cantingAngle : float32) : M W bool :=
  if gt cantingAngle epsilon_1e4 then
    r0 <- getRuntime ;;
    forced <- call_getSetting "force_parallel_projection_state" ;;
    nativeFov <- call_getIntConfig (m_pvrSession r0) "steamvr_use_native_fov" 0 ;;
    ret (int_to_bool (value_or forced (bool_to_int (negb (int_to_bool nativeFov)))))
  else ret false.

(** One iteration of the loop over [xr::StereoView]. *)
Definition cacheEyeFov (i : StereoView) (r : OpenXrRuntime) : OpenXrRuntime :=
  let fov := Fov (getEye (m_cachedEyeInfo r) i) in
  set_m_cachedEyeFov
    (setEye (m_cachedEyeFov r) i
       {| angleDown := neg (atan pf (DownTan fov));
          angleUp := atan pf (UpTan fov);
          angleLeft := neg (atan pf (LeftTan fov));
          angleRight := atan pf (RightTan fov) |}) r.

Definition cantingAngleOf (r : OpenXrRuntime) : float32 :=
  div (Quatf_Angle pf
         (Orientation (HmdToEyePose (getEye (m_cachedEyeInfo r) StereoView_Left)))
         (Orientation (HmdToEyePose (getEye (m_cachedEyeInfo r) StereoView_Right))))
      two.

Definition deviceChanged (hmdInfo : pvrHmdInfo) : M W unit :=
  modifyRuntime (set_m_cachedHmdInfo hmdInfo) ;;
  r0 <- getRuntime ;;
  c <- call_setIntConfig (m_pvrSession r0) "view_rotation_fix" 0 ;;
  CHECK_PVRCMD c "pvr_setIntConfig" ;;
  consent <- call_getSetting "allow_eye_tracking" ;;
  modifyRuntime
    (set_m_isEyeTrackingAvailable (int_to_bool (value_or consent (bool_to_int false)))) ;;
  detectEyeTracker ;;
  r1 <- getRuntime ;;
  (match m_eyeTrackingType r1 with
   | EyeTracking_None => modifyRuntime (set_m_isEyeTrackingAvailable false)
   | _ => ret tt
   end) ;;
  cacheEyeRenderInfo pvrEye_Left StereoView_Left ;;
  cacheEyeRenderInfo pvrEye_Right StereoView_Right ;;
  floor <- call_getFloatConfig (m_pvrSession r0) (CONFIG_KEY_EYE_HEIGHT pf) zero ;;
  modifyRuntime (set_m_floorHeight floor) ;;
  r2 <- getRuntime ;;
  use <- decideParallelProjection (cantingAngleOf r2) ;;
  modifyRuntime (set_m_useParallelProjection use) ;;
  (if use then
     c1 <- call_setIntConfig (m_pvrSession r0) "view_rotation_fix" 1 ;;
     CHECK_PVRCMD c1 "pvr_setIntConfig" ;;
     cacheEyeRenderInfo pvrEye_Left StereoView_Left ;;
     cacheEyeRenderInfo pvrEye_Right StereoView_Right
   else ret tt) ;;
  level <- call_getIntConfig (m_pvrSession r0) "fov_level" 0 ;;
  modifyRuntime (set_m_fovLevel level) ;;
  modifyRuntime (fun r => fold_left (fun acc i => cacheEyeFov i acc)
                            [StereoView_Left; StereoView_Right] r) ;;
  t <- call_setTrackingOriginType (m_pvrSession r0) pvrTrackingOrigin_EyeLevel ;;
  CHECK_PVRCMD t "pvr_setTrackingOriginType".

(** *** [OpenXrRuntime::xrGetSystem]

    The result code comes with what was stored through [systemId], if
    anything. *)
Definition xrGetSystem (instance : XrInstance) (getInfo : XrSystemGetInfo)
  : M W (XrResult * option XrSystemId) :=
  match gi_type getInfo with
  | XR_TYPE_SYSTEM_GET_INFO =>
    r0 <- getRuntime ;;
    if negb (m_instanceCreated r0) || negb (N.eqb instance 1) then
      ret (XR_ERROR_HANDLE_INVALID, None)
    else
    match formFactor getInfo with
    | XR_FORM_FACTOR_HEAD_MOUNTED_DISPLAY =>
      ' (status, isStatusValid) <-
        (if negb (N.eqb (m_pvrSession r0) nullptr) then
           ' (c, st) <- call_getHmdStatus (m_pvrSession r0) ;;
           CHECK_PVRCMD c "pvr_getHmdStatus" ;;
           if ShouldQuit st then
             call_destroySession (m_pvrSession r0) ;;
             modifyRuntime (set_m_pvrSession nullptr) ;;
             ret (st, false)
           else ret (st, true)
         else ret (pvrHmdStatus_zero, false)) ;;
      created <- ensurePvrSession ;;
      if negb created then
        modifyRuntime (set_m_cachedHmdInfo pvrHmdInfo_zero) ;;
        ret (XR_ERROR_FORM_FACTOR_UNAVAILABLE, None)
      else
        status <-
          (if negb isStatusValid then
             r1 <- getRuntime ;;
             ' (c, st) <- call_getHmdStatus (m_pvrSession r1) ;;
             CHECK_PVRCMD c "pvr_getHmdStatus" ;;
             ret st
           else ret status) ;;
        if negb (ServiceReady status && HmdPresent status) then
          modifyRuntime (set_m_cachedHmdInfo pvrHmdInfo_zero) ;;
          ret (XR_ERROR_FORM_FACTOR_UNAVAILABLE, None)
        else
          r2 <- getRuntime ;;
          ' (c, hmdInfo) <- call_getHmdInfo (m_pvrSession r2) ;;
          CHECK_PVRCMD c "pvr_getHmdInfo" ;;
          (if negb (String.eqb (SerialNumber (m_cachedHmdInfo r2)) (SerialNumber hmdInfo))
           then deviceChanged hmdInfo else ret tt) ;;
          modifyRuntime (set_m_systemCreated true) ;;
          ret (XR_SUCCESS, Some 1%N)
    | _ => ret (XR_ERROR_FORM_FACTOR_UNSUPPORTED, None)
    end
  | _ => ret (XR_ERROR_VALIDATION_FAILURE, None)
  end.

(** *** [OpenXrRuntime::xrGetSystemProperties] *)

Definition isHandTrackingProperties (t : XrStructureType) : bool :=
  match t with
  | XR_TYPE_SYSTEM_HAND_TRACKING_PROPERTIES_EXT => true
  | _ => false
  end.

Definition isEyeGazeInteractionProperties (t : XrStructureType) : bool :=
  match t with
  | XR_TYPE_SYSTEM_EYE_GAZE_INTERACTION_PROPERTIES_EXT => true
  | _ => false
  end.

(** The walk along [next] until an entry has the wanted type: its position
    in the chain, or [None] for a null pointer at the end. *)
Fixpoint findInChain (wanted : XrStructureType -> bool) (chain : list XrChainStruct)
  : option nat :=
  match chain with
  | [] => None
  | e :: rest =>
      if wanted (cs_type e) then Some O
      else option_map S (findInChain wanted rest)
  end.

Fixpoint setSupports (i : nat) (v : bool) (chain : list XrChainStruct)
  : list XrChainStruct :=
  match chain, i with
  | [], _ => []
  | e :: rest, O => mkXrChainStruct (cs_type e) v :: rest
  | e :: rest, S i' => e :: setSupports i' v rest
  end.

Definition xrGetSystemProperties (r : OpenXrRuntime) (instance : XrInstance)
    (systemId : XrSystemId) (properties : XrSystemProperties)
  : XrResult * XrSystemProperties :=
  match sp_type properties with
  | XR_TYPE_SYSTEM_PROPERTIES =>
    if negb (m_instanceCreated r) || negb (N.eqb instance 1) then
      (XR_ERROR_HANDLE_INVALID, properties)
    else if negb (m_systemCreated r) || negb (N.eqb systemId 1) then
      (XR_ERROR_SYSTEM_INVALID, properties)
    else
      let handTrackingProperties := findInChain isHandTrackingProperties (sp_next properties) in
      let eyeGazeInteractionProperties :=
        findInChain isEyeGazeInteractionProperties (sp_next properties) in
      let chain1 :=
        match handTrackingProperties with
        | Some i =>
            if has_XR_EXT_hand_tracking r then setSupports i true (sp_next properties)
            else sp_next properties
        | None => sp_next properties
        end in
      let chain2 :=
        match eyeGazeInteractionProperties with
        | Some i =>
            if has_XR_EXT_eye_gaze_interaction r
            then setSupports i (m_isEyeTrackingAvailable r) chain1
            else chain1
        | None => chain1
        end in
      (XR_SUCCESS,
       {| sp_type := sp_type properties;
          sp_next := chain2;
          sp_systemId := systemId;
          sp_vendorId := VendorId (m_cachedHmdInfo r);
          sp_systemName := ProductName (m_cachedHmdInfo r);
          graphicsProperties :=
            {| maxSwapchainImageHeight := 16384;
               maxSwapchainImageWidth := 16384;
               maxLayerCount := pvrMaxLayerCount pf |};
          trackingProperties :=
            {| orientationTracking := true; positionTracking := true |} |})
  | _ => (XR_ERROR_VALIDATION_FAILURE, properties)
  end.

(** *** [OpenXrRuntime::xrEnumerateEnvironmentBlendModes] *)

(** [static const XrEnvironmentBlendMode blendModes[]]. *)
Definition blendModes : list XrEnvironmentBlendMode := [XR_ENVIRONMENT_BLEND_MODE_OPAQUE].

Definition ARRAYSIZE {A : Type} (a : list A) : N := N.of_nat (List.length a).

(** [a[i] = v]; the caller's array has at least the announced capacity, a
    store past its end is not modelled. *)
Fixpoint store {A : Type} (i : nat) (v : A) (a : list A) : list A :=
  match a, i with
  | [], _ => []
  | _ :: rest, O => v :: rest
  | x :: rest, S i' => x :: store i' v rest
  end.

(** [for (uint32_t i = from; i < from + n; i++) out[i] = blendModes[i];] *)
Fixpoint copyBlendModes (n : nat) (from : nat) (out : list XrEnvironmentBlendMode)
  : list XrEnvironmentBlendMode :=
  match n with
  | O => out
  | S n' =>
      copyBlendModes n' (S from)
        (store from (nth from blendModes XR_ENVIRONMENT_BLEND_MODE_OPAQUE) out)
  end.

(** The outputs: what was stored through [environmentBlendModeCountOutput]
    ([None]: nothing), and the caller's array [environmentBlendModes]
    ([None]: a null pointer) after the call. *)
Record BlendModesOut : Type := mkBlendModesOut {
  result : XrResult;
  environmentBlendModeCountOutput : option N;
  environmentBlendModes : option (list XrEnvironmentBlendMode)
}.

Definition xrEnumerateEnvironmentBlendModes (r : OpenXrRuntime) (instance : XrInstance)
    (systemId : XrSystemId) (viewConfigurationType : XrViewConfigurationType)
    (environmentBlendModeCapacityInput : N)
    (environmentBlendModes : option (list XrEnvironmentBlendMode))
  : BlendModesOut :=
  if negb (m_instanceCreated r) || negb (N.eqb instance 1) then
    mkBlendModesOut XR_ERROR_HANDLE_INVALID None environmentBlendModes
  else if negb (m_systemCreated r) || negb (N.eqb systemId 1) then
    mkBlendModesOut XR_ERROR_SYSTEM_INVALID None environmentBlendModes
  else
    match viewConfigurationType with
    | XR_VIEW_CONFIGURATION_TYPE_PRIMARY_STEREO =>
      if negb (N.eqb environmentBlendModeCapacityInput 0)
         && N.ltb environmentBlendModeCapacityInput (ARRAYSIZE blendModes) then
        mkBlendModesOut XR_ERROR_SIZE_INSUFFICIENT None environmentBlendModes
      else
        let count := ARRAYSIZE blendModes in
        mkBlendModesOut XR_SUCCESS (Some count)
          (match environmentBlendModes with
           | Some out =>
               if negb (N.eqb environmentBlendModeCapacityInput 0)
               then Some (copyBlendModes (N.to_nat count) O out)
               else Some out
           | None => None
           end)
    | _ =>
      mkBlendModesOut XR_ERROR_VIEW_CONFIGURATION_TYPE_UNSUPPORTED None
        environmentBlendModes
    end.

(** *** Running a member function *)

(** One call of [xrGetSystem] on the runtime [r] against the service state
    [w0], observed from an empty trace. *)
Definition runGetSystem (instance : XrInstance) (getInfo : XrSystemGetInfo)
    (r : OpenXrRuntime) (w0 : W)
  : Result (XrResult * option XrSystemId) * St W :=
  xrGetSystem instance getInfo (mkSt r w0 []).

(** Successive calls of [xrGetSystem] on one runtime object; between two
    calls the service may be in any state, so each call comes with the
    state it finds.  The result lists, per call, what it returned and the
    state it left. *)
Fixpoint runGetSystemCalls (r : OpenXrRuntime)
    (calls : list (XrInstance * XrSystemGetInfo * W))
  : list (Result (XrResult * option XrSystemId) * St W) :=
  match calls with
  | [] => []
  | (instance, getInfo, w0) :: rest =>
      let out := runGetSystem instance getInfo r w0 in
      out :: runGetSystemCalls (rt (snd out)) rest
  end.

(** The calls of a run succeed on an unchanged device: each one returns
    [XR_SUCCESS], and every serial number the service reports during it is
    the one cached when it starts. *)
Fixpoint deviceUnchanged (r : OpenXrRuntime)
    (calls : list (XrInstance * XrSystemGetInfo * W)) : Prop :=
  match calls with
  | [] => True
  | (instance, getInfo, w0) :: rest =>
      let out := runGetSystem instance getInfo r w0 in
      (exists id, fst out = Done (XR_SUCCESS, id))
      /\ Forall (fun sn => sn = SerialNumber (m_cachedHmdInfo r))
           (reportedSerials (trace (snd out)))
      /\ deviceUnchanged (rt (snd out)) rest
  end.

End Code.

(** The queries that only the device-change branch makes: eye geometry,
    configuration values, settings, the eye-tracker probe. *)
Definition isDerivationQuery (e : Event) : bool :=
  match e with
  | EvGetEyeRenderInfo _ _ _ _ | EvGetIntConfig _ _ _ _ | EvGetFloatConfig _ _ _ _
  | EvGetSetting _ _ | EvInitializeDroolon _ => true
  | _ => false
  end.

(** The trace ends on a successful identity query: nothing of what stands
    behind the comparison of the serial numbers was called. *)
Definition endsOnIdentity (tr : list Event) : bool :=
  match rev tr with
  | EvGetHmdInfo _ pvr_success _ :: _ => true
  | _ => false
  end.

Definition isSessionCreation (e : Event) : bool :=
  match e with
  | EvCreateSession _ _ => true
  | _ => false
  end.

(** The calls of the path that runs on every call: one successful status
    query and one successful identity query on the same session, and
    nothing else. *)
Definition isCheapPath (tr : list Event) : bool :=
  match tr with
  | [EvGetHmdStatus h pvr_success _; EvGetHmdInfo h' pvr_success _] => N.eqb h h'
  | _ => false
  end.

(** The trace ends on an answer that makes the headset unavailable: a
    session creation refused with [pvr_rpc_failed], or a status that is not
    both service-ready and HMD-present. *)
Definition endsUnavailable (tr : list Event) : bool :=
  match rev tr with
  | EvCreateSession pvr_rpc_failed _ :: _ => true
  | EvGetHmdStatus _ pvr_success status :: _ =>
      negb (ServiceReady status && HmdPresent status)
  | _ => false
  end.

(** Session management and status queries, as opposed to everything from
    the identity query on. *)
Definition isBringUpEvent (e : Event) : bool :=
  match e with
  | EvCreateSession _ _ | EvDestroySession _ | EvGetHmdStatus _ _ _ => true
  | _ => false
  end.

(** A computation only appends to the trace, and only events that [P]
    accepts. *)
Definition appendsOnly {W A : Type} (P : Event -> bool) (m : M W A) : Prop :=
  forall s res s', m s = (res, s') ->
  exists tr, trace s' = trace s ++ tr /\ forallb P tr = true.

Definition notBringUp (e : Event) : bool := negb (isBringUpEvent e).

End System.



(* ------------------------------------------------------------------ *)
(** ** A scripted PVR service, to run the code on concrete scenarios *)

Module Scripted.

Import Float32 Xr Runtime System.

(** The service answers each kind of call from a list of prepared answers,
    in order; configuration values and settings are looked up by key. *)
Record Script : Type := mkScript {
  onCreateSession : list (pvrResult * pvrSessionHandle);
  onGetHmdStatus : list (pvrResult * pvrHmdStatus);
  onGetHmdInfo : list (pvrResult * pvrHmdInfo);
  onGetEyeRenderInfo : list (pvrResult * pvrEyeRenderInfo);
  intConfig : string -> option Z;
  settings : string -> option Z
}.

Definition scriptedPvr : PvrApi Script :=
  {| pvr_createSession := fun s =>
       match onCreateSession s with
       | [] => (pvr_failed, nullptr, s)
       | (r, h) :: rest =>
           (r, h, mkScript rest (onGetHmdStatus s) (onGetHmdInfo s)
                    (onGetEyeRenderInfo s) (intConfig s) (settings s))
       end;
     pvr_destroySession := fun _ s => s;
     pvr_getHmdStatus := fun _ s =>
       match onGetHmdStatus s with
       | [] => (pvr_failed, pvrHmdStatus_zero, s)
       | (r, st) :: rest =>
           (r, st, mkScript (onCreateSession s) rest (onGetHmdInfo s)
                     (onGetEyeRenderInfo s) (intConfig s) (settings s))
       end;
     pvr_getHmdInfo := fun _ s =>
       match onGetHmdInfo s with
       | [] => (pvr_failed, pvrHmdInfo_zero, s)
       | (r, i) :: rest =>
           (r, i, mkScript (onCreateSession s) (onGetHmdStatus s) rest
                    (onGetEyeRenderInfo s) (intConfig s) (settings s))
       end;
     pvr_getEyeRenderInfo := fun _ _ s =>
       match onGetEyeRenderInfo s with
       | [] => (pvr_failed, pvrEyeRenderInfo_zero, s)
       | (r, i) :: rest =>
           (r, i, mkScript (onCreateSession s) (onGetHmdStatus s) (onGetHmdInfo s)
                    rest (intConfig s) (settings s))
       end;
     pvr_setIntConfig := fun _ _ _ s => (pvr_success, s);
     pvr_getIntConfig := fun _ key dflt s =>
       (match intConfig s key with Some v => v | None => dflt end, s);
     pvr_getFloatConfig := fun _ _ dflt s => (dflt, s);
     pvr_setTrackingOriginType := fun _ _ s => (pvr_success, s);
     getSetting := fun key s => settings s key;
     initializeDroolon := fun s => (false, s) |}.

(** Stand-ins for the math of the platform: [atan] as the identity, and the
    angle between two orientations read off the [w] member of the second. *)
Definition stubPlatform : Platform :=
  {| atan := fun x => x;
     Quatf_Angle := fun _ q => qw q;
     CONFIG_KEY_EYE_HEIGHT := "eye_height";
     pvrMaxLayerCount := 16%N;
     NOASEEVRCLIENT := false |}.

Definition noSettings : string -> option Z := fun _ => None.


Definition statusReady : pvrHmdStatus := mkPvrHmdStatus true true true true false false.
Definition statusShouldQuit : pvrHmdStatus := mkPvrHmdStatus true true true true false true.
Definition statusAbsent : pvrHmdStatus := mkPvrHmdStatus true false false false false false.

Definition deviceA : pvrHmdInfo :=
  mkPvrHmdInfo 13476 16 "Pimax" "Pimax 8KX" "A" 0 1 (mkPvrSizei 3840 2160).

(** An eye whose orientation gives, through [stubPlatform], the angle [a]
    between the eyes, with unit tangents. *)
Definition eyeWithAngle (a : float32) : pvrEyeRenderInfo :=
  mkPvrEyeRenderInfo
    (mkPvrFovPort one_hundredth one_hundredth one_hundredth one_hundredth)
    (mkPvrPosef (mkPvrQuatf zero zero zero a) (mkPvrVector3f zero zero zero)).

(** A service on which nothing answers. *)
Definition silent : Script := mkScript [] [] [] [] noSettings noSettings.

(** The service is not running: session creation fails with
    [pvr_rpc_failed]. *)
Definition unreachable : Script :=
  mkScript [(pvr_rpc_failed, nullptr)] [] [] [] noSettings noSettings.

(** Device "A" is plugged in, its eyes canted by half of [a]; no session
    exists yet, the service hands out session [5]. *)
Definition firstContact (a : float32) (sets : string -> option Z) : Script :=
  mkScript [(pvr_success, 5%N)] [(pvr_success, statusReady)] [(pvr_success, deviceA)]
    [(pvr_success, eyeWithAngle a); (pvr_success, eyeWithAngle a);
     (pvr_success, eyeWithAngle zero); (pvr_success, eyeWithAngle zero)]
    noSettings sets.

(** The session is alive and device "A" is still there. *)
Definition steady : Script :=
  mkScript [] [(pvr_success, statusReady)] [(pvr_success, deviceA)] [] noSettings noSettings.

(** PVR Home took the session over: the status says should-quit, a new
    session [6] can be created, device "A" is still there. *)
Definition takenOver : Script :=
  mkScript [(pvr_success, 6%N)]
    [(pvr_success, statusShouldQuit); (pvr_success, statusReady)]
    [(pvr_success, deviceA)] [] noSettings noSettings.

(** The session is alive but the headset was unplugged. *)
Definition unplugged : Script :=
  mkScript [] [(pvr_success, statusAbsent)] [] [] noSettings noSettings.

Definition hmdGetInfo : XrSystemGetInfo :=
  mkXrSystemGetInfo XR_TYPE_SYSTEM_GET_INFO XR_FORM_FACTOR_HEAD_MOUNTED_DISPLAY.

(** A [getInfo] whose [type] member was left with another tag. *)
Definition mistaggedGetInfo : XrSystemGetInfo :=
  mkXrSystemGetInfo XR_TYPE_SYSTEM_PROPERTIES XR_FORM_FACTOR_HEAD_MOUNTED_DISPLAY.

(** The runtime after its first successful [xrGetSystem], on device "A"
    with eyes canted by 0.01 rad each. *)
Definition runtimeOnDeviceA : OpenXrRuntime :=
  Eval vm_compute in
    rt (snd (runGetSystem scriptedPvr stubPlatform 1%N hmdGetInfo freshRuntime
               (firstContact two_hundredths noSettings))).

Definition mistaggedProperties : XrSystemProperties :=
  {| sp_type := XR_TYPE_SYSTEM_GET_INFO; sp_next := []; sp_systemId := 0%N;
     sp_vendorId := 0; sp_systemName := EmptyString;
     graphicsProperties := mkXrSystemGraphicsProperties 0 0 0;
     trackingProperties := mkXrSystemTrackingProperties false false |}.

End Scripted.

(* ------------------------------------------------------------------ *)
(** ** Vulkan and OpenGL formats ([utils.h]) *)

Module ApiFormat.

Import Format.

(** The enumerators of [VkFormat] that [utils.h] names. *)
Inductive VkFormat : Type :=
| VK_FORMAT_R8G8B8A8_UNORM
| VK_FORMAT_R8G8B8A8_SRGB
| VK_FORMAT_B8G8R8A8_UNORM
| VK_FORMAT_B8G8R8A8_SRGB
| VK_FORMAT_R16G16B16A16_SFLOAT
| VK_FORMAT_D16_UNORM
| VK_FORMAT_D24_UNORM_S8_UINT
| VK_FORMAT_D32_SFLOAT
| VK_FORMAT_D32_SFLOAT_S8_UINT
| VK_FORMAT_OTHER (code : N).

(** The internal formats, of type [GLenum], that [utils.h] names. *)
Inductive GlFormat : Type :=
| GL_RGBA8
| GL_SRGB8_ALPHA8
| GL_RGBA16F
| GL_DEPTH_COMPONENT16
| GL_DEPTH24_STENCIL8
| GL_DEPTH_COMPONENT32F
| GL_DEPTH32F_STENCIL8
| GL_R11F_G11F_B10F
| GL_COMPRESSED_RGBA_S3TC_DXT1_EXT
| GL_FORMAT_OTHER (code : N).

Definition vkToPvrTextureFormat (format : VkFormat) : pvrTextureFormat :=
  match format with
  | VK_FORMAT_R8G8B8A8_UNORM => PVR_FORMAT_R8G8B8A8_UNORM
  | VK_FORMAT_R8G8B8A8_SRGB => PVR_FORMAT_R8G8B8A8_UNORM_SRGB
  | VK_FORMAT_B8G8R8A8_UNORM => PVR_FORMAT_B8G8R8A8_UNORM
  | VK_FORMAT_B8G8R8A8_SRGB => PVR_FORMAT_B8G8R8A8_UNORM_SRGB
  | VK_FORMAT_R16G16B16A16_SFLOAT => PVR_FORMAT_R16G16B16A16_FLOAT
  | VK_FORMAT_D16_UNORM => PVR_FORMAT_D16_UNORM
  | VK_FORMAT_D24_UNORM_S8_UINT => PVR_FORMAT_D24_UNORM_S8_UINT
  | VK_FORMAT_D32_SFLOAT => PVR_FORMAT_D32_FLOAT
  | VK_FORMAT_D32_SFLOAT_S8_UINT => PVR_FORMAT_D32_FLOAT_S8X24_UINT
  | _ => PVR_FORMAT_UNKNOWN
  end.

Definition glToPvrTextureFormat (format : GlFormat) : pvrTextureFormat :=
  match format with
  | GL_RGBA8 => PVR_FORMAT_R8G8B8A8_UNORM
  | GL_SRGB8_ALPHA8 => PVR_FORMAT_R8G8B8A8_UNORM_SRGB
  | GL_RGBA16F => PVR_FORMAT_R16G16B16A16_FLOAT
  | GL_DEPTH_COMPONENT16 => PVR_FORMAT_D16_UNORM
  | GL_DEPTH24_STENCIL8 => PVR_FORMAT_D24_UNORM_S8_UINT
  | GL_DEPTH_COMPONENT32F => PVR_FORMAT_D32_FLOAT
  | GL_DEPTH32F_STENCIL8 => PVR_FORMAT_D32_FLOAT_S8X24_UINT
  | _ => PVR_FORMAT_UNKNOWN
  end.

Definition glGetBytePerPixels (format : GlFormat) : N :=
  match format with
  | GL_DEPTH_COMPONENT16 => 2%N
  | GL_RGBA8
  | GL_SRGB8_ALPHA8
  | GL_DEPTH24_STENCIL8
  | GL_DEPTH_COMPONENT32F
  | GL_R11F_G11F_B10F
  | GL_COMPRESSED_RGBA_S3TC_DXT1_EXT => 4%N
  | GL_RGBA16F
  | GL_DEPTH32F_STENCIL8 => 8%N
  | _ => 0%N
  end.

End ApiFormat.

(* ------------------------------------------------------------------ *)
(** ** String helpers ([utils.h]) *)

Module StringUtil.

Local Open Scope Z_scope.

(** [std::string::npos], the largest [size_t]. *)
Definition npos : Z := 2 ^ 64 - 1.

(** [str.find(substr)]: the position of the first occurrence of [substr]
    in [str], or [npos]. *)
Definition find (str substr : string) : Z :=
  match String.index 0%nat substr str with
  | Some n => Z.of_nat n
  | None => npos
  end.

(** [str.size()]. *)
Definition size (str : string) : Z := Z.of_nat (String.length str).

Definition startsWith (str substr : string) : bool :=
  Z.eqb (find str substr) 0.

(** The difference of the sizes is taken in [size_t]. *)
Definition endsWith (str substr : string) : bool :=
  let pos := find str substr in
  negb (Z.eqb pos npos) && Z.eqb pos ((size str - size substr) mod 2 ^ 64).

End StringUtil.

(* ------------------------------------------------------------------ *)
(** ** Swapchain rectangles ([utils.h]) *)

Module Swapchain.

Local Open Scope Z_scope.

(** The members of [pvrTextureSwapChainDesc] that the test reads; both are
    [int]. *)
Record pvrTextureSwapChainDesc : Type := mkPvrTextureSwapChainDesc {
  Width : Z;
  Height : Z
}.

(** [XrRect2Di]: [offset.x], [offset.y], [extent.width], [extent.height],
    all [int32_t]. *)
Record XrRect2Di : Type := mkXrRect2Di {
  offset_x : Z;
  offset_y : Z;
  extent_width : Z;
  extent_height : Z
}.

Definition INT_MIN : Z := - 2 ^ 31.
Definition INT_MAX : Z := 2 ^ 31 - 1.

Definition isInt (n : Z) : bool := Z.leb INT_MIN n && Z.leb n INT_MAX.

(** [a + b] on [int] as the compiled code computes it: the sum modulo
    [2^32], read as a signed value. *)
Definition int_add (a b : Z) : Z := (a + b + 2 ^ 31) mod 2 ^ 32 - 2 ^ 31.

Definition isValidSwapchainRect (desc : pvrTextureSwapChainDesc) (rect : XrRect2Di)
  : bool :=
  if Z.ltb (offset_x rect) 0 || Z.ltb (offset_y rect) 0
     || Z.leb (extent_width rect) 0 || Z.leb (extent_height rect) 0
  then false
  else if Z.gtb (int_add (offset_x rect) (extent_width rect)) (Width desc)
          || Z.gtb (int_add (offset_y rect) (extent_height rect)) (Height desc)
  then false
  else true.

(** All members of a rectangle hold [int32_t] values. *)
Definition isIntRect (rect : XrRect2Di) : bool :=
  isInt (offset_x rect) && isInt (offset_y rect)
  && isInt (extent_width rect) && isInt (extent_height rect).

End Swapchain.

(* ------------------------------------------------------------------ *)
(** ** Poses ([utils.h]) *)

Module Pose.

Import Float32 Xr.

Record XrQuaternionf : Type := mkXrQuaternionf {
  quat_x : float32; quat_y : float32; quat_z : float32; quat_w : float32
}.

Record XrVector3f : Type := mkXrVector3f {
  vec_x : float32; vec_y : float32; vec_z : float32
}.

Record XrPosef : Type := mkXrPosef {
  orientation : XrQuaternionf;
  position : XrVector3f
}.

Definition pvrPoseToXrPose (pvrPose : pvrPosef) : XrPosef :=
  {| position :=
       {| vec_x := vx (Position pvrPose);
          vec_y := vy (Position pvrPose);
          vec_z := vz (Position pvrPose) |};
     orientation :=
       {| quat_x := qx (Orientation pvrPose);
          quat_y := qy (Orientation pvrPose);
          quat_z := qz (Orientation pvrPose);
          quat_w := qw (Orientation pvrPose) |} |}.

Definition xrPoseToPvrPose (xrPose : XrPosef) : pvrPosef :=
  {| Position :=
       {| vx := vec_x (position xrPose);
          vy := vec_y (position xrPose);
          vz := vec_z (position xrPose) |};
     Orientation :=
       {| qx := quat_x (orientation xrPose);
          qy := quat_y (orientation xrPose);
          qz := quat_z (orientation xrPose);
          qw := quat_w (orientation xrPose) |} |}.

Definition pvrVector3dToXrVector3f (v : pvrVector3f) : XrVector3f :=
  {| vec_x := vx v; vec_y := vy v; vec_z := vz v |}.

(** The literal [0.00001f], i.e. 10995116 * 2^-40. *)
Definition epsilon_1e5 : float32 := S754_finite false 10995116 (-40).

Definition sub (x y : float32) : float32 := SFsub prec emax x y.

(** [std::abs] on [float]. *)
Definition abs (x : float32) : float32 := SFabs x.

Definition lt (x y : float32) : bool := SFltb x y.

(** One conjunct of [Equals]: [std::abs(b - a) < 0.00001f]. *)
Definition near (a b : float32) : bool := lt (abs (sub b a)) epsilon_1e5.

(** [xr::math::Pose::Equals]. *)
Definition Equals (a b : XrPosef) : bool :=
  near (vec_x (position a)) (vec_x (position b))
  && near (vec_y (position a)) (vec_y (position b))
  && near (vec_z (position a)) (vec_z (position b))
  && near (quat_x (orientation a)) (quat_x (orientation b))
  && near (quat_y (orientation a)) (quat_y (orientation b))
  && near (quat_z (orientation a)) (quat_z (orientation b))
  && near (quat_w (orientation a)) (quat_w (orientation b)).

(** A [float] that is neither a NaN nor an infinity. *)
Definition isFinite (x : float32) : bool :=
  match x with
  | S754_zero _ | S754_finite _ _ _ => true
  | _ => false
  end.

Definition components (p : XrPosef) : list float32 :=
  [ vec_x (position p); vec_y (position p); vec_z (position p);
    quat_x (orientation p); quat_y (orientation p); quat_z (orientation p);
    quat_w (orientation p) ].

End Pose.

(* ------------------------------------------------------------------ *)
(** ** Reading the trace of a call *)

Module TraceRead.

Import Float32 Xr Runtime System.

(** The field of view that the loop of [xrGetSystem] derives from the
    tangents of one eye. *)
Definition fovOfEye (pf : Platform) (info : pvrEyeRenderInfo) : XrFovf :=
  {| angleLeft := neg (atan pf (LeftTan (Fov info)));
     angleRight := atan pf (RightTan (Fov info));
     angleUp := atan pf (UpTan (Fov info));
     angleDown := neg (atan pf (DownTan (Fov info))) |}.

(** The value of the last successful [pvr_setIntConfig] of
    [view_rotation_fix] in a trace, with the events that follow it. *)
Fixpoint afterLastFix (tr : list Event) : option (Z * list Event) :=
  match tr with
  | [] => None
  | e :: rest =>
      match afterLastFix rest with
      | Some x => Some x
      | None =>
          match e with
          | EvSetIntConfig _ key v pvr_success =>
              if String.eqb key "view_rotation_fix" then Some (v, rest) else None
          | _ => None
          end
      end
  end.

Definition isEyeQuery (e : Event) : bool :=
  match e with
  | EvGetEyeRenderInfo _ _ _ _ => true
  | _ => false
  end.

Definition isCreateSession (e : Event) : bool :=
  match e with
  | EvCreateSession _ _ => true
  | _ => false
  end.

Definition isDestroySession (e : Event) : bool :=
  match e with
  | EvDestroySession _ => true
  | _ => false
  end.

(** Eye tracking is marked available only with a tracker selected, and a
    tracker is selected only when the application enabled
    [XR_EXT_eye_gaze_interaction]. *)
Definition eyeTrackingConsistent (r : OpenXrRuntime) : Prop :=
  (m_isEyeTrackingAvailable r = true -> m_eyeTrackingType r <> EyeTracking_None)
  /\ (m_eyeTrackingType r <> EyeTracking_None ->
      has_XR_EXT_eye_gaze_interaction r = true).

(** The members that no call of [xrGetSystem] writes. *)
Definition sameInstance (a b : OpenXrRuntime) : Prop :=
  m_instanceCreated a = m_instanceCreated b
  /\ has_XR_EXT_hand_tracking a = has_XR_EXT_hand_tracking b
  /\ has_XR_EXT_eye_gaze_interaction a = has_XR_EXT_eye_gaze_interaction b.

End TraceRead.

(* ------------------------------------------------------------------ *)
(** ** The session a call is made on *)

Module SessionProtocol.

Import Xr Runtime System.

(** The events that the device-change branch of [xrGetSystem] can add
    when the runtime holds the session [h]: configuration, eye geometry
    and tracking origin on [h], settings, the eye-tracker probe. *)
Definition derivationEventOn (h : pvrSessionHandle) (e : Event) : bool :=
  match e with
  | EvGetEyeRenderInfo h0 _ _ _ | EvSetIntConfig h0 _ _ _ | EvGetIntConfig h0 _ _ _
  | EvGetFloatConfig h0 _ _ _ | EvSetTrackingOriginType h0 _ _ => N.eqb h0 h
  | EvGetSetting _ _ | EvInitializeDroolon _ => true
  | _ => false
  end.

(** Replays a trace against the handle [h] that [m_pvrSession] holds when
    the trace starts.  A session is created only while none is held, and
    a successful creation makes its handle the held one; a session is
    destroyed only while it is the held one, after which none is held;
    every other call that takes a session is made on the held one, which
    is not null.  The result is the handle held at the end, or [None] when
    a call breaks these rules. *)
Fixpoint replaySession (h : pvrSessionHandle) (tr : list Event)
  : option pvrSessionHandle :=
  match tr with
  | [] => Some h
  | EvCreateSession c h' :: rest =>
      if N.eqb h nullptr
      then replaySession (if pvrResult_eq_dec c pvr_success then h' else h) rest
      else None
  | EvDestroySession h0 :: rest =>
      if N.eqb h0 h && negb (N.eqb h nullptr) then replaySession nullptr rest else None
  | EvGetHmdStatus h0 _ _ :: rest
  | EvGetHmdInfo h0 _ _ :: rest
  | EvGetEyeRenderInfo h0 _ _ _ :: rest
  | EvSetIntConfig h0 _ _ _ :: rest
  | EvGetIntConfig h0 _ _ _ :: rest
  | EvGetFloatConfig h0 _ _ _ :: rest
  | EvSetTrackingOriginType h0 _ _ :: rest =>
      if N.eqb h0 h && negb (N.eqb h nullptr) then replaySession h rest else None
  | EvGetSetting _ _ :: rest
  | EvInitializeDroolon _ :: rest => replaySession h rest
  end.

(** The service never hands out the null handle with [pvr_success]. *)
Definition createdHandleValid (e : Event) : bool :=
  match e with
  | EvCreateSession c h =>
      if pvrResult_eq_dec c pvr_success then negb (N.eqb h nullptr) else true
  | _ => true
  end.

End SessionProtocol.

(* ------------------------------------------------------------------ *)
(** ** More scripted scenarios *)

Module Scenarios.

Import Float32 Xr Runtime System Scripted.

(** Device "A" is plugged in and a session can be created, but the
    service has no eye geometry to give: [pvr_getEyeRenderInfo] fails. *)
Definition geometryFails : Script :=
  mkScript [(pvr_success, 5%N)] [(pvr_success, statusReady)] [(pvr_success, deviceA)]
    [] noSettings noSettings.

(** A Pimax Crystal: vendor 0x34A4, product 0x0012. *)
Definition crystal : pvrHmdInfo :=
  mkPvrHmdInfo 13476 18 "Pimax" "Pimax Crystal" "C" 0 1 (mkPvrSizei 2880 2880).

Definition allowEyeTracking : string -> option Z :=
  fun key => if String.eqb key "allow_eye_tracking" then Some 1%Z else None.

(** A Crystal is plugged in, its eyes not canted; the user allowed eye
    tracking. *)
Definition crystalContact : Script :=
  mkScript [(pvr_success, 5%N)] [(pvr_success, statusReady)] [(pvr_success, crystal)]
    [(pvr_success, eyeWithAngle zero); (pvr_success, eyeWithAngle zero)]
    noSettings allowEyeTracking.

(** A runtime whose instance was created with [XR_EXT_hand_tracking] and
    [XR_EXT_eye_gaze_interaction], and on which no device has been seen
    yet. *)
Definition gazeRuntime : OpenXrRuntime :=
  mkOpenXrRuntime true false true true nullptr pvrHmdInfo_zero
    (mkPerEye pvrEyeRenderInfo_zero pvrEyeRenderInfo_zero)
    (mkPerEye XrFovf_zero XrFovf_zero) zero false 0 false EyeTracking_None.

(** That runtime after its first successful [xrGetSystem], on a Crystal
    whose user allowed eye tracking. *)
Definition gazeRuntimeOnCrystal : OpenXrRuntime :=
  Eval vm_compute in
    rt (snd (runGetSystem scriptedPvr stubPlatform 1%N hmdGetInfo gazeRuntime
               crystalContact)).

(** Properties with three structures chained behind [next]: hand
    tracking, eye gaze interaction, and hand tracking once more. *)
Definition chainedProperties : XrSystemProperties :=
  {| sp_type := XR_TYPE_SYSTEM_PROPERTIES;
     sp_next := [mkXrChainStruct XR_TYPE_SYSTEM_HAND_TRACKING_PROPERTIES_EXT false;
                 mkXrChainStruct XR_TYPE_SYSTEM_EYE_GAZE_INTERACTION_PROPERTIES_EXT false;
                 mkXrChainStruct XR_TYPE_SYSTEM_HAND_TRACKING_PROPERTIES_EXT false];
     sp_systemId := 0%N;
     sp_vendorId := 0; sp_systemName := EmptyString;
     graphicsProperties := mkXrSystemGraphicsProperties 0 0 0;
     trackingProperties := mkXrSystemTrackingProperties false false |}.

End Scenarios.

(* ------------------------------------------------------------------ *)
(** ** [ParseExtensionString] *)

Module Extensions.

(** The buffer behind [char* names] as the list of its bytes, a pointer
    into it as an offset.  A read past the end of the list gives NUL; a
    write past the end is dropped. *)
Definition NUL : ascii := Ascii.zero.

Definition SPACE : ascii := " "%char.

Definition deref (buf : list ascii) (p : nat) : ascii := nth p buf NUL.

Fixpoint poke (buf : list ascii) (p : nat) (c : ascii) : list ascii :=
  match buf, p with
  | [], _ => []
  | _ :: rest, O => c :: rest
  | x :: rest, S p' => x :: poke rest p' c
  end.

(** The C string that starts at a pointer. *)
Fixpoint cstring (bytes : list ascii) : list ascii :=
  match bytes with
  | [] => []
  | c :: rest => if Ascii.eqb c NUL then [] else c :: cstring rest
  end.

Definition readAt (buf : list ascii) (p : nat) : list ascii := cstring (skipn p buf).

(** The inner loop,
    [while ( *(++names) != 0) { if ( *names == ' ') { *names++ = '\0'; break; } }]:
    the buffer and [names] when it is left. *)
Fixpoint skipToSeparator (fuel : nat) (buf : list ascii) (names : nat)
  : option (list ascii * nat) :=
  match fuel with
  | O => None
  | S fuel' =>
      let names := S names in
      if Ascii.eqb (deref buf names) NUL then Some (buf, names)
      else if Ascii.eqb (deref buf names) SPACE then Some (poke buf names NUL, S names)
      else skipToSeparator fuel' buf names
  end.

(** The outer loop, [while ( *names != 0) { list.push_back(names); ... }],
    with the vector [list] as [pushed]. *)
Fixpoint parseFrom (fuel : nat) (buf : list ascii) (names : nat) (pushed : list nat)
  : option (list nat * list ascii) :=
  match fuel with
  | O => None
  | S fuel' =>
      if Ascii.eqb (deref buf names) NUL then Some (pushed, buf)
      else
        match skipToSeparator (List.length buf) buf names with
        | Some (buf', names') => parseFrom fuel' buf' names' (pushed ++ [names])
        | None => None
        end
  end.

(** [ParseExtensionString(names)]: the pointers pushed to the list, and
    the buffer as the function leaves it.  [None]: the loops did not come
    to an end within the length of the buffer. *)
Definition ParseExtensionString (names : list ascii) : option (list nat * list ascii) :=
  parseFrom (S (List.length names)) names 0 [].

(** The extension names a caller reads from the returned list. *)
Definition extensionNames (names : list ascii) : option (list (list ascii)) :=
  match ParseExtensionString names with
  | Some (pushed, buf) => Some (map (readAt buf) pushed)
  | None => None
  end.

(** Words joined by a separator. *)
Fixpoint joinWith (sep : ascii) (words : list (list ascii)) : list ascii :=
  match words with
  | [] => []
  | [w] => w
  | w :: rest => w ++ sep :: joinWith sep rest
  end.

(** Extension names joined by single spaces, as in the string a caller
    hands to [ParseExtensionString]. *)
Definition joinNames (words : list (list ascii)) : list ascii := joinWith SPACE words.

Definition isNameChar (c : ascii) : bool :=
  negb (Ascii.eqb c NUL) && negb (Ascii.eqb c SPACE).

(** A name: not empty, without NUL and without space. *)
Definition isName (w : list ascii) : bool :=
  negb (Nat.eqb (List.length w) 0) && forallb isNameChar w.

(** What the loops take for a name: any first byte but NUL, then bytes
    that are neither NUL nor space. *)
Definition isToken (w : list ascii) : bool :=
  match w with
  | [] => false
  | c :: t => negb (Ascii.eqb c NUL) && forallb isNameChar t
  end.

(** Where the words start in a buffer in which they follow each other,
    one byte apart, from the offset [from] on. *)
Fixpoint offsets (from : nat) (words : list (list ascii)) : list nat :=
  match words with
  | [] => []
  | w :: rest => from :: offsets (from + S (List.length w)) rest
  end.

(** What [ParseExtensionString] may do to a byte: leave it, or turn a
    space into NUL. *)
Definition keptOrCut (before after : ascii) : Prop :=
  after = before \/ (before = SPACE /\ after = NUL).

End Extensions.

(* ------------------------------------------------------------------ *)
(** ** What a trace tells about the projection decision *)

Module ProjectionTrace.

Import Xr Runtime System.



End ProjectionTrace.

(* ------------------------------------------------------------------ *)
(** * Properties *)

Unset Implicit Arguments.

(** ** Texture formats *)

Module FormatFacts.

Import Format.

Lemma dxgiToPvr_known (f : DXGI_FORMAT) :
  dxgiToPvrTextureFormat f <> PVR_FORMAT_UNKNOWN <-> In f dxgiCatalog.
Proof.
  split.
  - intros H. destruct f; simpl in *; try congruence; tauto.
  - intros H. simpl in H.
    repeat (destruct H as [H | H]; [subst f; simpl; discriminate | ]).
    contradiction.
Qed.

Lemma pvrToDxgi_dxgiToPvr_catalog (f : DXGI_FORMAT) :
  In f dxgiCatalog -> pvrToDxgiTextureFormat (dxgiToPvrTextureFormat f) = f.
Proof.
  simpl. intros H.
  repeat (destruct H as [H | H]; [subst f; reflexivity | ]).
  contradiction.
Qed.

(** C8. Every DXGI format that [dxgiToPvrTextureFormat] does not send to
    [PVR_FORMAT_UNKNOWN] comes back unchanged through
    [pvrToDxgiTextureFormat], and the round trip keeps [isSRGBFormat]. *)
Theorem dxgi_pvr_round_trip (f : DXGI_FORMAT) :
  dxgiToPvrTextureFormat f <> PVR_FORMAT_UNKNOWN ->
  pvrToDxgiTextureFormat (dxgiToPvrTextureFormat f) = f
  /\ (isSRGBFormat f = true
      <-> isSRGBFormat (pvrToDxgiTextureFormat (dxgiToPvrTextureFormat f)) = true).
Proof.
  intros H. apply dxgiToPvr_known in H.
  rewrite (pvrToDxgi_dxgiToPvr_catalog _ H). split; [reflexivity | tauto].
Qed.

Lemma dxgi_pvr_round_trip_witness :
  dxgiToPvrTextureFormat DXGI_FORMAT_B8G8R8A8_UNORM_SRGB <> PVR_FORMAT_UNKNOWN
  /\ pvrToDxgiTextureFormat (dxgiToPvrTextureFormat DXGI_FORMAT_B8G8R8A8_UNORM_SRGB)
     = DXGI_FORMAT_B8G8R8A8_UNORM_SRGB
  /\ (isSRGBFormat DXGI_FORMAT_B8G8R8A8_UNORM_SRGB = true
      <-> isSRGBFormat
            (pvrToDxgiTextureFormat (dxgiToPvrTextureFormat DXGI_FORMAT_B8G8R8A8_UNORM_SRGB))
          = true).
Proof.
  split; [simpl; discriminate | ].
  apply (dxgi_pvr_round_trip DXGI_FORMAT_B8G8R8A8_UNORM_SRGB). simpl. discriminate.
Defined.

End FormatFacts.

(** ** The blend-mode enumeration *)

Module BlendModeFacts.

Import Xr Runtime System.

Lemma ARRAYSIZE_blendModes : ARRAYSIZE blendModes = 1%N.
Proof. reflexivity. Qed.

(** The size test of the enumeration can never hold. *)
Lemma size_test_never_holds (capacity : N) :
  negb (N.eqb capacity 0) && N.ltb capacity (ARRAYSIZE blendModes) = false.
Proof.
  rewrite ARRAYSIZE_blendModes.
  destruct (N.eqb_spec capacity 0) as [-> | Hne]; [reflexivity | ].
  simpl. apply N.ltb_ge. lia.
Qed.

(** C7. With a live instance, a live system and the primary-stereo view
    configuration, the enumeration knows the single mode opaque; capacity 0
    stores the count 1 and leaves the array alone; a non-zero capacity
    below 1 is refused with [XR_ERROR_SIZE_INSUFFICIENT], nothing stored; a
    capacity of at least 1 stores the count 1 and the opaque mode as
    element 0 of the array (an array given as a null pointer stays null). *)
Theorem enumerate_capacity_convention
    (r : OpenXrRuntime) (instance : XrInstance) (systemId : XrSystemId)
    (capacity : N) (array : option (list XrEnvironmentBlendMode)) :
  m_instanceCreated r = true -> instance = 1%N ->
  m_systemCreated r = true -> systemId = 1%N ->
  let out := xrEnumerateEnvironmentBlendModes r instance systemId
               XR_VIEW_CONFIGURATION_TYPE_PRIMARY_STEREO capacity array in
  blendModes = [XR_ENVIRONMENT_BLEND_MODE_OPAQUE]
  /\ (capacity = 0%N -> out = mkBlendModesOut XR_SUCCESS (Some 1%N) array)
  /\ (capacity <> 0%N -> (capacity < 1)%N ->
      out = mkBlendModesOut XR_ERROR_SIZE_INSUFFICIENT None array)
  /\ ((1 <= capacity)%N ->
      out = mkBlendModesOut XR_SUCCESS (Some 1%N)
              (option_map (store 0 XR_ENVIRONMENT_BLEND_MODE_OPAQUE) array))
  /\ (forall x rest, (1 <= capacity)%N -> array = Some (x :: rest) ->
      environmentBlendModes out = Some (XR_ENVIRONMENT_BLEND_MODE_OPAQUE :: rest)).
Proof.
  intros Hi -> Hs -> out. subst out. unfold xrEnumerateEnvironmentBlendModes.
  rewrite Hi, Hs. cbn [negb orb N.eqb Pos.eqb].
  rewrite size_test_never_holds.
  split; [reflexivity | ].
  split; [intros ->; destruct array; reflexivity | ].
  split; [intros Hne Hlt; lia | ].
  assert (Hcap : (1 <= capacity)%N -> negb (N.eqb capacity 0) = true).
  { intros Hle. destruct (N.eqb_spec capacity 0); [lia | reflexivity]. }
  split.
  - intros Hle. rewrite (Hcap Hle). destruct array; reflexivity.
  - intros x rest Hle ->. rewrite (Hcap Hle). reflexivity.
Qed.

Lemma enumerate_capacity_convention_witness :
  xrEnumerateEnvironmentBlendModes Scripted.runtimeOnDeviceA 1%N 1%N
    XR_VIEW_CONFIGURATION_TYPE_PRIMARY_STEREO 2%N
    (Some [XR_ENVIRONMENT_BLEND_MODE_ADDITIVE; XR_ENVIRONMENT_BLEND_MODE_ADDITIVE])
  = mkBlendModesOut XR_SUCCESS (Some 1%N)
      (Some [XR_ENVIRONMENT_BLEND_MODE_OPAQUE; XR_ENVIRONMENT_BLEND_MODE_ADDITIVE]).
Proof.
  destruct (enumerate_capacity_convention Scripted.runtimeOnDeviceA 1%N 1%N 2%N
              (Some [XR_ENVIRONMENT_BLEND_MODE_ADDITIVE; XR_ENVIRONMENT_BLEND_MODE_ADDITIVE])
              eq_refl eq_refl eq_refl eq_refl) as (_ & _ & _ & H & _).
  apply H. discriminate.
Defined.

(** C10. The enumeration never answers [XR_ERROR_SIZE_INSUFFICIENT]: its
    count is 1 and no capacity is both non-zero and below 1; hence every
    call that passes the instance, system and view-configuration checks
    returns [XR_SUCCESS]. *)
Theorem enumerate_never_size_insufficient
    (r : OpenXrRuntime) (instance : XrInstance) (systemId : XrSystemId)
    (viewConfigurationType : XrViewConfigurationType)
    (capacity : N) (array : option (list XrEnvironmentBlendMode)) :
  let out := xrEnumerateEnvironmentBlendModes r instance systemId
               viewConfigurationType capacity array in
  ARRAYSIZE blendModes = 1%N
  /\ ~ (capacity <> 0 /\ capacity < 1)%N
  /\ result out <> XR_ERROR_SIZE_INSUFFICIENT
  /\ (m_instanceCreated r = true -> instance = 1%N ->
      m_systemCreated r = true -> systemId = 1%N ->
      viewConfigurationType = XR_VIEW_CONFIGURATION_TYPE_PRIMARY_STEREO ->
      result out = XR_SUCCESS).
Proof.
  intros out. subst out. unfold xrEnumerateEnvironmentBlendModes.
  split; [reflexivity | ]. split; [lia | ].
  rewrite size_test_never_holds. split.
  - destruct (negb (m_instanceCreated r) || negb (N.eqb instance 1));
      [simpl; discriminate | ].
    destruct (negb (m_systemCreated r) || negb (N.eqb systemId 1));
      [simpl; discriminate | ].
    destruct viewConfigurationType; simpl; discriminate.
  - intros -> -> -> -> ->. reflexivity.
Qed.

Lemma enumerate_never_size_insufficient_witness :
  result (xrEnumerateEnvironmentBlendModes Scripted.runtimeOnDeviceA 1%N 1%N
            XR_VIEW_CONFIGURATION_TYPE_PRIMARY_STEREO 4294967295%N None)
  = XR_SUCCESS.
Proof.
  apply (enumerate_never_size_insufficient Scripted.runtimeOnDeviceA 1%N 1%N
           XR_VIEW_CONFIGURATION_TYPE_PRIMARY_STEREO 4294967295%N None);
    reflexivity.
Defined.

End BlendModeFacts.

(** ** The scoped context switch *)

Module GlFacts.

Import Gl.

Lemma glGetError_current (t : GlThread) :
  currentDC (snd (glGetError t)) = currentDC t
  /\ currentRC (snd (glGetError t)) = currentRC t.
Proof.
  unfold glGetError. destruct (errorFlags t (currentRC t)); simpl; auto.
Qed.

(** One [glGetError] reports the oldest recorded code of the current
    context and removes it, and touches no other context. *)
Lemma glGetError_pops (t : GlThread) :
  fst (glGetError t)
  = match errorFlags t (currentRC t) with [] => GL_NO_ERROR | e :: _ => Npos e end
  /\ errorFlags (snd (glGetError t)) (currentRC t) = tl (errorFlags t (currentRC t))
  /\ (forall rc, rc <> currentRC t ->
      errorFlags (snd (glGetError t)) rc = errorFlags t rc).
Proof.
  unfold glGetError. destruct (errorFlags t (currentRC t)) as [| e rest] eqn:E; simpl.
  - rewrite E. auto.
  - rewrite N.eqb_refl. repeat split; auto.
    intros rc Hrc. destruct (N.eqb_spec rc (currentRC t)); congruence.
Qed.

(** The loop of the constructor ends as soon as the bound exceeds the
    number of recorded codes, and leaves the current context clean. *)
Lemma resetErrorCodes_drains (fuel : nat) :
  forall t, List.length (errorFlags t (currentRC t)) < fuel ->
  exists t', resetErrorCodes fuel t = Some t'
    /\ currentDC t' = currentDC t /\ currentRC t' = currentRC t
    /\ errorFlags t' (currentRC t) = []
    /\ (forall rc, rc <> currentRC t -> errorFlags t' rc = errorFlags t rc).
Proof.
  induction fuel as [| fuel IH]; intros t Hlen; [lia | ].
  simpl. destruct (glGetError t) as [e t1] eqn:G.
  pose proof (glGetError_current t) as [Hdc Hrc].
  pose proof (glGetError_pops t) as (Hfst & Htl & Hother).
  rewrite G in *. simpl in *.
  destruct (errorFlags t (currentRC t)) as [| e0 rest] eqn:E.
  - subst e. simpl. exists t1. repeat split; auto.
  - subst e. simpl.
    destruct (IH t1) as (t' & Hr & Hdc' & Hrc' & Hclean & Hoth).
    { rewrite Hrc, Htl. simpl in Hlen |- *. lia. }
    exists t'. rewrite Hr. repeat split; try congruence.
    intros rc Hne. rewrite Hoth by congruence. auto.
Qed.

Lemma wglMakeCurrent_flags (dc : HDC) (rc : HGLRC) (t : GlThread) :
  errorFlags (wglMakeCurrent dc rc t) = errorFlags t.
Proof. reflexivity. Qed.

(** C9 (as the code has it). For a valid target context and a loop bound
    above the number of codes recorded on it: the constructor makes the
    target current and drains all its recorded codes; on every exit of the
    protected region, normal or by an exception, the destructor reads one
    error code of the context current at that point, before it switches
    back, and then makes the device and rendering context captured at
    construction current again; codes beyond the first stay recorded.  A
    code other than [GL_NO_ERROR] becomes a failure, which reaches the
    caller when the region completed normally; when the region left by an
    exception the throwing destructor ends the process.  For an invalid
    target, construction and destruction change nothing. *)
Theorem GlContextSwitch_scope
    (A E : Type) (fuel : nat) (context : GlContext)
    (region : GlThread -> Exit A E * GlThread) (t : GlThread) :
  (valid context = true ->
   List.length (errorFlags t (glRC context)) < fuel ->
   exists g t1,
     construct fuel context t = Some (g, t1)
     /\ currentDC t1 = glDC context /\ currentRC t1 = glRC context
     /\ errorFlags t1 (glRC context) = []
     /\ exists res t3,
          scoped fuel context region t = Some (res, t3)
          /\ currentDC t3 = currentDC t /\ currentRC t3 = currentRC t
          /\ (let t2 := snd (region t1) in
              errorFlags t3 (currentRC t2) = tl (errorFlags t2 (currentRC t2))
              /\ (forall rc, rc <> currentRC t2 -> errorFlags t3 rc = errorFlags t2 rc)
              /\ res = match fst (region t1), errorFlags t2 (currentRC t2) with
                       | Normal a, [] => Completed a
                       | Normal _, e :: _ => Failed (OpenGLError (Npos e))
                       | Raised e, [] => Propagated e
                       | Raised _, _ :: _ => Terminated
                       end))
  /\ (valid context = false ->
      scoped fuel context region t
      = Some (match fst (region t) with
              | Normal a => Completed a
              | Raised e => Propagated e
              end, snd (region t))).
Proof.
  split.
  - intros Hv Hlen. unfold scoped, construct. rewrite Hv.
    destruct (resetErrorCodes_drains fuel
                (wglMakeCurrent (glDC context) (glRC context) t))
      as (t1 & Hr & Hdc & Hrc & Hclean & _); [exact Hlen | ].
    cbv zeta. rewrite Hr. simpl in Hdc, Hrc, Hclean.
    exists {| m_valid := true; m_glDC := wglGetCurrentDC t;
              m_glRC := wglGetCurrentContext t |}, t1.
    repeat (split; [assumption || reflexivity | ]).
    destruct (region t1) as [x t2]. unfold destruct_. cbn [m_valid m_glDC m_glRC].
    pose proof (glGetError_pops t2) as (Hfst & Htl & Hother).
    destruct (glGetError t2) as [error t2'] eqn:G. simpl in Hfst, Htl, Hother.
    eexists _, _. split; [reflexivity | ].
    cbn [fst snd]. rewrite wglMakeCurrent_flags.
    repeat (split; [assumption || reflexivity | ]).
    subst error. destruct x, (errorFlags t2 (currentRC t2)); reflexivity.
  - intros Hv. unfold scoped, construct. rewrite Hv.
    destruct (region t) as [x t2]. unfold destruct_. simpl.
    destruct x; reflexivity.
Qed.

Lemma GlContextSwitch_scope_witness :
  exists res t3,
    scoped 1 runtimeContext (raiseErrors [1280%positive]) hostThread = Some (res, t3)
    /\ currentDC t3 = currentDC hostThread /\ currentRC t3 = currentRC hostThread.
Proof.
  destruct (GlContextSwitch_scope unit unit 1 runtimeContext
              (raiseErrors [1280%positive]) hostThread) as [H _].
  destruct (H eq_refl (Nat.lt_0_succ 0))
    as (g & t1 & _ & _ & _ & _ & res & t3 & Hs & Hdc & Hrc & _).
  exists res, t3. auto.
Defined.

(** C9 as stated fails twice.  A region that records two error codes on
    the target leaves the scope with one of them still recorded there: the
    error state is not drained.  And a region that leaves by an exception
    with a code recorded does not get that code reported to the caller: the
    process ends. *)
Lemma GlContextSwitch_leaves_errors_pending :
  (exists t3,
     scoped 1 runtimeContext (raiseErrors [1280%positive; 1281%positive]) hostThread
     = Some (Failed (OpenGLError GL_INVALID_ENUM), t3)
     /\ errorFlags t3 (glRC runtimeContext) = [1281%positive])
  /\ (exists t3,
        scoped 1 runtimeContext (raiseErrorsAndThrow [1280%positive]) hostThread
        = Some (Terminated, t3)).
Proof.
  split; eexists; split; reflexivity || (vm_compute; reflexivity).
Qed.

End GlFacts.

(** ** The system negotiation *)

Module SystemFacts.

Import Float32 Xr Runtime System.

(** *** The parallel-projection decision *)

Section Decision.

Context {W : Type}.
Variable pvr : PvrApi W.

(** What the decision expression computes, whatever the settings. *)
Lemma decideParallelProjection_value (cantingAngle : float32) (s : St W) :
  fst (decideParallelProjection pvr cantingAngle s)
  = Done (gt cantingAngle epsilon_1e4
          && int_to_bool
               (value_or (getSetting pvr "force_parallel_projection_state" (world s))
                  (bool_to_int
                     (negb (int_to_bool
                              (fst (pvr_getIntConfig pvr (m_pvrSession (rt s))
                                      "steamvr_use_native_fov" 0 (world s)))))))).
Proof.
  unfold decideParallelProjection.
  destruct (gt cantingAngle epsilon_1e4); [ | reflexivity].
  unfold bind, getRuntime, call_getSetting, call_getIntConfig, ret. cbn [rt world trace].
  destruct (pvr_getIntConfig pvr (m_pvrSession (rt s)) "steamvr_use_native_fov" 0 (world s))
    as [nativeFov w']. reflexivity.
Qed.

End Decision.


(** *** The order of the checks *)

Section Checks.

Context {W : Type}.
Variable pvr : PvrApi W.
Variable pf : Platform.

Lemma instance_invalid (r : OpenXrRuntime) (instance : XrInstance) :
  m_instanceCreated r = false \/ instance <> 1%N ->
  negb (m_instanceCreated r) || negb (N.eqb instance 1) = true.
Proof.
  intros [-> | Hne]; [reflexivity | ].
  destruct (N.eqb_spec instance 1); [contradiction | ].
  apply orb_true_r.
Qed.

Lemma system_invalid (r : OpenXrRuntime) (systemId : XrSystemId) :
  m_systemCreated r = false \/ systemId <> 1%N ->
  negb (m_systemCreated r) || negb (N.eqb systemId 1) = true.
Proof.
  intros [-> | Hne]; [reflexivity | ].
  destruct (N.eqb_spec systemId 1); [contradiction | ].
  apply orb_true_r.
Qed.

(** C6 (as the code has it). [xrGetSystem] and [xrGetSystemProperties]
    test the structure-type tag first and the instance handle second, before
    anything else; [xrGetSystemProperties] tests the system handle third.
    [xrEnumerateEnvironmentBlendModes], which has no tagged structure, tests
    the instance handle first and the system handle second.  A call refused
    by one of these checks changes nothing and makes no service call. *)
Theorem checks_order :
  (forall instance getInfo (s : St W),
     (gi_type getInfo <> XR_TYPE_SYSTEM_GET_INFO ->
      xrGetSystem pvr pf instance getInfo s
      = (Done (XR_ERROR_VALIDATION_FAILURE, None), s))
     /\ (gi_type getInfo = XR_TYPE_SYSTEM_GET_INFO ->
         m_instanceCreated (rt s) = false \/ instance <> 1%N ->
         xrGetSystem pvr pf instance getInfo s
         = (Done (XR_ERROR_HANDLE_INVALID, None), s)))
  /\ (forall r instance systemId properties,
        (sp_type properties <> XR_TYPE_SYSTEM_PROPERTIES ->
         xrGetSystemProperties pf r instance systemId properties
         = (XR_ERROR_VALIDATION_FAILURE, properties))
        /\ (sp_type properties = XR_TYPE_SYSTEM_PROPERTIES ->
            m_instanceCreated r = false \/ instance <> 1%N ->
            xrGetSystemProperties pf r instance systemId properties
            = (XR_ERROR_HANDLE_INVALID, properties))
        /\ (sp_type properties = XR_TYPE_SYSTEM_PROPERTIES ->
            m_instanceCreated r = true -> instance = 1%N ->
            m_systemCreated r = false \/ systemId <> 1%N ->
            xrGetSystemProperties pf r instance systemId properties
            = (XR_ERROR_SYSTEM_INVALID, properties)))
  /\ (forall r instance systemId viewConfigurationType capacity array,
        (m_instanceCreated r = false \/ instance <> 1%N ->
         xrEnumerateEnvironmentBlendModes r instance systemId viewConfigurationType
           capacity array
         = mkBlendModesOut XR_ERROR_HANDLE_INVALID None array)
        /\ (m_instanceCreated r = true -> instance = 1%N ->
            m_systemCreated r = false \/ systemId <> 1%N ->
            xrEnumerateEnvironmentBlendModes r instance systemId viewConfigurationType
              capacity array
            = mkBlendModesOut XR_ERROR_SYSTEM_INVALID None array)).
Proof.
  split; [ | split].
  - intros instance getInfo s. unfold xrGetSystem. split.
    + intros Ht. destruct (gi_type getInfo); try reflexivity. congruence.
    + intros -> Hi. unfold bind, getRuntime, ret.
      rewrite (instance_invalid _ _ Hi). reflexivity.
  - intros r instance systemId properties. unfold xrGetSystemProperties.
    split; [ | split].
    + intros Ht. destruct (sp_type properties); try reflexivity. congruence.
    + intros -> Hi. rewrite (instance_invalid _ _ Hi). reflexivity.
    + intros -> Hc -> Hs. rewrite Hc. cbn [negb orb N.eqb Pos.eqb].
      rewrite (system_invalid _ _ Hs). reflexivity.
  - intros r instance systemId vct capacity array.
    unfold xrEnumerateEnvironmentBlendModes. split.
    + intros Hi. rewrite (instance_invalid _ _ Hi). reflexivity.
    + intros Hc -> Hs. rewrite Hc. cbn [negb orb N.eqb Pos.eqb].
      rewrite (system_invalid _ _ Hs). reflexivity.
Qed.

End Checks.

Lemma checks_order_witness :
  xrGetSystem Scripted.scriptedPvr Scripted.stubPlatform 2%N Scripted.hmdGetInfo
    (mkSt freshRuntime Scripted.silent [])
  = (Done (XR_ERROR_HANDLE_INVALID, None), mkSt freshRuntime Scripted.silent []).
Proof.
  destruct (checks_order Scripted.scriptedPvr Scripted.stubPlatform) as [H _].
  destruct (H 2%N Scripted.hmdGetInfo (mkSt freshRuntime Scripted.silent [])) as [_ H2].
  apply H2; [reflexivity | right; discriminate].
Defined.

(** C6 as stated fails: with an instance handle that is not the live one
    and a mistagged structure, [xrGetSystem] and [xrGetSystemProperties]
    answer [XR_ERROR_VALIDATION_FAILURE], not [XR_ERROR_HANDLE_INVALID]. *)
Lemma validation_precedes_handle_check :
  (2 <> 1)%N
  /\ fst (runGetSystem Scripted.scriptedPvr Scripted.stubPlatform 2%N
            Scripted.mistaggedGetInfo freshRuntime Scripted.silent)
     = Done (XR_ERROR_VALIDATION_FAILURE, None)
  /\ fst (xrGetSystemProperties Scripted.stubPlatform freshRuntime 2%N 1%N
            Scripted.mistaggedProperties)
     = XR_ERROR_VALIDATION_FAILURE.
Proof. repeat split. discriminate. Qed.

End SystemFacts.

(** *** Traces of [xrGetSystem] *)

Module TraceFacts.

Import Float32 Xr Runtime System.

Section Traces.

Context {W : Type}.
Variable pvr : PvrApi W.
Variable pf : Platform.
Variable P : Event -> bool.

Lemma appendsOnly_ret {A : Type} (a : A) : appendsOnly (W := W) P (ret a).
Proof.
  intros s res s' H. inversion H; subst. exists []. split; [ | reflexivity].
  symmetry. apply app_nil_r.
Qed.

Lemma appendsOnly_throw {A : Type} (e : Exn) : appendsOnly (W := W) (A := A) P (throw e).
Proof.
  intros s res s' H. inversion H; subst. exists []. split; [ | reflexivity].
  symmetry. apply app_nil_r.
Qed.

Lemma appendsOnly_getRuntime : appendsOnly (W := W) P getRuntime.
Proof.
  intros s res s' H. inversion H; subst. exists []. split; [ | reflexivity].
  symmetry. apply app_nil_r.
Qed.

Lemma appendsOnly_modifyRuntime (f : OpenXrRuntime -> OpenXrRuntime) :
  appendsOnly (W := W) P (modifyRuntime f).
Proof.
  intros s res s' H. inversion H; subst. exists []. split; [ | reflexivity].
  symmetry. apply app_nil_r.
Qed.

Lemma appendsOnly_bind {A B : Type} (m : M W A) (k : A -> M W B) :
  appendsOnly P m -> (forall a, appendsOnly P (k a)) -> appendsOnly P (bind m k).
Proof.
  intros Hm Hk s res s' H. unfold bind in H.
  destruct (m s) as [[a | e] s1] eqn:E.
  - destruct (Hm _ _ _ E) as (tr1 & H1 & P1).
    destruct (Hk a _ _ _ H) as (tr2 & H2 & P2).
    exists (tr1 ++ tr2). rewrite H2, H1, app_assoc. split; [reflexivity | ].
    rewrite forallb_app, P1, P2. reflexivity.
  - inversion H; subst. exact (Hm _ _ _ E).
Qed.

Lemma appendsOnly_CHECK_PVRCMD (r : pvrResult) (o : string) :
  appendsOnly (W := W) P (CHECK_PVRCMD r o).
Proof.
  unfold CHECK_PVRCMD. destruct (pvrResult_eq_dec r pvr_success).
  - apply appendsOnly_ret.
  - apply appendsOnly_throw.
Qed.

End Traces.

Section DeviceChanged.

Context {W : Type}.
Variable pvr : PvrApi W.
Variable pf : Platform.

Lemma appendsOnly_setIntConfig h key v :
  appendsOnly notBringUp (call_setIntConfig pvr h key v).
Proof.
  intros s res s' H. unfold call_setIntConfig in H.
  destruct (pvr_setIntConfig pvr h key v (world s)) as [r w'].
  inversion H; subst. eexists; split; reflexivity.
Qed.

Lemma appendsOnly_getIntConfig h key v :
  appendsOnly notBringUp (call_getIntConfig pvr h key v).
Proof.
  intros s res s' H. unfold call_getIntConfig in H.
  destruct (pvr_getIntConfig pvr h key v (world s)) as [r w'].
  inversion H; subst. eexists; split; reflexivity.
Qed.

Lemma appendsOnly_getFloatConfig h key v :
  appendsOnly notBringUp (call_getFloatConfig pvr h key v).
Proof.
  intros s res s' H. unfold call_getFloatConfig in H.
  destruct (pvr_getFloatConfig pvr h key v (world s)) as [r w'].
  inversion H; subst. eexists; split; reflexivity.
Qed.

Lemma appendsOnly_setTrackingOriginType h o :
  appendsOnly notBringUp (call_setTrackingOriginType pvr h o).
Proof.
  intros s res s' H. unfold call_setTrackingOriginType in H.
  destruct (pvr_setTrackingOriginType pvr h o (world s)) as [r w'].
  inversion H; subst. eexists; split; reflexivity.
Qed.

Lemma appendsOnly_getEyeRenderInfo h eye :
  appendsOnly notBringUp (call_getEyeRenderInfo pvr h eye).
Proof.
  intros s res s' H. unfold call_getEyeRenderInfo in H.
  destruct (pvr_getEyeRenderInfo pvr h eye (world s)) as [[r i] w'].
  inversion H; subst. eexists; split; reflexivity.
Qed.

Lemma appendsOnly_getSetting key :
  appendsOnly notBringUp (call_getSetting pvr key).
Proof.
  intros s res s' H. unfold call_getSetting in H.
  inversion H; subst. eexists; split; reflexivity.
Qed.

Lemma appendsOnly_initializeDroolon :
  appendsOnly notBringUp (call_initializeDroolon pvr).
Proof.
  intros s res s' H. unfold call_initializeDroolon in H.
  destruct (initializeDroolon pvr (world s)) as [b w'].
  inversion H; subst. eexists; split; reflexivity.
Qed.

Ltac appends :=
  repeat first
    [ apply appendsOnly_ret
    | apply appendsOnly_throw
    | apply appendsOnly_getRuntime
    | apply appendsOnly_modifyRuntime
    | apply appendsOnly_CHECK_PVRCMD
    | apply appendsOnly_setIntConfig
    | apply appendsOnly_getIntConfig
    | apply appendsOnly_getFloatConfig
    | apply appendsOnly_setTrackingOriginType
    | apply appendsOnly_getEyeRenderInfo
    | apply appendsOnly_getSetting
    | apply appendsOnly_initializeDroolon
    | apply appendsOnly_bind; [ | intros ]
    | match goal with
      | |- appendsOnly _ (if ?b then _ else _) => destruct b
      | |- appendsOnly _ (match ?x with _ => _ end) => destruct x
      | |- appendsOnly _ (let '(_, _) := ?x in _) => destruct x
      end ].

Lemma appendsOnly_cacheEyeRenderInfo eye view :
  appendsOnly notBringUp (cacheEyeRenderInfo pvr eye view).
Proof. unfold cacheEyeRenderInfo. appends. Qed.

Lemma appendsOnly_detectEyeTracker :
  appendsOnly notBringUp (detectEyeTracker pvr pf).
Proof. unfold detectEyeTracker. appends. Qed.

Lemma appendsOnly_decideParallelProjection cantingAngle :
  appendsOnly notBringUp (decideParallelProjection pvr cantingAngle).
Proof. unfold decideParallelProjection. appends. Qed.

(** The device-change branch only adds configuration and geometry calls
    to the trace. *)
Lemma appendsOnly_deviceChanged hmdInfo :
  appendsOnly notBringUp (deviceChanged pvr pf hmdInfo).
Proof.
  unfold deviceChanged.
  repeat first
    [ apply appendsOnly_cacheEyeRenderInfo
    | apply appendsOnly_detectEyeTracker
    | apply appendsOnly_decideParallelProjection
    | progress appends ].
Qed.

End DeviceChanged.

End TraceFacts.

(** *** The cached path, the recovery path, the unavailable path *)

Module GetSystemFacts.

Import Float32 Xr Runtime System TraceFacts.

Lemma reportedSerials_app (tr1 tr2 : list Event) :
  reportedSerials (tr1 ++ tr2) = reportedSerials tr1 ++ reportedSerials tr2.
Proof.
  induction tr1 as [| e tr1 IH]; [reflexivity | ].
  destruct e; simpl; auto. destruct r; simpl; auto. rewrite IH. reflexivity.
Qed.

Lemma existsb_isDerivationQuery_snoc (tr : list Event) (e : Event) :
  existsb isDerivationQuery (tr ++ [e])
  = existsb isDerivationQuery tr || isDerivationQuery e.
Proof. rewrite existsb_app. simpl. rewrite orb_false_r. reflexivity. Qed.

(** Unfolds the monadic code of [xrGetSystem] up to the device-change
    branch, which stays folded. *)
Ltac unfold_getSystem :=
  cbv [runGetSystem xrGetSystem ensurePvrSession bind ret throw getRuntime
       modifyRuntime CHECK_PVRCMD call_createSession call_destroySession
       call_getHmdStatus call_getHmdInfo call_setIntConfig
       call_setTrackingOriginType rt world trace fst snd] in *.

(** Splits on the innermost scrutinee that blocks the computation. *)
Ltac split_scrutinee :=
  match goal with
  | H : context [match ?x with _ => _ end] |- _ =>
      lazymatch x with
      | context [match _ with _ => _ end] => fail
      | _ => destruct x eqn:?
      end
  | |- context [match ?x with _ => _ end] =>
      lazymatch x with
      | context [match _ with _ => _ end] => fail
      | _ => destruct x eqn:?
      end
  end.

Ltac unfold_deviceChanged :=
  cbv [deviceChanged detectEyeTracker cacheEyeRenderInfo decideParallelProjection
       bind ret throw getRuntime modifyRuntime CHECK_PVRCMD
       call_setIntConfig call_getIntConfig call_getFloatConfig
       call_setTrackingOriginType call_getEyeRenderInfo call_getSetting
       call_initializeDroolon rt world trace fst snd
       fold_left cacheEyeFov setEye getEye
       set_m_cachedHmdInfo set_m_cachedEyeInfo set_m_cachedEyeFov set_m_floorHeight
       set_m_useParallelProjection set_m_fovLevel set_m_isEyeTrackingAvailable
       set_m_eyeTrackingType
       m_instanceCreated m_systemCreated has_XR_EXT_hand_tracking
       has_XR_EXT_eye_gaze_interaction m_pvrSession m_cachedHmdInfo m_cachedEyeInfo
       m_cachedEyeFov m_floorHeight m_useParallelProjection m_fovLevel
       m_isEyeTrackingAvailable m_eyeTrackingType eyeLeft eyeRight] in *.

Ltac run_deviceChanged :=
  unfold_deviceChanged;
  repeat (split_scrutinee; unfold_deviceChanged; try discriminate).

Ltac absurd_branch :=
  match goal with
  | Hc : negb true = true |- _ => discriminate Hc
  | Hc : negb false = false |- _ => discriminate Hc
  | Hc : ?a = pvr_success, Hn : ?a <> pvr_success |- _ => contradiction
  | Hc : pvr_success = pvr_rpc_failed |- _ => discriminate Hc
  | Ha : ?a = pvr_success, Hb : ?a = pvr_rpc_failed |- _ => congruence
  | Hc : N.eqb nullptr nullptr = false |- _ => discriminate Hc
  end.

Ltac run_getSystem :=
  unfold_getSystem; repeat (split_scrutinee; unfold_getSystem; try absurd_branch).

Section GetSystem.

Context {W : Type}.
Variable pvr : PvrApi W.
Variable pf : Platform.

(** One successful call on an unchanged device: the device-change branch
    is skipped, the snapshot is kept, the system identifier is 1.  The
    identity query is the last call made; when no session had to be
    created, the status query before it is the only other one. *)
Lemma getSystem_cached_call instance getInfo (r : OpenXrRuntime) (w0 : W) res s' :
  runGetSystem pvr pf instance getInfo r w0 = (Done (XR_SUCCESS, res), s') ->
  Forall (fun sn => sn = SerialNumber (m_cachedHmdInfo r)) (reportedSerials (trace s')) ->
  res = Some 1%N
  /\ snapshot (rt s') = snapshot r
  /\ existsb isDerivationQuery (trace s') = false
  /\ m_systemCreated (rt s') = true
  /\ endsOnIdentity (trace s') = true
  /\ (existsb isSessionCreation (trace s') = false -> isCheapPath (trace s') = true).
Proof.
  intros H HF.
  run_getSystem; try discriminate.
  all: inversion H; subst; clear H; simpl in *.
  all: try (match goal with
            | Hd : deviceChanged _ _ _ _ = _ |- _ =>
                destruct (appendsOnly_deviceChanged pvr pf _ _ _ _ Hd) as (tr & Htr & _)
            end;
            simpl in Htr; rewrite Htr in HF; simpl in HF;
            repeat match type of HF with
                   | Forall _ (reportedSerials (_ :: _)) => simpl in HF
                   end;
            inversion HF as [ | sn l Hsn Hl]; subst;
            match goal with
            | Hb : negb (String.eqb _ _) = true |- _ =>
                rewrite <- Hsn, String.eqb_refl in Hb; discriminate
            end).
  all: repeat split; try reflexivity; try (intros Hc; discriminate Hc).
  all: intros _; cbn [isCheapPath]; rewrite ?N.eqb_refl; reflexivity.
Qed.


Lemma serial_differs (a b : string) :
  negb (String.eqb a b) = true <-> a <> b.
Proof.
  destruct (String.eqb_spec a b); simpl; split; congruence.
Qed.


Lemma endsUnavailable_after_queries (tr0 tr : list Event) :
  tr <> [] -> forallb notBringUp tr = true -> endsUnavailable (tr0 ++ tr) = false.
Proof.
  intros Hne Hall. unfold endsUnavailable. rewrite rev_app_distr.
  destruct (rev tr) as [| e l] eqn:E.
  - apply (f_equal (@rev Event)) in E. rewrite rev_involutive in E. contradiction.
  - assert (He : notBringUp e = true).
    { rewrite forallb_forall in Hall. apply Hall. apply in_rev. rewrite E. left. reflexivity. }
    simpl. destruct e; try reflexivity; discriminate He.
Qed.

Lemma endsUnavailable_after_identity (tr0 : list Event) (e : Event) (tr : list Event) :
  notBringUp e = true -> forallb notBringUp tr = true ->
  endsUnavailable ((tr0 ++ [e]) ++ tr) = false.
Proof.
  intros He Hall. rewrite <- app_assoc. apply endsUnavailable_after_queries.
  - discriminate.
  - simpl. rewrite He. exact Hall.
Qed.

Lemma bringUp_not_among_queries (e : Event) (tr : list Event) :
  forallb notBringUp tr = true -> isBringUpEvent e = true -> ~ In e tr.
Proof.
  intros Hall He Hin. rewrite forallb_forall in Hall. apply Hall in Hin.
  unfold notBringUp in Hin. rewrite He in Hin. discriminate.
Qed.

(** Whatever its outcome, the device-change branch leaves the identity it
    was given in the cache. *)
Lemma deviceChanged_caches_identity hmdInfo (s : St W) res (s' : St W) :
  deviceChanged pvr pf hmdInfo s = (res, s') -> m_cachedHmdInfo (rt s') = hmdInfo.
Proof.
  intros H. destruct s as [r w0 tr0].
  run_deviceChanged.
  all: inversion H; subst; reflexivity.
Qed.

(** C5 (as the code has it). [xrGetSystem] answers
    [XR_ERROR_FORM_FACTOR_UNAVAILABLE] exactly when the last thing the
    service said was a session creation refused with [pvr_rpc_failed], or a
    successfully read status that is not both service-ready and
    HMD-present.  In these cases, and in no other, the cached identity
    [m_cachedHmdInfo] is reset to its empty value (otherwise it is the
    identity cached before or the one the service just reported); the rest
    of the snapshot (eye geometry, fov, floor height, projection mode, fov
    level, eye tracking) is left as it was.  A creation refused with
    [pvr_rpc_failed] leaves no session; any other failure of the creation
    is thrown to the caller. *)
Theorem unavailable_exactly instance getInfo (r : OpenXrRuntime) (w0 : W)
    res (s' : St W) :
  runGetSystem pvr pf instance getInfo r w0 = (res, s') ->
  (res = Done (XR_ERROR_FORM_FACTOR_UNAVAILABLE, None)
   <-> endsUnavailable (trace s') = true)
  /\ (forall id, res = Done (XR_ERROR_FORM_FACTOR_UNAVAILABLE, id) ->
      id = None
      /\ m_cachedHmdInfo (rt s') = pvrHmdInfo_zero
      /\ sameGeometry (rt s') r)
  /\ (res <> Done (XR_ERROR_FORM_FACTOR_UNAVAILABLE, None) ->
      m_cachedHmdInfo (rt s') = m_cachedHmdInfo r
      \/ exists h info, In (EvGetHmdInfo h pvr_success info) (trace s')
                        /\ m_cachedHmdInfo (rt s') = info)
  /\ (forall c h, In (EvCreateSession c h) (trace s') ->
      (c = pvr_rpc_failed ->
       res = Done (XR_ERROR_FORM_FACTOR_UNAVAILABLE, None)
       /\ m_pvrSession (rt s') = nullptr)
      /\ (c <> pvr_success -> c <> pvr_rpc_failed ->
          res = Thrown (PvrFailure c "pvr_createSession"))).
Proof.
  intros H.
  run_getSystem.
  all: inversion H; subst; clear H.
  all: repeat match goal with a : unit |- _ => destruct a end.
  all: try match goal with
           | Hd : deviceChanged _ _ ?i _ = (_, _) |- _ =>
               pose proof (deviceChanged_caches_identity _ _ _ _ Hd) as Hid;
               destruct (appendsOnly_deviceChanged pvr pf _ _ _ _ Hd) as (tr & Htr & Hall)
           end.
  all: cbn [rt trace m_pvrSession set_m_pvrSession set_m_cachedHmdInfo
            set_m_systemCreated m_cachedEyeInfo m_cachedHmdInfo
            m_useParallelProjection] in *.
  all: try rewrite Htr.
  all: (split; [ | split; [ | split ] ]).
  (* the creation calls of the trace *)
  all: try (intros c h Hin; rewrite ?in_app_iff in Hin; simpl in Hin;
            repeat match type of Hin with
                   | _ \/ _ => destruct Hin as [Hin | Hin]
                   end;
            first [ contradiction
                  | discriminate Hin
                  | exfalso; refine (bringUp_not_among_queries _ _ Hall _ Hin); reflexivity
                  | injection Hin as <- <-;
                    split; [ intros ? | intros ? ? ];
                    solve [ congruence | contradiction | split; reflexivity
                          | reflexivity
                          | split; [ reflexivity | apply N.eqb_eq; assumption ] ] ]).
  (* what an unavailable answer leaves *)
  all: try (intros id Hid'; try discriminate Hid';
            injection Hid' as <-;
            split; [reflexivity | split; [reflexivity | repeat split ] ]).
  (* the identity in the other cases *)
  all: try (intros Hne; try congruence;
            solve [ exfalso; apply Hne; reflexivity
                  | left; reflexivity
                  | right; do 2 eexists; split; [ | eassumption ];
                    apply in_or_app; left; simpl; auto 20 ]).
  (* the answer against the end of the trace *)
  all: split; [ intros Hr; try discriminate Hr; simpl; solve [ reflexivity | assumption ]
              | intros He; try reflexivity; exfalso ].
  all: try (rewrite endsUnavailable_after_identity in He by (reflexivity || assumption);
            discriminate He).
  all: cbv [endsUnavailable rev app] in He; try discriminate He; try congruence.
  all: match type of He with
       | match ?p with _ => _ end = true => destruct p; try discriminate He; congruence
       end.
Qed.



(** A call that succeeds stores the system identifier 1. *)
Lemma getSystem_success_id instance getInfo (r : OpenXrRuntime) (w0 : W) id s' :
  runGetSystem pvr pf instance getInfo r w0 = (Done (XR_SUCCESS, id), s') ->
  id = Some 1%N.
Proof.
  intros H. run_getSystem; try discriminate.
  all: inversion H; reflexivity.
Qed.

Lemma getSystem_cached_calls (calls : list (XrInstance * XrSystemGetInfo * W)) :
  forall r : OpenXrRuntime,
  deviceUnchanged pvr pf r calls ->
  Forall (fun out => fst out = Done (XR_SUCCESS, Some 1%N)
                     /\ snapshot (rt (snd out)) = snapshot r
                     /\ existsb isDerivationQuery (trace (snd out)) = false
                     /\ endsOnIdentity (trace (snd out)) = true
                     /\ (existsb isSessionCreation (trace (snd out)) = false ->
                         isCheapPath (trace (snd out)) = true))
    (runGetSystemCalls pvr pf r calls).
Proof.
  induction calls as [| [[instance getInfo] w0] rest IH]; intros r H.
  - constructor.
  - simpl in H |- *. destruct H as ((id & Hok) & Hser & Hrest).
    destruct (runGetSystem pvr pf instance getInfo r w0) as [res s'] eqn:E.
    simpl in Hok, Hser, Hrest |- *. subst res.
    destruct (getSystem_cached_call _ _ _ _ _ _ E Hser)
      as (-> & Hsnap & Hq & _ & Hend & Hcheap).
    constructor.
    + auto.
    + apply IH in Hrest. revert Hrest. apply Forall_impl.
      intros out (H1 & H2 & H3 & H4 & H5). rewrite H2. auto.
Qed.

(** C3. Take any call of [xrGetSystem] that succeeds, and after it any
    number of calls that succeed while the service reports the serial
    number that is cached.  Then every call, the first included, returns
    [XR_SUCCESS] with the system identifier 1; every call after the first
    leaves the cached snapshot (identity, eye geometry, fov, floor height,
    projection mode, fov level, eye tracking) exactly as the first one
    left it, and skips everything behind the comparison of the serial
    numbers: the identity query is the last call it makes to the service,
    and none of its calls is a query of the device-change branch.  When it
    has no session to create, the status query and the identity query are
    all it does. *)
Theorem getSystem_cache_idempotent instance getInfo (r : OpenXrRuntime) (w0 : W)
    (rest : list (XrInstance * XrSystemGetInfo * W)) :
  let first := runGetSystem pvr pf instance getInfo r w0 in
  (exists id, fst first = Done (XR_SUCCESS, id)) ->
  deviceUnchanged pvr pf (rt (snd first)) rest ->
  fst first = Done (XR_SUCCESS, Some 1%N)
  /\ List.length (runGetSystemCalls pvr pf (rt (snd first)) rest) = List.length rest
  /\ Forall (fun out => fst out = Done (XR_SUCCESS, Some 1%N)
                        /\ snapshot (rt (snd out)) = snapshot (rt (snd first))
                        /\ existsb isDerivationQuery (trace (snd out)) = false
                        /\ endsOnIdentity (trace (snd out)) = true
                        /\ (existsb isSessionCreation (trace (snd out)) = false ->
                            isCheapPath (trace (snd out)) = true))
       (runGetSystemCalls pvr pf (rt (snd first)) rest).
Proof.
  intros first (id & Hok) Hrest. split; [ | split].
  - subst first. destruct (runGetSystem pvr pf instance getInfo r w0) as [res s'] eqn:E.
    simpl in Hok |- *. subst res. rewrite (getSystem_success_id _ _ _ _ _ _ E). reflexivity.
  - clear. generalize (rt (snd first)). clear first.
    induction rest as [| [[i g] w] rest IH]; intros r0; simpl; [reflexivity | ].
    rewrite IH. reflexivity.
  - apply getSystem_cached_calls. exact Hrest.
Qed.

End GetSystem.

(** *** The scenarios *)

Import Scripted.

Lemma getSystem_cache_idempotent_witness :
  Forall (fun out => fst out = Done (XR_SUCCESS, Some 1%N)
                     /\ snapshot (rt (snd out)) = snapshot runtimeOnDeviceA
                     /\ existsb isDerivationQuery (trace (snd out)) = false
                     /\ endsOnIdentity (trace (snd out)) = true
                     /\ (existsb isSessionCreation (trace (snd out)) = false ->
                         isCheapPath (trace (snd out)) = true))
    (runGetSystemCalls scriptedPvr stubPlatform runtimeOnDeviceA
       [(1%N, hmdGetInfo, steady); (1%N, hmdGetInfo, takenOver);
        (1%N, hmdGetInfo, steady)]).
Proof.
  assert (Hfirst : exists id,
             fst (runGetSystem scriptedPvr stubPlatform 1%N hmdGetInfo freshRuntime
                    (firstContact two_hundredths noSettings))
             = Done (XR_SUCCESS, id)).
  { exists (Some 1%N). vm_compute. reflexivity. }
  assert (Hrest : deviceUnchanged scriptedPvr stubPlatform runtimeOnDeviceA
                    [(1%N, hmdGetInfo, steady); (1%N, hmdGetInfo, takenOver);
                     (1%N, hmdGetInfo, steady)]).
  { vm_compute.
    repeat (split; [ exists (Some 1%N); reflexivity | split; [ repeat constructor | ] ]).
    exact I. }
  destruct (getSystem_cache_idempotent scriptedPvr stubPlatform 1%N hmdGetInfo
              freshRuntime (firstContact two_hundredths noSettings) _ Hfirst Hrest)
    as (_ & _ & H).
  exact H.
Defined.



Lemma unavailable_exactly_witness :
  fst (runGetSystem scriptedPvr stubPlatform 1%N hmdGetInfo freshRuntime unreachable)
  = Done (XR_ERROR_FORM_FACTOR_UNAVAILABLE, None).
Proof.
  destruct (unavailable_exactly scriptedPvr stubPlatform 1%N hmdGetInfo freshRuntime
              unreachable
              (fst (runGetSystem scriptedPvr stubPlatform 1%N hmdGetInfo freshRuntime
                      unreachable))
              (snd (runGetSystem scriptedPvr stubPlatform 1%N hmdGetInfo freshRuntime
                      unreachable))
              (surjective_pairing _)) as ((_ & H) & _).
  apply H. vm_compute. reflexivity.
Defined.

(** C5 as stated fails: when the headset is unplugged the call answers
    unavailable and empties the cached identity, but the snapshot is not
    back to its default value: projection mode, geometry and fov stay as
    derived for the lost device. *)
Lemma unavailable_keeps_derived_state :
  let out := runGetSystem scriptedPvr stubPlatform 1%N hmdGetInfo
               runtimeOnDeviceA unplugged in
  fst out = Done (XR_ERROR_FORM_FACTOR_UNAVAILABLE, None)
  /\ m_cachedHmdInfo (rt (snd out)) = pvrHmdInfo_zero
  /\ m_useParallelProjection (rt (snd out)) = true
  /\ m_cachedEyeFov (rt (snd out)) = m_cachedEyeFov runtimeOnDeviceA
  /\ snapshot (rt (snd out)) <> defaultSnapshot.
Proof.
  cbv zeta. repeat split; try (vm_compute; reflexivity).
  intros H. apply (f_equal snap_useParallelProjection) in H.
  vm_compute in H. discriminate H.
Qed.

End GetSystemFacts.


(** ** More on the format tables *)

Module FormatTableFacts.

Import Format ApiFormat.

(** X1. Every PVR format that [pvrToDxgiTextureFormat] knows comes back
    unchanged through [dxgiToPvrTextureFormat]. *)
Theorem pvr_dxgi_round_trip (p : pvrTextureFormat) :
  pvrToDxgiTextureFormat p <> DXGI_FORMAT_UNKNOWN ->
  dxgiToPvrTextureFormat (pvrToDxgiTextureFormat p) = p.
Proof. destruct p; simpl; intros H; congruence. Qed.

Lemma pvr_dxgi_round_trip_witness :
  dxgiToPvrTextureFormat (pvrToDxgiTextureFormat PVR_FORMAT_D24_UNORM_S8_UINT)
  = PVR_FORMAT_D24_UNORM_S8_UINT.
Proof. apply pvr_dxgi_round_trip. simpl. discriminate. Defined.



(** X3. A Vulkan format that [vkToPvrTextureFormat] knows lands on a PVR
    format of the DXGI catalog, no other Vulkan format lands on the same
    one, and its DXGI counterpart is an sRGB format exactly for the two
    [_SRGB] Vulkan formats. *)
Theorem vk_formats_in_catalog (f : VkFormat) :
  vkToPvrTextureFormat f <> PVR_FORMAT_UNKNOWN ->
  In (pvrToDxgiTextureFormat (vkToPvrTextureFormat f)) dxgiCatalog
  /\ dxgiToPvrTextureFormat (pvrToDxgiTextureFormat (vkToPvrTextureFormat f))
     = vkToPvrTextureFormat f
  /\ (forall g, vkToPvrTextureFormat g = vkToPvrTextureFormat f -> g = f)
  /\ (isSRGBFormat (pvrToDxgiTextureFormat (vkToPvrTextureFormat f)) = true
      <-> f = VK_FORMAT_R8G8B8A8_SRGB \/ f = VK_FORMAT_B8G8R8A8_SRGB).
Proof.
  intros H. destruct f; simpl in H |- *; try congruence.
  all: repeat split; try tauto; try (intros g Hg; destruct g; simpl in Hg; congruence).
  all: try (intros Hs; discriminate Hs).
  all: try (intros [Hs | Hs]; discriminate Hs).
  all: auto.
Qed.

Lemma vk_formats_in_catalog_witness :
  pvrToDxgiTextureFormat (vkToPvrTextureFormat VK_FORMAT_B8G8R8A8_SRGB)
  = DXGI_FORMAT_B8G8R8A8_UNORM_SRGB
  /\ isSRGBFormat (pvrToDxgiTextureFormat (vkToPvrTextureFormat VK_FORMAT_B8G8R8A8_SRGB))
     = true.
Proof.
  split; [reflexivity | ].
  destruct (vk_formats_in_catalog VK_FORMAT_B8G8R8A8_SRGB) as (_ & _ & _ & H).
  - simpl. discriminate.
  - apply H. right. reflexivity.
Defined.

(** X4. An OpenGL format that [glToPvrTextureFormat] knows has a
    non-zero size in [glGetBytePerPixels], lands on a PVR format of the
    DXGI catalog that no other OpenGL format lands on, and its DXGI
    counterpart is an sRGB format exactly for [GL_SRGB8_ALPHA8]. *)
Theorem gl_formats_in_catalog (f : GlFormat) :
  glToPvrTextureFormat f <> PVR_FORMAT_UNKNOWN ->
  glGetBytePerPixels f <> 0%N
  /\ In (pvrToDxgiTextureFormat (glToPvrTextureFormat f)) dxgiCatalog
  /\ dxgiToPvrTextureFormat (pvrToDxgiTextureFormat (glToPvrTextureFormat f))
     = glToPvrTextureFormat f
  /\ (forall g, glToPvrTextureFormat g = glToPvrTextureFormat f -> g = f)
  /\ (isSRGBFormat (pvrToDxgiTextureFormat (glToPvrTextureFormat f)) = true
      <-> f = GL_SRGB8_ALPHA8).
Proof.
  intros H. destruct f; simpl in H |- *; try congruence.
  all: repeat split; try tauto; try discriminate;
    try (intros g Hg; destruct g; simpl in Hg; congruence).
Qed.

Lemma gl_formats_in_catalog_witness :
  glGetBytePerPixels GL_DEPTH32F_STENCIL8 <> 0%N.
Proof.
  destruct (gl_formats_in_catalog GL_DEPTH32F_STENCIL8) as (H & _).
  - simpl. discriminate.
  - exact H.
Defined.

End FormatTableFacts.

(** ** The string helpers *)

Module StringUtilFacts.

Import StringUtil.

Lemma length_append (s1 s2 : string) :
  String.length (s1 ++ s2) = String.length s1 + String.length s2.
Proof. induction s1 as [| a s1 IH]; simpl; congruence. Qed.

Lemma prefix_append (s1 s2 : string) :
  String.prefix s1 s2 = true <-> exists rest, s2 = (s1 ++ rest)%string.
Proof.
  revert s2. induction s1 as [| a s1 IH]; intros s2.
  - split; [intros _; exists s2; reflexivity | destruct s2; reflexivity].
  - destruct s2 as [| b s2]; simpl.
    + split; [discriminate | intros [rest H]; discriminate].
    + destruct (Ascii.ascii_dec a b) as [-> | Hne].
      * rewrite IH. split; intros [rest H]; exists rest; congruence.
      * split; [discriminate | intros [rest H]; congruence].
Qed.

Lemma index_zero_prefix (sub str : string) :
  String.index 0 sub str = Some 0 <-> String.prefix sub str = true.
Proof.
  destruct str as [| b str].
  - destruct sub; simpl; split; congruence.
  - change (String.index 0 sub (String b str))
      with (if String.prefix sub (String b str) then Some 0
            else match String.index 0 sub str with
                 | Some n => Some (S n)
                 | None => None
                 end).
    destruct (String.prefix sub (String b str)); [tauto | ].
    destruct (String.index 0 sub str); split; congruence.
Qed.

Lemma prefix_length (s1 s2 : string) :
  String.prefix s1 s2 = true -> String.length s1 <= String.length s2.
Proof.
  intros H. apply prefix_append in H as [rest ->].
  rewrite length_append. lia.
Qed.

(** A found occurrence lies inside the string. *)
Lemma index_bound (sub str : string) :
  forall n, String.index 0 sub str = Some n ->
  n + String.length sub <= String.length str.
Proof.
  induction str as [| b str IH]; intros n H.
  - simpl in H. destruct sub; [ | discriminate]. inversion H. simpl. lia.
  - change (String.index 0 sub (String b str))
      with (if String.prefix sub (String b str) then Some 0
            else match String.index 0 sub str with
                 | Some n => Some (S n)
                 | None => None
                 end) in H.
    destruct (String.prefix sub (String b str)) eqn:P.
    + inversion H. apply prefix_length in P. lia.
    + destruct (String.index 0 sub str) as [m | ]; [ | discriminate].
      inversion H. specialize (IH m eq_refl). simpl. lia.
Qed.

Lemma substring_whole (s : string) :
  String.substring 0 (String.length s) s = s.
Proof. induction s; simpl; congruence. Qed.

Lemma substring_suffix (str : string) :
  forall n sub, String.substring n (String.length sub) str = sub ->
  n + String.length sub = String.length str ->
  exists pre, str = (pre ++ sub)%string /\ String.length pre = n.
Proof.
  induction str as [| b str IH]; intros n sub Hs Hl.
  - simpl in Hl. assert (n = 0) by lia. subst n.
    destruct sub; [ | simpl in Hl; lia]. exists EmptyString. auto.
  - destruct n as [| n].
    + exists EmptyString. split; [ | reflexivity].
      change (0 + String.length sub) with (String.length sub) in Hl.
      rewrite Hl, substring_whole in Hs. simpl. congruence.
    + simpl in Hs, Hl. destruct (IH n sub Hs) as (pre & -> & Hp); [lia | ].
      exists (String b pre). simpl. auto.
Qed.

(** X5. [startsWith(str, substr)] holds exactly when [str] is [substr]
    followed by something; in particular every string starts with the
    empty string. *)
Theorem startsWith_prefix (str substr : string) :
  startsWith str substr = true <-> exists rest, str = (substr ++ rest)%string.
Proof.
  rewrite <- prefix_append, <- index_zero_prefix.
  unfold startsWith, find, npos.
  destruct (String.index 0 substr str) as [n | ].
  - rewrite Z.eqb_eq. split; [intros H; f_equal; lia | intros H; inversion H; reflexivity].
  - split; [intros H; discriminate H | discriminate].
Qed.

Lemma size_mod (str substr : string) :
  (size str < npos)%Z -> String.length substr <= String.length str ->
  ((size str - size substr) mod 2 ^ 64)%Z
  = Z.of_nat (String.length str - String.length substr).
Proof.
  unfold size, npos. intros Hb Hl. rewrite Z.mod_small; lia.
Qed.

Lemma endsWith_index (str substr : string) :
  (size str < npos)%Z ->
  endsWith str substr = true
  <-> String.index 0 substr str = Some (String.length str - String.length substr)
      /\ String.length substr <= String.length str.
Proof.
  intros Hb. unfold endsWith, find.
  destruct (String.index 0 substr str) as [n | ] eqn:E.
  - pose proof (index_bound _ _ _ E) as Hn.
    rewrite size_mod by (assumption || lia).
    assert (Hnp : (Z.of_nat n =? npos)%Z = false).
    { apply Z.eqb_neq. unfold npos, size in *. lia. }
    rewrite Hnp. simpl. rewrite Z.eqb_eq. split.
    + intros H. split; [f_equal; lia | lia].
    + intros [H _]. inversion H. lia.
  - rewrite Z.eqb_refl. simpl. split; [discriminate | intros [H _]; discriminate].
Qed.

(** X6. For a string shorter than [npos], [endsWith(str, substr)] holds
    exactly when the first occurrence of [substr] in [str] is the one that
    ends [str]; then [str] is something followed by [substr]. *)
Theorem endsWith_first_occurrence (str substr : string) :
  (size str < npos)%Z ->
  (endsWith str substr = true
   <-> String.index 0 substr str
       = Some (String.length str - String.length substr)
       /\ String.length substr <= String.length str)
  /\ (endsWith str substr = true -> exists pre, str = (pre ++ substr)%string).
Proof.
  intros Hb. split; [exact (endsWith_index str substr Hb) | ].
  intros H. apply (endsWith_index str substr Hb) in H as [Hi Hl].
  pose proof (String.index_correct1 _ _ _ _ Hi) as Hsub.
  destruct (substring_suffix str _ substr Hsub) as (pre & Hp & _); [lia | ].
  exists pre. exact Hp.
Qed.

Lemma endsWith_first_occurrence_witness :
  endsWith "XR_KHR_D3D11_enable" "_enable" = true.
Proof.
  destruct (endsWith_first_occurrence "XR_KHR_D3D11_enable" "_enable") as [H _].
  - reflexivity.
  - apply H. split; [reflexivity | simpl; lia].
Defined.

(** X7. [endsWith] answers false for a string that ends with a non-empty
    [substr] but also begins with it: the search finds the first
    occurrence, not the last. *)
Theorem endsWith_misses_repeated_suffix (substr middle : string) :
  substr <> EmptyString ->
  (size (substr ++ middle ++ substr) < npos)%Z ->
  endsWith (substr ++ middle ++ substr) substr = false.
Proof.
  intros Hne Hb.
  destruct (endsWith (substr ++ middle ++ substr) substr) eqn:E; [ | reflexivity].
  apply (endsWith_index _ _ Hb) in E as [Hi Hl].
  assert (H0 : String.index 0 substr (substr ++ middle ++ substr) = Some 0).
  { apply index_zero_prefix, prefix_append. eexists. reflexivity. }
  rewrite H0 in Hi. inversion Hi as [Hz].
  rewrite !length_append in Hz.
  destruct substr; [congruence | simpl in Hz; lia].
Qed.

Lemma endsWith_misses_repeated_suffix_witness :
  endsWith "abab" "ab" = false.
Proof.
  apply (endsWith_misses_repeated_suffix "ab" ""); [discriminate | reflexivity].
Defined.

End StringUtilFacts.


(** ** Swapchain rectangles *)

Module SwapchainFacts.

Import Swapchain.

Local Open Scope Z_scope.

(** The sum of a non-negative offset and a positive extent, as [int_add]
    gives it: the sum itself up to [INT_MAX], and [2^32] less beyond. *)
Lemma int_add_edge (a b : Z) :
  isInt a = true -> isInt b = true -> 0 <= a -> 0 < b ->
  (a + b <= INT_MAX -> int_add a b = a + b)
  /\ (INT_MAX < a + b -> int_add a b = a + b - 2 ^ 32 /\ int_add a b < 0).
Proof.
  unfold isInt, int_add, INT_MIN, INT_MAX. intros Ha Hb Ha0 Hb0.
  apply andb_true_iff in Ha as [Ha1 Ha2]. apply andb_true_iff in Hb as [Hb1 Hb2].
  apply Z.leb_le in Ha1, Ha2, Hb1, Hb2.
  split; intros H.
  - rewrite Z.mod_small by lia. lia.
  - assert (Hm : (a + b + 2 ^ 31) mod 2 ^ 32 = a + b + 2 ^ 31 - 2 ^ 32).
    { symmetry. apply Z.mod_unique with (q := 1); lia. }
    rewrite Hm. lia.
Qed.

Lemma checks_pass (rect : XrRect2Di) :
  Z.ltb (offset_x rect) 0 || Z.ltb (offset_y rect) 0
  || Z.leb (extent_width rect) 0 || Z.leb (extent_height rect) 0 = false
  <-> 0 <= offset_x rect /\ 0 <= offset_y rect
      /\ 0 < extent_width rect /\ 0 < extent_height rect.
Proof.
  rewrite !orb_false_iff, !Z.ltb_ge, !Z.leb_gt. tauto.
Qed.

(** What the test computes, on any inputs. *)
Lemma isValidSwapchainRect_general (desc : pvrTextureSwapChainDesc) (rect : XrRect2Di) :
  isValidSwapchainRect desc rect = true
  <-> 0 <= offset_x rect /\ 0 <= offset_y rect
      /\ 0 < extent_width rect /\ 0 < extent_height rect
      /\ int_add (offset_x rect) (extent_width rect) <= Width desc
      /\ int_add (offset_y rect) (extent_height rect) <= Height desc.
Proof.
  unfold isValidSwapchainRect.
  pose proof (checks_pass rect) as Hc.
  destruct (Z.ltb (offset_x rect) 0 || Z.ltb (offset_y rect) 0
            || Z.leb (extent_width rect) 0 || Z.leb (extent_height rect) 0).
  - split; [discriminate | ]. intros (H1 & H2 & H3 & H4 & _).
    assert (Hf : true = false) by (apply Hc; auto). discriminate Hf.
  - destruct Hc as [Hc _]. specialize (Hc eq_refl).
    destruct (Z.gtb_spec (int_add (offset_x rect) (extent_width rect)) (Width desc));
      destruct (Z.gtb_spec (int_add (offset_y rect) (extent_height rect)) (Height desc));
      cbn [orb]; split; try discriminate; try lia; intros _; tauto.
Qed.

(** X8. On [int] inputs, [isValidSwapchainRect] accepts exactly the
    rectangles with a non-negative offset and a positive extent whose
    right and bottom edges, as the [int] sums give them, do not exceed
    the image.  As long as neither sum exceeds [INT_MAX] these are
    exactly the rectangles that lie inside the image; a sum beyond
    [INT_MAX] wraps to a negative edge. *)
Theorem isValidSwapchainRect_inside (desc : pvrTextureSwapChainDesc) (rect : XrRect2Di) :
  isIntRect rect = true ->
  (isValidSwapchainRect desc rect = true
   <-> 0 <= offset_x rect /\ 0 <= offset_y rect
       /\ 0 < extent_width rect /\ 0 < extent_height rect
       /\ int_add (offset_x rect) (extent_width rect) <= Width desc
       /\ int_add (offset_y rect) (extent_height rect) <= Height desc)
  /\ (offset_x rect + extent_width rect <= INT_MAX ->
      offset_y rect + extent_height rect <= INT_MAX ->
      (isValidSwapchainRect desc rect = true
       <-> 0 <= offset_x rect /\ 0 <= offset_y rect
           /\ 0 < extent_width rect /\ 0 < extent_height rect
           /\ offset_x rect + extent_width rect <= Width desc
           /\ offset_y rect + extent_height rect <= Height desc)).
Proof.
  intros Hi. unfold isIntRect in Hi.
  apply andb_true_iff in Hi as [Hi Hh]. apply andb_true_iff in Hi as [Hi Hw].
  apply andb_true_iff in Hi as [Hx Hy].
  pose proof (isValidSwapchainRect_general desc rect) as Hgen.
  split; [exact Hgen | ].
  intros Hox Hoy. rewrite Hgen. split.
  - intros (H1 & H2 & H3 & H4 & H5 & H6).
    destruct (int_add_edge _ _ Hx Hw H1 H3) as [Ex _].
    destruct (int_add_edge _ _ Hy Hh H2 H4) as [Ey _].
    rewrite (Ex Hox) in H5. rewrite (Ey Hoy) in H6. tauto.
  - intros (H1 & H2 & H3 & H4 & H5 & H6).
    destruct (int_add_edge _ _ Hx Hw H1 H3) as [Ex _].
    destruct (int_add_edge _ _ Hy Hh H2 H4) as [Ey _].
    rewrite (Ex Hox), (Ey Hoy). tauto.
Qed.

Lemma isValidSwapchainRect_inside_witness :
  isValidSwapchainRect (mkPvrTextureSwapChainDesc 3840 2160)
    (mkXrRect2Di 1920 0 1920 2160) = true.
Proof.
  destruct (isValidSwapchainRect_inside (mkPvrTextureSwapChainDesc 3840 2160)
              (mkXrRect2Di 1920 0 1920 2160) eq_refl) as [_ H].
  apply H; vm_compute; try discriminate. repeat split; discriminate.
Defined.

(** X9. The test answers false, before any sum, when an offset is
    negative or an extent is not positive.  On an image without positive
    width (height) it accepts no rectangle whose right (bottom) edge sum
    stays within [int].  But a sum beyond [INT_MAX] wraps to a negative
    edge: a rectangle whose right edge sum exceeds [INT_MAX] is accepted
    by every image of non-negative width that holds its vertical range,
    far outside the image as it is. *)
Theorem isValidSwapchainRect_rejects (desc : pvrTextureSwapChainDesc) (rect : XrRect2Di) :
  (offset_x rect < 0 \/ offset_y rect < 0
   \/ extent_width rect <= 0 \/ extent_height rect <= 0 ->
   isValidSwapchainRect desc rect = false)
  /\ (isIntRect rect = true ->
      (Width desc <= 0 -> offset_x rect + extent_width rect <= INT_MAX ->
       isValidSwapchainRect desc rect = false)
      /\ (Height desc <= 0 -> offset_y rect + extent_height rect <= INT_MAX ->
          isValidSwapchainRect desc rect = false)
      /\ (0 <= offset_x rect -> 0 <= offset_y rect ->
          0 < extent_width rect -> 0 < extent_height rect ->
          INT_MAX < offset_x rect + extent_width rect ->
          isInt (Width desc) = true -> 0 <= Width desc ->
          offset_y rect + extent_height rect <= Height desc ->
          offset_y rect + extent_height rect <= INT_MAX ->
          isValidSwapchainRect desc rect = true
          /\ Width desc < offset_x rect + extent_width rect)).
Proof.
  split.
  - intros Hr. unfold isValidSwapchainRect.
    destruct (Z.ltb_spec (offset_x rect) 0); cbn [orb andb]; [reflexivity | ].
    destruct (Z.ltb_spec (offset_y rect) 0); cbn [orb andb]; [reflexivity | ].
    destruct (Z.leb_spec (extent_width rect) 0); cbn [orb andb]; [reflexivity | ].
    destruct (Z.leb_spec (extent_height rect) 0); cbn [orb andb]; [reflexivity | ].
    lia.
  - intros Hi.
    destruct (isValidSwapchainRect_general desc rect) as [Hto Hfrom].
    unfold isIntRect in Hi.
    apply andb_true_iff in Hi as [Hi Hh]. apply andb_true_iff in Hi as [Hi Hw].
    apply andb_true_iff in Hi as [Hx Hy].
    split; [ | split].
    + intros HW Hox.
      destruct (isValidSwapchainRect desc rect) eqn:E; [ | reflexivity].
      destruct (Hto eq_refl) as (H1 & H2 & H3 & H4 & H5 & H6).
      destruct (int_add_edge _ _ Hx Hw H1 H3) as [Ex _]. rewrite (Ex Hox) in H5. lia.
    + intros HH Hoy.
      destruct (isValidSwapchainRect desc rect) eqn:E; [ | reflexivity].
      destruct (Hto eq_refl) as (H1 & H2 & H3 & H4 & H5 & H6).
      destruct (int_add_edge _ _ Hy Hh H2 H4) as [Ey _]. rewrite (Ey Hoy) in H6. lia.
    + intros H1 H2 H3 H4 Hov HWi HW HyH Hoy.
      destruct (int_add_edge _ _ Hx Hw H1 H3) as [_ Ex].
      destruct (int_add_edge _ _ Hy Hh H2 H4) as [Ey _].
      destruct (Ex Hov) as [_ Hneg]. specialize (Ey Hoy).
      split.
      * apply Hfrom. rewrite Ey. repeat split; try assumption; lia.
      * unfold isInt in HWi. apply andb_true_iff in HWi as [_ HW2].
        apply Z.leb_le in HW2. lia.
Qed.

Lemma isValidSwapchainRect_rejects_witness :
  isValidSwapchainRect (mkPvrTextureSwapChainDesc 100 100)
    (mkXrRect2Di INT_MAX 0 1 1) = true
  /\ isValidSwapchainRect (mkPvrTextureSwapChainDesc 3840 2160)
       (mkXrRect2Di 0 0 0 2160) = false.
Proof.
  destruct (isValidSwapchainRect_rejects (mkPvrTextureSwapChainDesc 100 100)
              (mkXrRect2Di INT_MAX 0 1 1)) as [_ H].
  destruct (H eq_refl) as (_ & _ & Hacc).
  destruct (isValidSwapchainRect_rejects (mkPvrTextureSwapChainDesc 3840 2160)
              (mkXrRect2Di 0 0 0 2160)) as [Hrej _].
  split.
  - apply Hacc; vm_compute; try discriminate; reflexivity.
  - apply Hrej. right. right. left. vm_compute. discriminate.
Defined.

End SwapchainFacts.

(** ** Poses *)

Module PoseFacts.

Import Float32 Xr Pose.

(** X10. The two pose conversions are inverse to each other. *)
Theorem pose_conversions_inverse :
  (forall p : pvrPosef, xrPoseToPvrPose (pvrPoseToXrPose p) = p)
  /\ (forall q : XrPosef, pvrPoseToXrPose (xrPoseToPvrPose q) = q).
Proof.
  split.
  - intros [[x y z w] [a b c]]. reflexivity.
  - intros [[x y z w] [a b c]]. reflexivity.
Qed.

(** The magnitude of a rounded value does not depend on its sign. *)
Lemma SFabs_binary_round (s1 s2 : bool) (m : positive) (e : Z) :
  SFabs (binary_round prec emax s1 m e) = SFabs (binary_round prec emax s2 m e).
Proof.
  unfold binary_round.
  destruct (shl_align m e (fexp prec emax (Z.pos (digits2_pos m) + e))) as [mz ez].
  unfold binary_round_aux.
  destruct (shr_fexp prec emax (Z.pos mz) ez loc_Exact) as [mrs e'].
  destruct (shr_fexp prec emax
              (round_nearest_even (shr_m mrs) (loc_of_shr_record mrs)) e' loc_Exact)
    as [mrs' e''].
  destruct (shr_m mrs'); try reflexivity.
  destruct (Z.leb e'' (emax - prec)); reflexivity.
Qed.

Lemma SFabs_binary_normalize_opp (m e : Z) :
  SFabs (binary_normalize prec emax (- m) e false)
  = SFabs (binary_normalize prec emax m e false).
Proof.
  destruct m; simpl; try reflexivity; apply SFabs_binary_round.
Qed.

(** [|y - x| = |x - y|] on [float]. *)
Lemma abs_sub_sym (x y : float32) : abs (sub x y) = abs (sub y x).
Proof.
  unfold abs, sub.
  destruct x as [sx | sx | | sx mx ex], y as [sy | sy | | sy my ey];
    try (destruct sx, sy; reflexivity); try reflexivity.
  unfold SFsub. rewrite (Z.min_comm ey ex).
  rewrite <- SFabs_binary_normalize_opp. f_equal. f_equal. lia.
Qed.

Lemma near_sym (a b : float32) : near a b = near b a.
Proof. unfold near. rewrite abs_sub_sym. reflexivity. Qed.

(** X11. [Pose::Equals] is symmetric. *)
Theorem Equals_symmetric (a b : XrPosef) : Equals a b = Equals b a.
Proof.
  unfold Equals.
  rewrite (near_sym (vec_x (position a))), (near_sym (vec_y (position a))),
    (near_sym (vec_z (position a))), (near_sym (quat_x (orientation a))),
    (near_sym (quat_y (orientation a))), (near_sym (quat_z (orientation a))),
    (near_sym (quat_w (orientation a))).
  reflexivity.
Qed.

Lemma shl_align_same (m : positive) (e : Z) : shl_align m e e = (m, e).
Proof. unfold shl_align. rewrite Z.sub_diag. reflexivity. Qed.

Lemma near_refl (x : float32) : near x x = isFinite x.
Proof.
  unfold near, lt, abs, sub.
  destruct x as [s | s | | s m e]; try (destruct s; reflexivity); try reflexivity.
  unfold SFsub. rewrite Z.min_id, shl_align_same. cbn [fst].
  rewrite Z.sub_diag. reflexivity.
Qed.

(** X12. A pose equals itself exactly when none of its seven components
    is a NaN or an infinity. *)
Theorem Equals_reflexive_iff_finite (p : XrPosef) :
  Equals p p = forallb isFinite (components p).
Proof.
  unfold Equals, components. rewrite !near_refl. simpl.
  rewrite andb_true_r, !andb_assoc. reflexivity.
Qed.

End PoseFacts.


(** ** The scope over a region that does nothing *)

Module GlScopeFacts.

Import Gl GlFacts.

(** X13. A scope over a valid target whose region records no error
    completes normally, whatever errors were pending on the target before:
    the constructor discards them.  Afterwards the calling thread has its
    previous context current again, the target has no pending error, and
    the pending errors of every other context are as they were. *)
Theorem scope_discards_stale_errors
    (A E : Type) (fuel : nat) (context : GlContext) (a : A) (t : GlThread) :
  valid context = true ->
  List.length (errorFlags t (glRC context)) < fuel ->
  exists t',
    scoped (E := E) fuel context (fun t1 => (Normal a, t1)) t = Some (Completed a, t')
    /\ currentDC t' = currentDC t /\ currentRC t' = currentRC t
    /\ errorFlags t' (glRC context) = []
    /\ (forall rc, rc <> glRC context -> errorFlags t' rc = errorFlags t rc).
Proof.
  intros Hv Hlen. unfold scoped, construct. rewrite Hv.
  destruct (resetErrorCodes_drains fuel
              (wglMakeCurrent (glDC context) (glRC context) t))
    as (t1 & Hr & Hdc & Hrc & Hclean & Hother); [exact Hlen | ].
  cbv zeta. rewrite Hr. simpl in Hdc, Hrc, Hclean, Hother.
  unfold destruct_. cbn [m_valid m_glDC m_glRC].
  unfold glGetError. rewrite Hrc, Hclean.
  eexists. split; [reflexivity | ].
  simpl. repeat split; auto.
Qed.

Lemma scope_discards_stale_errors_witness :
  exists t',
    scoped (E := unit) 3 runtimeContext (fun t1 => (Normal tt, t1))
      (setFlags 4%N [1282%positive; 1280%positive] hostThread)
    = Some (Completed tt, t')
    /\ errorFlags t' 4%N = [].
Proof.
  destruct (scope_discards_stale_errors unit unit 3 runtimeContext tt
              (setFlags 4%N [1282%positive; 1280%positive] hostThread) eq_refl)
    as (t' & H & _ & _ & Hc & _).
  - simpl. lia.
  - exists t'. auto.
Defined.

End GlScopeFacts.


(** ** What the device-change branch establishes *)

Module DerivationFacts.

Import Float32 Xr Runtime System TraceFacts GetSystemFacts TraceRead.

Section Derivation.

Context {W : Type}.
Variable pvr : PvrApi W.
Variable pf : Platform.

(** However the device-change branch ends, it keeps the session handle and
    the members that describe the instance, and leaves eye tracking
    consistent. *)
Lemma deviceChanged_keeps hmdInfo (s : St W) res (s' : St W) :
  deviceChanged pvr pf hmdInfo s = (res, s') ->
  m_pvrSession (rt s') = m_pvrSession (rt s)
  /\ m_systemCreated (rt s') = m_systemCreated (rt s)
  /\ sameInstance (rt s') (rt s)
  /\ (eyeTrackingConsistent (rt s) -> eyeTrackingConsistent (rt s')).
Proof.
  intros H. destruct s as [r w0 tr0].
  run_deviceChanged.
  all: inversion H; subst; clear H.
  all: unfold sameInstance, eyeTrackingConsistent;
    cbn [rt m_pvrSession m_systemCreated m_instanceCreated has_XR_EXT_hand_tracking
         has_XR_EXT_eye_gaze_interaction m_isEyeTrackingAvailable m_eyeTrackingType].
  all: repeat split; try reflexivity; try congruence; try discriminate; try tauto.
Qed.

(** What a completed device-change branch leaves in the cache, read
    against the calls it made. *)
Lemma deviceChanged_derives hmdInfo (s s' : St W) :
  deviceChanged pvr pf hmdInfo s = (Done tt, s') ->
  exists tr tr2 iL iR,
    trace s' = trace s ++ tr
    /\ afterLastFix tr = Some (bool_to_int (m_useParallelProjection (rt s')), tr2)
    /\ filter isEyeQuery tr2
       = [EvGetEyeRenderInfo (m_pvrSession (rt s)) pvrEye_Left pvr_success iL;
          EvGetEyeRenderInfo (m_pvrSession (rt s)) pvrEye_Right pvr_success iR]
    /\ m_cachedEyeInfo (rt s') = mkPerEye iL iR
    /\ m_cachedEyeFov (rt s') = mkPerEye (fovOfEye pf iL) (fovOfEye pf iR)
    /\ (m_isEyeTrackingAvailable (rt s') = true ->
        exists v, In (EvGetSetting "allow_eye_tracking" (Some v)) tr
                  /\ int_to_bool v = true)
    /\ (m_eyeTrackingType (rt s') = EyeTracking_PVR ->
        VendorId hmdInfo = 13476%Z /\ ProductId hmdInfo = 18%Z)
    /\ (m_eyeTrackingType (rt s') = EyeTracking_aSeeVR ->
        In (EvInitializeDroolon true) tr /\ NOASEEVRCLIENT pf = false)
    /\ (forall o, In (EvGetSetting "debug_eye_tracker" o) tr ->
        int_to_bool (value_or o 0) = true ->
        m_eyeTrackingType (rt s') = EyeTracking_Simulated).
Proof.
  intros H. destruct s as [r w0 tr0].
  run_deviceChanged.
  all: inversion H; subst; clear H;
    cbn [rt trace m_pvrSession m_cachedEyeInfo m_cachedEyeFov m_useParallelProjection
         m_isEyeTrackingAvailable m_eyeTrackingType].
  all: eexists; eexists; eexists; eexists.
  all: (split; [rewrite <- !app_assoc; simpl; reflexivity | ]).
  all: (split; [reflexivity | ]).
  all: (split; [reflexivity | ]).
  all: (split; [reflexivity | ]).
  all: (split; [reflexivity | ]).
  all: (split;
        [ intros Ha;
          first [ discriminate Ha
                | destruct (getSetting pvr "allow_eye_tracking" _) as [v | ] eqn:Ev;
                  [ exists v; split; [simpl; auto 10 | exact Ha] | discriminate Ha ] ]
        | ]).
  all: (split;
        [ intros Ht;
          first [ discriminate Ht
                | match goal with
                  | Hb : (_ && _)%bool = true |- _ =>
                      apply andb_true_iff in Hb as [Hv Hp];
                      apply Z.eqb_eq in Hv, Hp; auto
                  end ]
        | ]).
  all: (split;
        [ intros Ht;
          first [ discriminate Ht | split; [simpl; auto 20 | first [assumption | reflexivity]] ]
        | ]).
  all: intros o Hin Ho; simpl in Hin;
    repeat match type of Hin with
           | _ \/ _ => destruct Hin as [Hin | Hin]
           end;
    try discriminate Hin; try contradiction; try reflexivity.
  all: injection Hin as <-; cbv [bool_to_int] in *; congruence.
Qed.

End Derivation.

End DerivationFacts.

(** ** How the device-change branch can end *)

Module DerivationOutcomes.

Import Float32 Xr Runtime System TraceFacts GetSystemFacts TraceRead.

Section Outcomes.

Context {W : Type}.
Variable pvr : PvrApi W.
Variable pf : Platform.

(** A completed device-change branch leaves eye tracking consistent,
    whatever it was before. *)
Lemma deviceChanged_tracking hmdInfo (s s' : St W) :
  deviceChanged pvr pf hmdInfo s = (Done tt, s') ->
  eyeTrackingConsistent (rt s').
Proof.
  intros H. destruct s as [r w0 tr0].
  run_deviceChanged.
  all: inversion H; subst; clear H.
  all: unfold eyeTrackingConsistent;
    cbn [rt has_XR_EXT_eye_gaze_interaction m_isEyeTrackingAvailable m_eyeTrackingType].
  all: split; intros; try reflexivity; try congruence; try discriminate.
Qed.

(** The field of view is derived last but one: a device-change branch
    that is stopped by any failure other than that of
    [pvr_setTrackingOriginType] has not touched [m_cachedEyeFov]. *)
Lemma deviceChanged_thrown_fov hmdInfo (s : St W) e (s' : St W) :
  deviceChanged pvr pf hmdInfo s = (Thrown e, s') ->
  (forall c, e <> PvrFailure c "pvr_setTrackingOriginType") ->
  m_cachedEyeFov (rt s') = m_cachedEyeFov (rt s).
Proof.
  intros H Hne. destruct s as [r w0 tr0].
  run_deviceChanged.
  all: inversion H; subst; clear H; cbn [rt m_cachedEyeFov].
  all: first [ reflexivity | exfalso; eapply Hne; reflexivity ].
Qed.

End Outcomes.

End DerivationOutcomes.

(** ** The projection mode that the device-change branch caches *)

Module ProjectionDerivation.

Import Float32 Xr Runtime System TraceFacts GetSystemFacts TraceRead ProjectionTrace.

Section Projection.

Context {W : Type}.
Variable pvr : PvrApi W.
Variable pf : Platform.


End Projection.

End ProjectionDerivation.

(** ** What a call of [xrGetSystem] does to the runtime and to the session *)

Module SessionFacts.

Import Float32 Xr Runtime System TraceFacts GetSystemFacts TraceRead SessionProtocol
  DerivationFacts.

Lemma replaySession_app (h : pvrSessionHandle) (tr1 tr2 : list Event) :
  replaySession h (tr1 ++ tr2)
  = match replaySession h tr1 with
    | Some h' => replaySession h' tr2
    | None => None
    end.
Proof.
  revert h. induction tr1 as [| e tr1 IH]; intros h; [reflexivity | ].
  destruct e; simpl;
    repeat match goal with
           | |- context [if ?b then _ else _] => destruct b
           end; auto.
Qed.

Lemma replaySession_derivation (h : pvrSessionHandle) (tr : list Event) :
  h <> nullptr -> forallb (derivationEventOn h) tr = true ->
  replaySession h tr = Some h.
Proof.
  intros Hh. apply N.eqb_neq in Hh.
  induction tr as [| e tr IH]; intros Hall; [reflexivity | ].
  simpl in Hall. apply andb_true_iff in Hall as [He Hall].
  destruct e; simpl in He |- *; try discriminate He; auto.
  all: apply N.eqb_eq in He; subst; rewrite N.eqb_refl, Hh; simpl; auto.
Qed.

Section Session.

Context {W : Type}.
Variable pvr : PvrApi W.
Variable pf : Platform.

(** Whatever its outcome, the device-change branch only makes calls on the
    session that is held, and neither creates nor destroys a session, nor
    asks for status or identity. *)
Lemma deviceChanged_events hmdInfo (s : St W) res (s' : St W) :
  deviceChanged pvr pf hmdInfo s = (res, s') ->
  exists tr, trace s' = trace s ++ tr
             /\ forallb (derivationEventOn (m_pvrSession (rt s))) tr = true.
Proof.
  intros H. destruct s as [r w0 tr0].
  run_deviceChanged.
  all: inversion H; subst; clear H; cbn [rt trace m_pvrSession].
  all: eexists; (split; [rewrite <- ?app_assoc; simpl; reflexivity | ]).
  all: cbn [forallb derivationEventOn andb]; rewrite ?N.eqb_refl; reflexivity.
Qed.

(** X14. Every call that [xrGetSystem] makes to the service follows the
    session the runtime holds, however the call ends.  Provided the
    service never hands out the null handle with [pvr_success]: a session
    is created only while none is held; the held session is the only one
    that is destroyed, and after that none is held; every other call that
    takes a session is made on the held one, never on null and never on
    one that was destroyed; and [m_pvrSession] ends as the handle that
    these calls leave alive. *)
Theorem calls_use_live_session instance getInfo (r : OpenXrRuntime) (w0 : W)
    res (s' : St W) :
  runGetSystem pvr pf instance getInfo r w0 = (res, s') ->
  forallb createdHandleValid (trace s') = true ->
  replaySession (m_pvrSession r) (trace s') = Some (m_pvrSession (rt s')).
Proof.
  intros H.
  run_getSystem.
  all: inversion H; subst; clear H.
  all: repeat match goal with a : unit |- _ => destruct a end.
  all: try match goal with
           | Hd : deviceChanged _ _ _ _ = (_, _) |- _ =>
               destruct (deviceChanged_events _ _ _ _ Hd) as (tr & Htr & Hev);
               destruct (deviceChanged_keeps pvr pf _ _ _ _ Hd) as (Hsess & _)
           end.
  all: cbn [rt trace m_pvrSession set_m_pvrSession set_m_cachedHmdInfo
            set_m_systemCreated] in *.
  all: try rewrite Htr; try rewrite Hsess.
  all: intros Hv; simpl app in Hv |- *.
  all: repeat match goal with
              | Hn : negb _ = true |- _ => apply negb_true_iff in Hn
              | Hn : negb _ = false |- _ => apply negb_false_iff in Hn
              end.
  all: cbn [forallb createdHandleValid andb] in Hv.
  all: repeat match type of Hv with
              | context [pvrResult_eq_dec ?a ?b] =>
                  destruct (pvrResult_eq_dec a b); try congruence
              end.
  all: rewrite ?andb_true_iff in Hv.
  all: repeat match type of Hv with
              | _ /\ _ => let Hp := fresh "Hp" in destruct Hv as [Hp Hv]
              end.
  all: repeat match goal with
              | Hn : negb _ = true |- _ => apply negb_true_iff in Hn
              end.
  all: repeat (progress (cbn [replaySession andb negb];
                         rewrite ?N.eqb_refl;
                         try match goal with
                             | Hq : N.eqb ?a ?b = _ |- context [N.eqb ?a ?b] => rewrite Hq
                             | |- context [pvrResult_eq_dec ?a ?b] =>
                                 destruct (pvrResult_eq_dec a b); try congruence
                             end)).
  all: try reflexivity.
  all: try (apply replaySession_derivation; [apply N.eqb_neq; assumption | exact Hev]).
  all: match goal with
       | Hc : N.eqb nullptr nullptr = false |- _ => discriminate Hc
       end.
Qed.

(** What no call of [xrGetSystem] undoes, and when [m_systemCreated] is
    written. *)
Lemma getSystem_preserves instance getInfo (r : OpenXrRuntime) (w0 : W)
    res (s' : St W) :
  runGetSystem pvr pf instance getInfo r w0 = (res, s') ->
  sameInstance (rt s') r
  /\ (eyeTrackingConsistent r -> eyeTrackingConsistent (rt s'))
  /\ ((exists id, res = Done (XR_SUCCESS, id)) ->
      m_systemCreated (rt s') = true /\ m_instanceCreated r = true /\ instance = 1%N)
  /\ ((forall id, res <> Done (XR_SUCCESS, id)) ->
      m_systemCreated (rt s') = m_systemCreated r).
Proof.
  intros H.
  run_getSystem.
  all: inversion H; subst; clear H.
  all: repeat match goal with a : unit |- _ => destruct a end.
  all: try match goal with
           | Hd : deviceChanged _ _ _ _ = (_, _) |- _ =>
               destruct (deviceChanged_keeps pvr pf _ _ _ _ Hd)
                 as (_ & Hsys & Hinst & Het)
           end.
  all: unfold sameInstance, eyeTrackingConsistent in *.
  all: cbn [rt trace m_pvrSession set_m_pvrSession set_m_cachedHmdInfo
            set_m_systemCreated m_systemCreated m_instanceCreated
            has_XR_EXT_hand_tracking has_XR_EXT_eye_gaze_interaction
            m_isEyeTrackingAvailable m_eyeTrackingType] in *.
  all: (split; [ first [ assumption | repeat split; reflexivity ] | ]).
  all: (split; [ first [ assumption | tauto ] | ]).
  all: match goal with
       | Hb : negb (m_instanceCreated _) || negb (N.eqb _ 1) = false |- _ =>
           apply orb_false_iff in Hb as [Hb1 Hb2];
           apply negb_false_iff in Hb1, Hb2; apply N.eqb_eq in Hb2
       | _ => idtac
       end.
  all: (split;
        [ intros (id & Hid); first [ discriminate Hid | auto ]
        | intros Hne;
          first [ reflexivity | assumption | exfalso; eapply Hne; reflexivity ] ]).
Qed.

End Session.

End SessionFacts.

(** ** A runtime over successive calls *)

Module LifecycleFacts.

Import Float32 Xr Runtime System TraceFacts GetSystemFacts TraceRead SessionProtocol
  DerivationFacts SessionFacts.

Lemma sameInstance_trans (a b c : OpenXrRuntime) :
  sameInstance a b -> sameInstance b c -> sameInstance a c.
Proof.
  unfold sameInstance. intros (H1 & H2 & H3) (H4 & H5 & H6).
  repeat split; congruence.
Qed.

Lemma succeeded_dec (res : Result (XrResult * option XrSystemId)) :
  (exists id, res = Done (XR_SUCCESS, id)) \/ (forall id, res <> Done (XR_SUCCESS, id)).
Proof.
  destruct res as [[x id] | e]; [ | right; discriminate].
  destruct x; try (right; intros id' Hid; discriminate Hid).
  left. exists id. reflexivity.
Qed.

Section Lifecycle.

Context {W : Type}.
Variable pvr : PvrApi W.
Variable pf : Platform.

Lemma getSystem_keeps_system instance getInfo (r : OpenXrRuntime) (w0 : W) :
  m_systemCreated r = true ->
  m_systemCreated (rt (snd (runGetSystem pvr pf instance getInfo r w0))) = true.
Proof.
  intros Hs.
  destruct (runGetSystem pvr pf instance getInfo r w0) as [res s'] eqn:E.
  destruct (getSystem_preserves pvr pf _ _ _ _ _ _ E) as (_ & _ & Hok & Hno).
  destruct (succeeded_dec res) as [Hyes | Hnot]; simpl.
  - apply Hok. exact Hyes.
  - rewrite (Hno Hnot). exact Hs.
Qed.

(** X15. Over any number of calls of [xrGetSystem] on one runtime object,
    whatever the service answers and however each call ends (result code
    or exception): the members [m_instanceCreated],
    [has_XR_EXT_hand_tracking] and [has_XR_EXT_eye_gaze_interaction] keep
    their values; a system that exists is never taken back; and eye
    tracking stays consistent, that is, it is marked available only with
    a tracker selected, and a tracker is selected only with
    [XR_EXT_eye_gaze_interaction] enabled. *)
Theorem invariants_over_calls (calls : list (XrInstance * XrSystemGetInfo * W)) :
  forall r : OpenXrRuntime,
  eyeTrackingConsistent r ->
  Forall (fun out => sameInstance (rt (snd out)) r
                     /\ eyeTrackingConsistent (rt (snd out))
                     /\ (m_systemCreated r = true ->
                         m_systemCreated (rt (snd out)) = true))
    (runGetSystemCalls pvr pf r calls).
Proof.
  induction calls as [| [[instance getInfo] w0] rest IH]; intros r Hc.
  - constructor.
  - simpl.
    pose proof (getSystem_keeps_system instance getInfo r w0) as Hsys.
    destruct (runGetSystem pvr pf instance getInfo r w0) as [res s'] eqn:E.
    destruct (getSystem_preserves pvr pf _ _ _ _ _ _ E) as (Hi & He & _ & _).
    simpl in *. constructor.
    + simpl. auto.
    + specialize (IH (rt s') (He Hc)). revert IH. apply Forall_impl.
      intros out (H1 & H2 & H3). split; [ | split].
      * eapply sameInstance_trans; eassumption.
      * exact H2.
      * auto.
Qed.

(** X16. On a runtime on which no system exists yet, the identifier that
    [xrGetSystemProperties] accepts after a call of [xrGetSystem] is
    exactly the one that this call returned with [XR_SUCCESS]: if the call
    ended in any other way, [xrGetSystemProperties] succeeds for no
    identifier. *)
Theorem system_id_valid_exactly_after_success instance getInfo (r : OpenXrRuntime)
    (w0 : W) res (s' : St W) (properties : XrSystemProperties) (systemId : XrSystemId) :
  runGetSystem pvr pf instance getInfo r w0 = (res, s') ->
  m_systemCreated r = false ->
  sp_type properties = XR_TYPE_SYSTEM_PROPERTIES ->
  (fst (xrGetSystemProperties pf (rt s') instance systemId properties) = XR_SUCCESS
   <-> res = Done (XR_SUCCESS, Some systemId)).
Proof.
  intros E Hs Ht.
  destruct (getSystem_preserves pvr pf _ _ _ _ _ _ E) as ((Hi & _) & _ & Hok & Hno).
  unfold xrGetSystemProperties. rewrite Ht.
  destruct (succeeded_dec res) as [(id & ->) | Hnot].
  - destruct (Hok (ex_intro _ id eq_refl)) as (Hsys & Hinst & ->).
    rewrite (getSystem_success_id pvr pf _ _ _ _ _ _ E).
    rewrite Hi, Hinst, Hsys. simpl.
    destruct (N.eqb systemId 1) eqn:Eid; simpl.
    + apply N.eqb_eq in Eid. subst. split; reflexivity.
    + apply N.eqb_neq in Eid. split; [discriminate | ].
      intros Hid. injection Hid as Hid. congruence.
  - rewrite (Hno Hnot), Hs. split; [ | intros Hr; exfalso; exact (Hnot _ Hr)].
    destruct (negb (m_instanceCreated (rt s')) || negb (N.eqb instance 1));
      simpl; discriminate.
Qed.

End Lifecycle.

End LifecycleFacts.

(** ** From the identity query on *)

Module DeviceChangeFacts.

Import Float32 Xr Runtime System TraceFacts GetSystemFacts TraceRead SessionProtocol
  DerivationFacts DerivationOutcomes SessionFacts.

Lemma not_among (f : Event -> bool) (l : list Event) (x : Event) :
  existsb f l = false -> In x l -> f x = false.
Proof.
  intros He Hin. destruct (f x) eqn:E; [ | reflexivity].
  rewrite <- He. symmetry. apply existsb_exists. exists x. auto.
Qed.

Lemma no_identity_in_derivation (h : pvrSessionHandle) (tr : list Event)
    (h' : pvrSessionHandle) (c : pvrResult) (info : pvrHmdInfo) :
  forallb (derivationEventOn h) tr = true -> ~ In (EvGetHmdInfo h' c info) tr.
Proof.
  intros Hall Hin. rewrite forallb_forall in Hall. apply Hall in Hin. discriminate Hin.
Qed.

Lemma afterLastFix_app (pre tr : list Event) (x : Z * list Event) :
  afterLastFix tr = Some x -> afterLastFix (pre ++ tr) = Some x.
Proof.
  intros H. induction pre as [| e pre IH]; [exact H | ].
  simpl. rewrite IH. reflexivity.
Qed.

Section DeviceChange.

Context {W : Type}.
Variable pvr : PvrApi W.
Variable pf : Platform.

(** A call that got an identity from the service: either the serial
    number is the cached one, and the call ends there with the snapshot
    untouched, or it differs, and the rest of the call is the
    device-change branch. *)
Lemma getSystem_identity instance getInfo (r : OpenXrRuntime) (w0 : W)
    res (s' : St W) (h : pvrSessionHandle) (info : pvrHmdInfo) :
  runGetSystem pvr pf instance getInfo r w0 = (res, s') ->
  In (EvGetHmdInfo h pvr_success info) (trace s') ->
  exists pre,
    ((SerialNumber info = SerialNumber (m_cachedHmdInfo r)
      /\ res = Done (XR_SUCCESS, Some 1%N)
      /\ trace s' = pre ++ [EvGetHmdInfo h pvr_success info]
      /\ snapshot (rt s') = snapshot r)
     \/ (SerialNumber info <> SerialNumber (m_cachedHmdInfo r)
         /\ exists (s0 : St W) dres (s1 : St W),
              deviceChanged pvr pf info s0 = (dres, s1)
              /\ trace s0 = pre ++ [EvGetHmdInfo h pvr_success info]
              /\ m_pvrSession (rt s0) = h
              /\ snapshot (rt s0) = snapshot r
              /\ sameInstance (rt s0) r
              /\ trace s' = trace s1
              /\ ((dres = Done tt /\ res = Done (XR_SUCCESS, Some 1%N)
                   /\ rt s' = set_m_systemCreated true (rt s1))
                  \/ (exists e, dres = Thrown e /\ res = Thrown e /\ s' = s1))))
    /\ existsb isDerivationQuery pre = false.
Proof.
  intros H Hin.
  run_getSystem.
  all: inversion H; subst; clear H.
  all: repeat match goal with a : unit |- _ => destruct a end.
  all: try match goal with
           | Hd : deviceChanged _ _ _ _ = (_, _) |- _ =>
               destruct (deviceChanged_events pvr pf _ _ _ _ Hd) as (tr & Htr & Hev)
           end.
  all: cbn [rt trace] in *.
  all: try rewrite Htr in Hin.
  all: rewrite ?in_app_iff in Hin; simpl in Hin.
  all: repeat match type of Hin with
              | _ \/ _ => destruct Hin as [Hin | Hin]
              end;
    try contradiction; try discriminate Hin.
  all: try (exfalso; eapply no_identity_in_derivation; eassumption).
  all: inversion Hin; subst; try contradiction.
  all: clear Hin.
  all: cbn [m_pvrSession set_m_pvrSession m_cachedHmdInfo] in *.
  all: simpl app.
  all: match goal with
       | Hd : deviceChanged _ _ _ _ = (_, _) |- _ => eexists
       | |- exists pre, (_ /\ _ /\ ?L = _ /\ _ \/ _) /\ _ => exists (removelast L)
       end.
  all: (split; [ | ]).
  all: try match goal with
           | Hb : negb (String.eqb _ _) = true |- _ \/ _ =>
               apply serial_differs in Hb; right;
               split; [ intros Heq; apply Hb; symmetry; exact Heq | ];
               do 3 eexists;
               split; [ eassumption | ];
               cbn [rt trace m_pvrSession set_m_pvrSession];
               split; [ reflexivity | ];
               split; [ reflexivity | ];
               split; [ reflexivity | ];
               split; [ repeat split; reflexivity | ];
               split; [ reflexivity | ];
               first [ left; repeat split; reflexivity
                     | right; eexists; repeat split; reflexivity ]
           | Hb : negb (String.eqb _ _) = false |- _ \/ _ =>
               apply negb_false_iff in Hb; apply String.eqb_eq in Hb; left;
               split; [ symmetry; exact Hb | ];
               split; [ reflexivity | ];
               split; [ reflexivity | reflexivity ]
           end.
  all: reflexivity.
Qed.

(** What a successful call that found another serial number went
    through. *)
Lemma getSystem_derived instance getInfo (r : OpenXrRuntime) (w0 : W)
    id (s' : St W) (h : pvrSessionHandle) (info : pvrHmdInfo) :
  runGetSystem pvr pf instance getInfo r w0 = (Done (XR_SUCCESS, id), s') ->
  In (EvGetHmdInfo h pvr_success info) (trace s') ->
  SerialNumber info <> SerialNumber (m_cachedHmdInfo r) ->
  exists pre (s0 s1 : St W),
    deviceChanged pvr pf info s0 = (Done tt, s1)
    /\ trace s0 = pre ++ [EvGetHmdInfo h pvr_success info]
    /\ m_pvrSession (rt s0) = h
    /\ sameInstance (rt s0) r
    /\ trace s' = trace s1
    /\ rt s' = set_m_systemCreated true (rt s1)
    /\ existsb isDerivationQuery pre = false.
Proof.
  intros H Hin Hne.
  destruct (getSystem_identity _ _ _ _ _ _ _ _ H Hin) as (pre & [Hsame | Hdiff] & Hpre).
  - destruct Hsame as (Heq & _). contradiction.
  - destruct Hdiff as (_ & s0 & dres & s1 & Hd & Ht0 & Hs0 & _ & Hi & Ht & Hres).
    destruct Hres as [(-> & _ & Hrt) | (e & _ & Hr & _)]; [ | discriminate Hr].
    exists pre, s0, s1. auto 10.
Qed.

(** X17. A successful call of [xrGetSystem] on which the service
    reported a serial number other than the cached one leaves the
    geometry cache in step with the projection mode: the last value
    written to [view_rotation_fix] during the call is the cached
    [m_useParallelProjection]; after that write the geometry of each eye
    was queried exactly once, left then right, on the session the runtime
    holds; [m_cachedEyeInfo] is what these two queries returned,
    [m_cachedEyeFov] holds the angles computed from their tangents, and
    [m_cachedHmdInfo] is the reported identity. *)
Theorem cached_geometry_follows_projection instance getInfo (r : OpenXrRuntime)
    (w0 : W) id (s' : St W) (h : pvrSessionHandle) (info : pvrHmdInfo) :
  runGetSystem pvr pf instance getInfo r w0 = (Done (XR_SUCCESS, id), s') ->
  In (EvGetHmdInfo h pvr_success info) (trace s') ->
  SerialNumber info <> SerialNumber (m_cachedHmdInfo r) ->
  exists tr2 iL iR,
    afterLastFix (trace s')
    = Some (bool_to_int (m_useParallelProjection (rt s')), tr2)
    /\ filter isEyeQuery tr2
       = [EvGetEyeRenderInfo h pvrEye_Left pvr_success iL;
          EvGetEyeRenderInfo h pvrEye_Right pvr_success iR]
    /\ m_cachedEyeInfo (rt s') = mkPerEye iL iR
    /\ m_cachedEyeFov (rt s') = mkPerEye (fovOfEye pf iL) (fovOfEye pf iR)
    /\ m_cachedHmdInfo (rt s') = info
    /\ m_pvrSession (rt s') = h.
Proof.
  intros H Hin Hne.
  destruct (getSystem_derived _ _ _ _ _ _ _ _ H Hin Hne)
    as (pre & s0 & s1 & Hd & Ht0 & Hs0 & _ & Ht & Hrt & _).
  destruct (deviceChanged_derives pvr pf _ _ _ Hd)
    as (tr & tr2 & iL & iR & Htr & Hfix & Hq & Heye & Hfov & _).
  pose proof (deviceChanged_caches_identity pvr pf _ _ _ _ Hd) as Hid.
  destruct (deviceChanged_keeps pvr pf _ _ _ _ Hd) as (Hsess & _).
  exists tr2, iL, iR. rewrite Hrt, Ht, Htr.
  cbn [m_useParallelProjection m_cachedEyeInfo m_cachedEyeFov m_cachedHmdInfo
       m_pvrSession set_m_systemCreated].
  rewrite <- Hs0.
  split; [apply afterLastFix_app; exact Hfix | ].
  split; [exact Hq | ].
  split; [exact Heye | ].
  split; [exact Hfov | ].
  split; [exact Hid | exact Hsess].
Qed.

(** X18. How the eye tracker comes out of a successful call of
    [xrGetSystem] on which the service reported a serial number other
    than the cached one.  Eye tracking is marked available only with a
    tracker selected and with the setting [allow_eye_tracking] read as
    true during the call; a tracker is selected only with
    [XR_EXT_eye_gaze_interaction] enabled; the PVR tracker only for
    vendor 0x34A4, product 0x0012; the aSeeVR tracker only in a build
    with the aSeeVR client, after [initializeDroolon] succeeded; and
    whenever the setting [debug_eye_tracker] was read as true, the
    simulated tracker is the one selected, whatever the headset. *)
Theorem eye_tracker_selection instance getInfo (r : OpenXrRuntime)
    (w0 : W) id (s' : St W) (h : pvrSessionHandle) (info : pvrHmdInfo) :
  runGetSystem pvr pf instance getInfo r w0 = (Done (XR_SUCCESS, id), s') ->
  In (EvGetHmdInfo h pvr_success info) (trace s') ->
  SerialNumber info <> SerialNumber (m_cachedHmdInfo r) ->
  (m_isEyeTrackingAvailable (rt s') = true ->
   m_eyeTrackingType (rt s') <> EyeTracking_None
   /\ exists v, In (EvGetSetting "allow_eye_tracking" (Some v)) (trace s')
                /\ int_to_bool v = true)
  /\ (m_eyeTrackingType (rt s') <> EyeTracking_None ->
      has_XR_EXT_eye_gaze_interaction r = true)
  /\ (m_eyeTrackingType (rt s') = EyeTracking_PVR ->
      VendorId info = 13476%Z /\ ProductId info = 18%Z)
  /\ (m_eyeTrackingType (rt s') = EyeTracking_aSeeVR ->
      In (EvInitializeDroolon true) (trace s') /\ NOASEEVRCLIENT pf = false)
  /\ (forall o, In (EvGetSetting "debug_eye_tracker" o) (trace s') ->
      int_to_bool (value_or o 0) = true ->
      m_eyeTrackingType (rt s') = EyeTracking_Simulated).
Proof.
  intros H Hin Hne.
  destruct (getSystem_derived _ _ _ _ _ _ _ _ H Hin Hne)
    as (pre & s0 & s1 & Hd & Ht0 & Hs0 & (_ & _ & Hext) & Ht & Hrt & Hpre).
  destruct (deviceChanged_derives pvr pf _ _ _ Hd)
    as (tr & tr2 & iL & iR & Htr & _ & _ & _ & _ & Hav & Hpvr & Hasee & Hdbg).
  destruct (deviceChanged_tracking pvr pf _ _ _ Hd) as (Hc1 & Hc2).
  destruct (deviceChanged_keeps pvr pf _ _ _ _ Hd) as (_ & _ & (_ & _ & Hext') & _).
  rewrite Hrt, Ht, Htr.
  cbn [m_isEyeTrackingAvailable m_eyeTrackingType set_m_systemCreated].
  split; [ | split; [ | split; [ | split ] ] ].
  - intros Ha. split; [auto | ].
    destruct (Hav Ha) as (v & Hv & Hb). exists v. split; [ | exact Hb].
    apply in_or_app. right. exact Hv.
  - intros Hty. rewrite <- Hext, <- Hext'. auto.
  - exact Hpvr.
  - intros Hty. destruct (Hasee Hty) as (Hd1 & Hd2). split; [ | exact Hd2].
    apply in_or_app. right. exact Hd1.
  - intros o Ho Hb. apply in_app_or in Ho as [Ho | Ho]; [ | eauto].
    rewrite Ht0 in Ho. apply in_app_or in Ho as [Ho | Ho].
    + apply (not_among _ _ _ Hpre) in Ho. discriminate Ho.
    + destruct Ho as [Ho | []]. discriminate Ho.
Qed.

(** X19. A call of [xrGetSystem] that is stopped by a failure in the
    device-change branch has already cached the identity that the service
    reported.  When a later call succeeds on a service that reports the
    same serial number, that call does not run the device-change branch
    again: it makes none of its queries and leaves the snapshot as the
    failed call left it.  Unless the failure was that of
    [pvr_setTrackingOriginType], the field of view in that snapshot is
    still the one cached before the device was seen. *)
Theorem failed_derivation_not_retried instance getInfo (r : OpenXrRuntime) (w0 : W)
    e (s1 : St W) (h : pvrSessionHandle) (info : pvrHmdInfo)
    instance' getInfo' (w1 : W) id (s2 : St W) :
  runGetSystem pvr pf instance getInfo r w0 = (Thrown e, s1) ->
  In (EvGetHmdInfo h pvr_success info) (trace s1) ->
  runGetSystem pvr pf instance' getInfo' (rt s1) w1 = (Done (XR_SUCCESS, id), s2) ->
  Forall (fun sn => sn = SerialNumber info) (reportedSerials (trace s2)) ->
  SerialNumber info <> SerialNumber (m_cachedHmdInfo r)
  /\ m_cachedHmdInfo (rt s1) = info
  /\ snapshot (rt s2) = snapshot (rt s1)
  /\ existsb isDerivationQuery (trace s2) = false
  /\ ((forall c, e <> PvrFailure c "pvr_setTrackingOriginType") ->
      m_cachedEyeFov (rt s2) = m_cachedEyeFov r).
Proof.
  intros H1 Hin H2 Hser.
  destruct (getSystem_identity _ _ _ _ _ _ _ _ H1 Hin) as (pre & [Hsame | Hdiff] & _).
  - destruct Hsame as (_ & Hr & _). discriminate Hr.
  - destruct Hdiff as (Hne & s0 & dres & s1' & Hd & _ & _ & Hsnap & _ & _ & Hres).
    destruct Hres as [(_ & Hr & _) | (e' & -> & He & <-)]; [discriminate Hr | ].
    injection He as <-.
    pose proof (deviceChanged_caches_identity pvr pf _ _ _ _ Hd) as Hid.
    rewrite <- Hid in Hser.
    destruct (getSystem_cached_call pvr pf _ _ _ _ _ _ H2 Hser) as (_ & Hkeep & Hq & _).
    split; [exact Hne | ]. split; [exact Hid | ]. split; [exact Hkeep | ].
    split; [exact Hq | ].
    intros Hnot.
    apply (f_equal snap_eyeFov) in Hkeep. apply (f_equal snap_eyeFov) in Hsnap.
    simpl in Hkeep, Hsnap. rewrite Hkeep, <- Hsnap.
    apply (deviceChanged_thrown_fov pvr pf _ _ _ _ Hd Hnot).
Qed.

End DeviceChange.

End DeviceChangeFacts.

(** ** The projection mode that [xrGetSystem] caches *)

Module ProjectionFacts.

Import Float32 Xr Runtime System TraceFacts GetSystemFacts TraceRead SessionProtocol
  ProjectionTrace ProjectionDerivation DeviceChangeFacts.




Section Projection.

Context {W : Type}.
Variable pvr : PvrApi W.
Variable pf : Platform.




End Projection.

Import Scripted.



End ProjectionFacts.

(** ** [xrGetSystemProperties] after [xrGetSystem] *)

Module PropertiesFacts.

Import Float32 Xr Runtime System TraceFacts GetSystemFacts TraceRead SessionProtocol
  DerivationFacts DerivationOutcomes SessionFacts DeviceChangeFacts.

Lemma map_type_setSupports (i : nat) (v : bool) (chain : list XrChainStruct) :
  map cs_type (setSupports i v chain) = map cs_type chain.
Proof.
  revert i. induction chain as [| e rest IH]; intros i; [destruct i; reflexivity | ].
  destruct i; simpl; [reflexivity | ]. rewrite IH. reflexivity.
Qed.

Lemma nth_error_setSupports_same (i : nat) (v : bool) (chain : list XrChainStruct)
    (e : XrChainStruct) :
  nth_error chain i = Some e ->
  nth_error (setSupports i v chain) i = Some (mkXrChainStruct (cs_type e) v).
Proof.
  revert i. induction chain as [| x rest IH]; intros i H.
  - destruct i; discriminate H.
  - destruct i; simpl in *; [injection H as ->; reflexivity | auto].
Qed.

Lemma nth_error_setSupports_other (i j : nat) (v : bool) (chain : list XrChainStruct) :
  i <> j -> nth_error (setSupports i v chain) j = nth_error chain j.
Proof.
  revert i j. induction chain as [| x rest IH]; intros i j Hne.
  - destruct i, j; reflexivity.
  - destruct i, j; simpl; try reflexivity; [contradiction | ].
    apply IH. congruence.
Qed.

Lemma findInChain_found (wanted : XrStructureType -> bool) (chain : list XrChainStruct)
    (i : nat) :
  findInChain wanted chain = Some i ->
  exists e, nth_error chain i = Some e /\ wanted (cs_type e) = true.
Proof.
  revert i. induction chain as [| x rest IH]; intros i H; [discriminate H | ].
  simpl in H. destruct (wanted (cs_type x)) eqn:E.
  - injection H as <-. exists x. auto.
  - destruct (findInChain wanted rest) as [k | ]; [ | discriminate H].
    injection H as <-. simpl. apply IH. reflexivity.
Qed.

Lemma hand_and_eye_differ (chain : list XrChainStruct) (i j : nat) :
  findInChain isHandTrackingProperties chain = Some i ->
  findInChain isEyeGazeInteractionProperties chain = Some j ->
  i <> j.
Proof.
  intros Hi Hj ->.
  destruct (findInChain_found _ _ _ Hi) as (e & He & Hte).
  destruct (findInChain_found _ _ _ Hj) as (e' & He' & Hte').
  rewrite He in He'. injection He' as <-.
  destruct (cs_type e); discriminate.
Qed.

(** X20. What a successful [xrGetSystemProperties] does to the chain
    behind [next].  The entries and their types stay as they are.  At
    most two flags are written: that of the first entry of type
    [XR_TYPE_SYSTEM_HAND_TRACKING_PROPERTIES_EXT], set to true when
    [XR_EXT_hand_tracking] is enabled, and that of the first entry of type
    [XR_TYPE_SYSTEM_EYE_GAZE_INTERACTION_PROPERTIES_EXT], set to
    [m_isEyeTrackingAvailable] when [XR_EXT_eye_gaze_interaction] is
    enabled.  With the extension disabled the flag is not cleared: it
    keeps the value the caller passed in.  Every other entry, later
    entries of the same types included, is left untouched. *)
Theorem properties_chain (pf : Platform) (r : OpenXrRuntime) (instance : XrInstance)
    (systemId : XrSystemId) (properties out : XrSystemProperties) :
  xrGetSystemProperties pf r instance systemId properties = (XR_SUCCESS, out) ->
  map cs_type (sp_next out) = map cs_type (sp_next properties)
  /\ (forall i e,
        nth_error (sp_next properties) i = Some e ->
        findInChain isHandTrackingProperties (sp_next properties) <> Some i ->
        findInChain isEyeGazeInteractionProperties (sp_next properties) <> Some i ->
        nth_error (sp_next out) i = Some e)
  /\ (forall i e,
        findInChain isHandTrackingProperties (sp_next properties) = Some i ->
        nth_error (sp_next properties) i = Some e ->
        nth_error (sp_next out) i
        = Some (mkXrChainStruct (cs_type e)
                  (if has_XR_EXT_hand_tracking r then true else cs_supports e)))
  /\ (forall i e,
        findInChain isEyeGazeInteractionProperties (sp_next properties) = Some i ->
        nth_error (sp_next properties) i = Some e ->
        nth_error (sp_next out) i
        = Some (mkXrChainStruct (cs_type e)
                  (if has_XR_EXT_eye_gaze_interaction r
                   then m_isEyeTrackingAvailable r else cs_supports e))).
Proof.
  unfold xrGetSystemProperties. intros H.
  destruct (sp_type properties); try discriminate H.
  destruct (negb (m_instanceCreated r) || negb (N.eqb instance 1)); [discriminate H | ].
  destruct (negb (m_systemCreated r) || negb (N.eqb systemId 1)); [discriminate H | ].
  injection H as <-. cbn [sp_next].
  destruct (findInChain isHandTrackingProperties (sp_next properties)) as [ih | ] eqn:Eh;
    destruct (findInChain isEyeGazeInteractionProperties (sp_next properties))
      as [ie | ] eqn:Ee;
    destruct (has_XR_EXT_hand_tracking r); destruct (has_XR_EXT_eye_gaze_interaction r).
  all: try pose proof (hand_and_eye_differ _ _ _ Eh Ee) as Hdiff.
  all: rewrite ?map_type_setSupports.
  all: (split; [reflexivity | ]).
  all: (split;
        [ intros i e Hn Hh He;
          rewrite ?nth_error_setSupports_other by congruence; exact Hn
        | ]).
  all: split; intros i e Hf Hn; try discriminate Hf; injection Hf as <-.
  all: try (destruct e; exact Hn).
  all: try (rewrite ?nth_error_setSupports_other by congruence;
            first [ apply nth_error_setSupports_same; exact Hn
                  | destruct e; exact Hn ]).
  all: try (erewrite nth_error_setSupports_same;
            [ reflexivity
            | rewrite ?nth_error_setSupports_other by congruence; exact Hn ]).
Qed.

Lemma properties_of_created (pf : Platform) (r : OpenXrRuntime)
    (properties : XrSystemProperties) :
  sp_type properties = XR_TYPE_SYSTEM_PROPERTIES ->
  m_instanceCreated r = true -> m_systemCreated r = true ->
  let out := xrGetSystemProperties pf r 1%N 1%N properties in
  fst out = XR_SUCCESS
  /\ sp_systemId (snd out) = 1%N
  /\ sp_vendorId (snd out) = VendorId (m_cachedHmdInfo r)
  /\ sp_systemName (snd out) = ProductName (m_cachedHmdInfo r).
Proof.
  intros Ht Hi Hs. unfold xrGetSystemProperties. rewrite Ht, Hi, Hs. simpl.
  repeat split; reflexivity.
Qed.

Section AfterGetSystem.

Context {W : Type}.
Variable pvr : PvrApi W.
Variable pf : Platform.

(** A call that succeeds was told the identity of the headset. *)
Lemma getSystem_success_identity instance getInfo (r : OpenXrRuntime) (w0 : W)
    id (s' : St W) :
  runGetSystem pvr pf instance getInfo r w0 = (Done (XR_SUCCESS, id), s') ->
  exists h info, In (EvGetHmdInfo h pvr_success info) (trace s').
Proof.
  intros H.
  run_getSystem; try discriminate.
  all: inversion H; subst; clear H.
  all: try match goal with
           | Hd : deviceChanged _ _ _ _ = (_, _) |- _ =>
               destruct (deviceChanged_events pvr pf _ _ _ _ Hd) as (tr & Htr & _)
           end.
  all: cbn [rt trace] in *.
  all: try rewrite Htr.
  all: do 2 eexists.
  all: rewrite ?in_app_iff; simpl; auto 20.
Qed.

(** X21. After a successful [xrGetSystem], [xrGetSystemProperties]
    succeeds for the identifier 1 and describes the cached headset, whose
    serial number is the one the service just reported.  When that serial
    number differs from the one cached before the call, vendor and name
    are those the service reported; when it is the same, they are the
    ones that were cached, whatever else the service reported with this
    serial number. *)
Theorem properties_after_success instance getInfo (r : OpenXrRuntime) (w0 : W)
    id (s' : St W) (properties : XrSystemProperties) :
  runGetSystem pvr pf instance getInfo r w0 = (Done (XR_SUCCESS, id), s') ->
  sp_type properties = XR_TYPE_SYSTEM_PROPERTIES ->
  let out := xrGetSystemProperties pf (rt s') instance 1%N properties in
  exists h info,
    In (EvGetHmdInfo h pvr_success info) (trace s')
    /\ fst out = XR_SUCCESS
    /\ sp_systemId (snd out) = 1%N
    /\ SerialNumber (m_cachedHmdInfo (rt s')) = SerialNumber info
    /\ (SerialNumber info <> SerialNumber (m_cachedHmdInfo r) ->
        sp_vendorId (snd out) = VendorId info
        /\ sp_systemName (snd out) = ProductName info)
    /\ (SerialNumber info = SerialNumber (m_cachedHmdInfo r) ->
        sp_vendorId (snd out) = VendorId (m_cachedHmdInfo r)
        /\ sp_systemName (snd out) = ProductName (m_cachedHmdInfo r)).
Proof.
  intros H Ht out.
  destruct (getSystem_success_identity _ _ _ _ _ _ H) as (h & info & Hin).
  destruct (getSystem_preserves pvr pf _ _ _ _ _ _ H) as ((Hi & _) & _ & Hok & _).
  destruct (Hok (ex_intro _ id eq_refl)) as (Hsys & Hinst & ->).
  rewrite <- Hi in Hinst.
  destruct (properties_of_created pf (rt s') properties Ht Hinst Hsys)
    as (H1 & H2 & H3 & H4).
  fold out in H1, H2, H3, H4.
  assert (Hcached :
    (SerialNumber info = SerialNumber (m_cachedHmdInfo r)
     /\ m_cachedHmdInfo (rt s') = m_cachedHmdInfo r)
    \/ (SerialNumber info <> SerialNumber (m_cachedHmdInfo r)
        /\ m_cachedHmdInfo (rt s') = info)).
  { destruct (getSystem_identity pvr pf _ _ _ _ _ _ _ _ H Hin)
      as (pre & [Hsame | Hdiff] & _).
    - destruct Hsame as (Heq & _ & _ & Hsnap). left. split; [exact Heq | ].
      apply (f_equal snap_hmdInfo) in Hsnap. exact Hsnap.
    - destruct Hdiff as (Hne & s0 & dres & s1 & Hd & _ & _ & _ & _ & _ & Hres).
      right. split; [exact Hne | ].
      destruct Hres as [(_ & _ & ->) | (e & _ & Hr & _)]; [ | discriminate Hr].
      exact (deviceChanged_caches_identity pvr pf _ _ _ _ Hd). }
  exists h, info. split; [exact Hin | ]. split; [exact H1 | ]. split; [exact H2 | ].
  rewrite H3, H4.
  destruct Hcached as [(Heq & Hc) | (Hne & Hc)]; rewrite Hc.
  - split; [symmetry; exact Heq | ]. split; [intros Hx; contradiction | auto].
  - split; [reflexivity | ]. split; [auto | intros Hx; contradiction].
Qed.

(** What an unavailable answer leaves of the runtime. *)
Lemma getSystem_unavailable_state instance getInfo (r : OpenXrRuntime) (w0 : W)
    id (s' : St W) :
  runGetSystem pvr pf instance getInfo r w0
  = (Done (XR_ERROR_FORM_FACTOR_UNAVAILABLE, id), s') ->
  m_instanceCreated (rt s') = true /\ instance = 1%N
  /\ m_systemCreated (rt s') = m_systemCreated r
  /\ m_cachedHmdInfo (rt s') = pvrHmdInfo_zero
  /\ m_isEyeTrackingAvailable (rt s') = m_isEyeTrackingAvailable r
  /\ m_eyeTrackingType (rt s') = m_eyeTrackingType r.
Proof.
  intros H.
  run_getSystem; try discriminate.
  all: inversion H; subst; clear H.
  all: match goal with
       | Hb : negb (m_instanceCreated _) || negb (N.eqb _ 1) = false |- _ =>
           apply orb_false_iff in Hb as [Hb1 Hb2];
           apply negb_false_iff in Hb1, Hb2; apply N.eqb_eq in Hb2; subst
       end.
  all: cbn [rt m_instanceCreated m_systemCreated m_cachedHmdInfo set_m_cachedHmdInfo
            set_m_pvrSession m_isEyeTrackingAvailable m_eyeTrackingType].
  all: repeat split; solve [ reflexivity | assumption ].
Qed.

(** X22. Once a system exists, a later [xrGetSystem] that answers
    [XR_ERROR_FORM_FACTOR_UNAVAILABLE] does not invalidate it:
    [xrGetSystemProperties] still succeeds for the identifier 1, but now
    reports vendor 0 and an empty system name, while the eye-tracking
    state it reports from is the one derived for the headset seen
    before. *)
Theorem properties_after_unavailable instance getInfo (r : OpenXrRuntime) (w0 : W)
    id (s' : St W) (properties : XrSystemProperties) :
  runGetSystem pvr pf instance getInfo r w0
  = (Done (XR_ERROR_FORM_FACTOR_UNAVAILABLE, id), s') ->
  m_systemCreated r = true ->
  sp_type properties = XR_TYPE_SYSTEM_PROPERTIES ->
  let out := xrGetSystemProperties pf (rt s') instance 1%N properties in
  fst out = XR_SUCCESS
  /\ sp_vendorId (snd out) = 0%Z
  /\ sp_systemName (snd out) = EmptyString
  /\ m_isEyeTrackingAvailable (rt s') = m_isEyeTrackingAvailable r
  /\ m_eyeTrackingType (rt s') = m_eyeTrackingType r.
Proof.
  intros H Hs Ht out.
  destruct (getSystem_unavailable_state _ _ _ _ _ _ H)
    as (Hi & -> & Hsys & Hid & Hav & Hty).
  rewrite Hs in Hsys.
  destruct (properties_of_created pf (rt s') properties Ht Hi Hsys)
    as (H1 & _ & H3 & H4).
  fold out in H1, H3, H4. rewrite Hid in H3, H4.
  auto.
Qed.

End AfterGetSystem.

End PropertiesFacts.

(** ** [ParseExtensionString] *)

Module ExtensionsFacts.

Import Extensions.

Lemma deref_at (pre : list ascii) (c : ascii) (suf : list ascii) :
  deref (pre ++ c :: suf) (List.length pre) = c.
Proof.
  unfold deref. rewrite app_nth2 by lia. rewrite Nat.sub_diag. reflexivity.
Qed.

Lemma poke_at (pre : list ascii) (c x : ascii) (suf : list ascii) :
  poke (pre ++ c :: suf) (List.length pre) x = pre ++ x :: suf.
Proof.
  induction pre as [| a pre IH]; [reflexivity | ]. simpl. rewrite IH. reflexivity.
Qed.

Lemma deref_next (pre : list ascii) (c d : ascii) (suf : list ascii) :
  deref (pre ++ c :: d :: suf) (S (List.length pre)) = d.
Proof.
  unfold deref. rewrite app_nth2 by lia.
  replace (S (List.length pre) - List.length pre)%nat with 1%nat by lia. reflexivity.
Qed.

Lemma poke_next (pre : list ascii) (c d x : ascii) (suf : list ascii) :
  poke (pre ++ c :: d :: suf) (S (List.length pre)) x = pre ++ c :: x :: suf.
Proof.
  induction pre as [| a pre IH]; [reflexivity | ].
  simpl. simpl in IH. rewrite IH. reflexivity.
Qed.

Lemma isNameChar_spec (c : ascii) :
  isNameChar c = true -> Ascii.eqb c NUL = false /\ Ascii.eqb c SPACE = false.
Proof.
  unfold isNameChar. intros H. apply andb_true_iff in H as [H1 H2].
  apply negb_true_iff in H1, H2. auto.
Qed.

(** The inner loop over the rest [t] of a name: it stops on the NUL that
    ends the buffer, or puts a NUL in place of the space and goes one
    further. *)
Lemma skipToSeparator_name (t : list ascii) :
  forall (fuel : nat) (pre : list ascii) (c : ascii) (rest : list ascii),
  forallb isNameChar t = true -> (List.length t < fuel)%nat ->
  skipToSeparator fuel (pre ++ c :: t ++ NUL :: rest) (List.length pre)
  = Some (pre ++ c :: t ++ NUL :: rest, S (List.length pre + List.length t))
  /\ skipToSeparator fuel (pre ++ c :: t ++ SPACE :: rest) (List.length pre)
     = Some (pre ++ c :: t ++ NUL :: rest, S (S (List.length pre + List.length t))).
Proof.
  induction t as [| d t IH]; intros fuel pre c rest Ht Hf.
  - destruct fuel as [| fuel]; [lia | ].
    cbn [skipToSeparator app List.length].
    rewrite !deref_next, !poke_next, Nat.add_0_r. split; reflexivity.
  - destruct fuel as [| fuel]; [simpl in Hf; lia | ].
    cbn [forallb] in Ht. apply andb_true_iff in Ht as [Hd Ht].
    apply isNameChar_spec in Hd as [Hd1 Hd2].
    cbn [skipToSeparator app List.length] in Hf |- *.
    rewrite !deref_next, Hd1, Hd2.
    destruct (IH fuel (pre ++ [c]) d rest Ht ltac:(lia)) as [I1 I2].
    rewrite <- !app_assoc in I1, I2. cbn [app] in I1, I2.
    rewrite length_app in I1, I2. cbn [List.length] in I1, I2.
    replace (S (List.length pre)) with (List.length pre + 1)%nat by lia.
    rewrite I1, I2. rewrite <- ?app_assoc. cbn [app].
    split; do 2 f_equal; lia.
Qed.

Lemma cstring_name (w : list ascii) (rest : list ascii) :
  forallb isNameChar w = true -> cstring (w ++ NUL :: rest) = w.
Proof.
  induction w as [| c w IH]; intros H; [reflexivity | ].
  simpl in H. apply andb_true_iff in H as [Hc Hw].
  apply isNameChar_spec in Hc as [Hc _]. simpl. rewrite Hc, (IH Hw). reflexivity.
Qed.

Lemma readAt_at (pre w rest : list ascii) :
  forallb isNameChar w = true ->
  readAt (pre ++ w ++ NUL :: rest) (List.length pre) = w.
Proof.
  intros H. unfold readAt. rewrite skipn_app, Nat.sub_diag, skipn_all. simpl.
  apply cstring_name. exact H.
Qed.

Lemma isName_isToken (w : list ascii) : isName w = true -> isToken w = true.
Proof.
  unfold isName. destruct w as [| c t]; [discriminate | ].
  simpl. intros H. apply andb_true_iff in H as [Hc Ht].
  apply isNameChar_spec in Hc as [Hc _]. rewrite Hc, Ht. reflexivity.
Qed.

(** The outer loop over tokens that stand one space apart: it pushes the
    offset of each and turns the spaces between them into NULs. *)
Lemma parseFrom_tokens (words : list (list ascii)) :
  forall (fuel : nat) (pre : list ascii) (pushed : list nat),
  forallb isToken words = true -> (List.length words < fuel)%nat ->
  parseFrom fuel (pre ++ joinWith SPACE words ++ [NUL]) (List.length pre) pushed
  = Some (pushed ++ offsets (List.length pre) words,
          pre ++ joinWith NUL words ++ [NUL]).
Proof.
  induction words as [| w ws IH]; intros fuel pre pushed Hall Hf.
  - destruct fuel as [| fuel]; [simpl in Hf; lia | ].
    cbn [parseFrom joinWith app offsets]. rewrite deref_at, app_nil_r. reflexivity.
  - cbn [forallb] in Hall. apply andb_true_iff in Hall as [Hw Hall].
    destruct w as [| c t]; [discriminate Hw | ].
    cbn [isToken] in Hw. apply andb_true_iff in Hw as [Hc Ht].
    apply negb_true_iff in Hc.
    destruct fuel as [| fuel]; [simpl in Hf; lia | ].
    cbn [List.length] in Hf.
    destruct ws as [| w2 ws'].
    + cbn [parseFrom joinWith app offsets].
      rewrite deref_at, Hc.
      destruct (skipToSeparator_name t (List.length (pre ++ c :: t ++ [NUL])) pre c []
                  Ht) as [S1 _].
      { rewrite length_app. cbn [List.length]. rewrite length_app. simpl. lia. }
      rewrite S1.
      destruct fuel as [| fuel]; [simpl in Hf; lia | ].
      cbn [parseFrom].
      replace (pre ++ c :: t ++ [NUL]) with ((pre ++ c :: t) ++ NUL :: [])
        by (rewrite <- app_assoc; reflexivity).
      replace (S (List.length pre + List.length t)) with (List.length (pre ++ c :: t))
        by (rewrite length_app; simpl; lia).
      rewrite deref_at. reflexivity.
    + change (joinWith SPACE ((c :: t) :: w2 :: ws'))
        with ((c :: t) ++ SPACE :: joinWith SPACE (w2 :: ws')).
      change (joinWith NUL ((c :: t) :: w2 :: ws'))
        with ((c :: t) ++ NUL :: joinWith NUL (w2 :: ws')).
      cbn [parseFrom].
      rewrite <- !app_assoc. cbn [app].
      rewrite deref_at, Hc.
      destruct (skipToSeparator_name t
                  (List.length (pre ++ c :: t ++ SPACE :: joinWith SPACE (w2 :: ws') ++ [NUL]))
                  pre c (joinWith SPACE (w2 :: ws') ++ [NUL]) Ht) as [_ S2].
      { rewrite length_app. cbn [List.length]. rewrite length_app. simpl. lia. }
      rewrite S2.
      specialize (IH fuel (pre ++ c :: t ++ [NUL]) (pushed ++ [List.length pre]) Hall
                    ltac:(simpl in Hf |- *; lia)).
      replace (List.length (pre ++ c :: t ++ [NUL]))
        with (S (S (List.length pre + List.length t))) in IH
        by (rewrite length_app; cbn [List.length]; rewrite length_app; simpl; lia).
      rewrite <- ?app_assoc in IH. cbn [app] in IH.
      rewrite <- ?app_assoc in IH. cbn [app] in IH.
      rewrite IH. cbn [offsets List.length].
      rewrite <- ?app_assoc. cbn [app].
      replace (List.length pre + S (S (List.length t)))%nat
        with (S (S (List.length pre + List.length t))) by lia.
      reflexivity.
Qed.

Lemma cstring_token (w rest : list ascii) :
  isToken w = true -> cstring (w ++ NUL :: rest) = w.
Proof.
  destruct w as [| c t]; [discriminate | ].
  cbn [isToken]. intros H. apply andb_true_iff in H as [Hc Ht].
  apply negb_true_iff in Hc. simpl. rewrite Hc, (cstring_name t rest Ht). reflexivity.
Qed.

Lemma readAt_token (pre w rest : list ascii) :
  isToken w = true -> readAt (pre ++ w ++ NUL :: rest) (List.length pre) = w.
Proof.
  intros H. unfold readAt. rewrite skipn_app, Nat.sub_diag, skipn_all. simpl.
  apply cstring_token. exact H.
Qed.

(** Reading the pushed pointers gives the tokens back. *)
Lemma readAt_offsets (words : list (list ascii)) :
  forall pre : list ascii,
  forallb isToken words = true ->
  map (readAt (pre ++ joinWith NUL words ++ [NUL])) (offsets (List.length pre) words)
  = words.
Proof.
  induction words as [| w ws IH]; intros pre Hall; [reflexivity | ].
  cbn [forallb] in Hall. apply andb_true_iff in Hall as [Hw Hall].
  destruct ws as [| w2 ws'].
  - cbn [joinWith offsets map]. rewrite (readAt_token pre w [] Hw). reflexivity.
  - change (joinWith NUL (w :: w2 :: ws')) with (w ++ NUL :: joinWith NUL (w2 :: ws')).
    cbn [offsets map]. rewrite <- app_assoc. cbn [app].
    rewrite (readAt_token pre w _ Hw). f_equal.
    specialize (IH (pre ++ w ++ [NUL]) Hall).
    replace (List.length (pre ++ w ++ [NUL])) with (List.length pre + S (List.length w))%nat
      in IH by (rewrite !length_app; simpl; lia).
    rewrite <- ?app_assoc in IH. cbn [app] in IH.
    rewrite <- ?app_assoc in IH. cbn [app] in IH.
    exact IH.
Qed.

Lemma extensionNames_tokens (words : list (list ascii)) :
  forallb isToken words = true ->
  extensionNames (joinWith SPACE words ++ [NUL]) = Some words.
Proof.
  intros Hall. unfold extensionNames, ParseExtensionString.
  pose proof (parseFrom_tokens words
                (S (List.length (joinWith SPACE words ++ [NUL]))) [] [] Hall) as Hp.
  cbn [app List.length] in Hp. rewrite Hp.
  - pose proof (readAt_offsets words [] Hall) as Hr.
    cbn [app List.length] in Hr. rewrite Hr. reflexivity.
  - clear Hp. rewrite length_app. simpl.
    assert (Hlen : (List.length words <= S (List.length (joinWith SPACE words)))%nat).
    { clear - Hall. induction words as [| w ws IH]; [simpl; lia | ].
      cbn [forallb] in Hall. apply andb_true_iff in Hall as [Hw Hall].
      destruct w as [| c t]; [discriminate Hw | ].
      destruct ws as [| w2 ws']; [simpl; lia | ].
      specialize (IH Hall).
      change (joinWith SPACE ((c :: t) :: w2 :: ws'))
        with ((c :: t) ++ SPACE :: joinWith SPACE (w2 :: ws')).
      rewrite length_app. cbn [List.length] in IH |- *. lia. }
    lia.
Qed.

(** X23. Splitting undoes joining: for extension names that are not
    empty and contain neither space nor NUL, [ParseExtensionString] on
    the names joined by single spaces comes to an end and returns one
    pointer per name, in order, each to a string that reads as that
    name. *)
Theorem extensionNames_joinNames (words : list (list ascii)) :
  forallb isName words = true ->
  extensionNames (joinNames words ++ [NUL]) = Some words.
Proof.
  intros Hall. apply extensionNames_tokens.
  rewrite forallb_forall in Hall |- *. intros w Hw.
  apply isName_isToken. auto.
Qed.

(** X24. Only a single space separates: for names [u] and [v], a second
    space between them is not skipped but becomes the first byte of the
    second name; a space in front of the first name stays part of it; a
    space after the last name is dropped and adds no empty name. *)
Theorem extensionNames_stray_space (u v : list ascii) :
  isName u = true -> isName v = true ->
  extensionNames (u ++ SPACE :: SPACE :: v ++ [NUL]) = Some [u; SPACE :: v]
  /\ extensionNames (SPACE :: u ++ [NUL]) = Some [SPACE :: u]
  /\ extensionNames (u ++ [SPACE; NUL]) = Some [u].
Proof.
  intros Hu Hv.
  assert (Htu : isToken u = true) by (apply isName_isToken; exact Hu).
  assert (Hsv : isToken (SPACE :: v) = true).
  { unfold isName in Hv. apply andb_true_iff in Hv as [_ Hv]. simpl. exact Hv. }
  assert (Hsu : isToken (SPACE :: u) = true).
  { unfold isName in Hu. apply andb_true_iff in Hu as [_ Hu']. simpl. exact Hu'. }
  split; [ | split].
  - pose proof (extensionNames_tokens [u; SPACE :: v]) as H.
    cbn [forallb joinWith] in H. rewrite Htu, Hsv in H.
    rewrite <- app_assoc in H. cbn [app] in H. apply H. reflexivity.
  - pose proof (extensionNames_tokens [SPACE :: u]) as H.
    cbn [forallb joinWith] in H. rewrite Hsu in H. cbn [app] in H. apply H. reflexivity.
  - destruct u as [| c t]; [discriminate Hu | ].
    cbn [isToken] in Htu. apply andb_true_iff in Htu as [Hc Ht].
    apply negb_true_iff in Hc.
    unfold extensionNames, ParseExtensionString.
    cbn [parseFrom app]. change (deref (c :: t ++ [SPACE; NUL]) 0) with c. rewrite Hc.
    destruct (skipToSeparator_name t (List.length ((c :: t) ++ [SPACE; NUL])) [] c [NUL] Ht)
      as [_ S2].
    { rewrite length_app. simpl. lia. }
    cbn [app] in S2. change (List.length (@nil ascii)) with 0%nat in S2. rewrite S2.
    assert (Hd : deref (c :: t ++ [NUL; NUL]) (S (S (List.length t))) = NUL).
    { change (c :: t ++ [NUL; NUL]) with ((c :: t) ++ [NUL; NUL]).
      replace ((c :: t) ++ [NUL; NUL]) with (((c :: t) ++ [NUL]) ++ NUL :: [])
        by (rewrite <- app_assoc; reflexivity).
      replace (S (S (List.length t))) with (List.length ((c :: t) ++ [NUL]))
        by (rewrite length_app; simpl; lia).
      apply deref_at. }
    cbn [Nat.add List.length] in *.
    cbn [parseFrom]. rewrite Hd. cbn [map app].
    assert (Hr : readAt (c :: t ++ [NUL; NUL]) 0 = c :: t).
    { apply (cstring_token (c :: t) [NUL]). simpl. rewrite Hc. exact Ht. }
    change (Ascii.eqb NUL NUL) with true. cbn iota. cbn [map]. rewrite Hr. reflexivity.
Qed.

Lemma keptOrCut_refl (l : list ascii) : Forall2 keptOrCut l l.
Proof. induction l; constructor; [left; reflexivity | assumption]. Qed.

(** The inner loop on any bytes [suf] behind the first byte [c] of a
    name, as long as a NUL is among them: it comes to an end, [k] bytes
    further, having changed at most the last of these bytes, from a space
    to NUL. *)
Lemma skipToSeparator_any (suf : list ascii) :
  forall (fuel : nat) (pre : list ascii) (c : ascii),
  In NUL suf -> (List.length suf <= fuel)%nat ->
  exists (suf' : list ascii) (k : nat),
    skipToSeparator fuel (pre ++ c :: suf) (List.length pre)
    = Some (pre ++ c :: suf', S (List.length pre + k))
    /\ (k <= List.length suf)%nat
    /\ Forall2 keptOrCut (firstn k suf) (firstn k suf')
    /\ skipn k suf' = skipn k suf
    /\ In NUL (skipn k suf').
Proof.
  induction suf as [| d suf IH]; intros fuel pre c Hin Hf; [destruct Hin | ].
  destruct fuel as [| fuel]; [simpl in Hf; lia | ].
  cbn [skipToSeparator]. rewrite deref_next.
  destruct (Ascii.eqb d NUL) eqn:E0.
  - apply Ascii.eqb_eq in E0. subst d.
    exists (NUL :: suf), 0%nat. rewrite Nat.add_0_r.
    split; [reflexivity | ]. split; [simpl; lia | ].
    split; [constructor | ]. split; [reflexivity | left; reflexivity].
  - destruct (Ascii.eqb d SPACE) eqn:E1.
    + apply Ascii.eqb_eq in E1. subst d.
      destruct Hin as [Hin | Hin]; [discriminate Hin | ].
      exists (NUL :: suf), 1%nat. rewrite poke_next.
      split; [do 2 f_equal; lia | ]. split; [simpl; lia | ].
      split; [repeat constructor; right; auto | ]. split; [reflexivity | exact Hin].
    + destruct Hin as [Hin | Hin]; [subst d; discriminate E0 | ].
      destruct (IH fuel (pre ++ [c]) d Hin ltac:(simpl in Hf; lia))
        as (suf' & k & Hs & Hk & Hrel & Hskip & Hnul).
      rewrite <- app_assoc in Hs. cbn [app] in Hs.
      rewrite length_app in Hs. cbn [List.length] in Hs.
      replace (List.length pre + 1)%nat with (S (List.length pre)) in Hs by lia.
      exists (d :: suf'), (S k). rewrite Hs.
      split; [rewrite <- app_assoc; cbn [app]; do 2 f_equal; lia | ].
      split; [simpl; lia | ].
      split; [cbn [firstn]; constructor; [left; reflexivity | exact Hrel] | ].
      split; [exact Hskip | exact Hnul].
Qed.

Lemma Forall2_keptOrCut_length (a b : list ascii) :
  Forall2 keptOrCut a b -> List.length a = List.length b.
Proof. induction 1; simpl; congruence. Qed.

(** The outer loop on any buffer with a NUL ahead. *)
Lemma parseFrom_any (n : nat) :
  forall (suf pre : list ascii) (pushed : list nat) (fuel : nat),
  (List.length suf <= n)%nat -> In NUL suf -> (List.length suf <= fuel)%nat ->
  exists (pushed' : list nat) (suf' : list ascii),
    parseFrom fuel (pre ++ suf) (List.length pre) pushed
    = Some (pushed ++ pushed', pre ++ suf')
    /\ Forall2 keptOrCut suf suf'
    /\ Forall (fun p => (List.length pre <= p)%nat /\ deref (pre ++ suf') p <> NUL)
         pushed'.
Proof.
  induction n as [| n IH]; intros suf pre pushed fuel Hn Hin Hf.
  - destruct suf; [destruct Hin | simpl in Hn; lia].
  - destruct suf as [| c suf]; [destruct Hin | ].
    destruct fuel as [| fuel]; [simpl in Hf; lia | ].
    cbn [parseFrom]. rewrite deref_at.
    destruct (Ascii.eqb c NUL) eqn:E0.
    + exists [], (c :: suf). rewrite app_nil_r.
      split; [reflexivity | ]. split; [apply keptOrCut_refl | constructor].
    + destruct Hin as [Hin | Hin]; [subst c; discriminate E0 | ].
      destruct (skipToSeparator_any suf (List.length (pre ++ c :: suf)) pre c Hin)
        as (suf1 & k & Hs & Hk & Hrel & Hskip & Hnul).
      { rewrite length_app. simpl. lia. }
      rewrite Hs.
      assert (Hlen1 : List.length (firstn k suf1) = k).
      { rewrite <- (Forall2_keptOrCut_length _ _ Hrel). apply firstn_length_le. exact Hk. }
      assert (Hsplit : pre ++ c :: suf1 = (pre ++ c :: firstn k suf1) ++ skipn k suf1).
      { rewrite <- app_assoc. cbn [app]. rewrite firstn_skipn. reflexivity. }
      assert (Hpre2 : List.length (pre ++ c :: firstn k suf1) = S (List.length pre + k)).
      { rewrite length_app. cbn [List.length]. rewrite Hlen1. lia. }
      assert (Hrest : (List.length (skipn k suf1) <= n)%nat).
      { rewrite Hskip, length_skipn. simpl in Hn. lia. }
      destruct (IH (skipn k suf1) (pre ++ c :: firstn k suf1)
                  (pushed ++ [List.length pre]) fuel Hrest Hnul
                  ltac:(rewrite Hskip, length_skipn; simpl in Hf; lia))
        as (pushed2 & suf2 & Hp & Hrel2 & Hall2).
      rewrite Hpre2, <- Hsplit in Hp. rewrite Hp.
      exists (List.length pre :: pushed2), (c :: firstn k suf1 ++ suf2).
      split; [rewrite <- !app_assoc; reflexivity | ].
      split.
      * constructor; [left; reflexivity | ].
        rewrite <- (firstn_skipn k suf) at 1. apply Forall2_app; [exact Hrel | ].
        rewrite <- Hskip. exact Hrel2.
      * constructor.
        -- split; [lia | ]. rewrite deref_at. intros Hc. subst c. discriminate E0.
        -- revert Hall2. apply Forall_impl. intros p (Hp1 & Hp2).
           rewrite Hpre2 in Hp1. split; [lia | ].
           rewrite <- app_assoc in Hp2. exact Hp2.
Qed.

Lemma readAt_nonempty (buf : list ascii) (p : nat) :
  deref buf p <> NUL -> readAt buf p <> [].
Proof.
  unfold deref, readAt. revert p. induction buf as [| c buf IH]; intros p H.
  - destruct p; exfalso; apply H; reflexivity.
  - destruct p as [| p]; [ | apply IH; exact H].
    simpl in H |- *. destruct (Ascii.eqb c NUL) eqn:E; [ | discriminate].
    apply Ascii.eqb_eq in E. contradiction.
Qed.

(** X25. On every buffer that holds a NUL, [ParseExtensionString] comes
    to an end.  It leaves each byte as it was or turns a space into NUL,
    and every pointer it returns is to a string that is not empty. *)
Theorem ParseExtensionString_any_buffer (names : list ascii) :
  In NUL names ->
  exists (pushed : list nat) (buf : list ascii),
    ParseExtensionString names = Some (pushed, buf)
    /\ Forall2 keptOrCut names buf
    /\ Forall (fun p => readAt buf p <> []) pushed.
Proof.
  intros Hin. unfold ParseExtensionString.
  destruct (parseFrom_any (List.length names) names [] [] (S (List.length names))
              (le_n _) Hin ltac:(lia))
    as (pushed & buf & Hp & Hrel & Hall).
  cbn [app List.length] in Hp, Hall.
  exists pushed, buf. split; [exact Hp | ]. split; [exact Hrel | ].
  revert Hall. apply Forall_impl. intros p (_ & Hd).
  apply readAt_nonempty. exact Hd.
Qed.

Lemma ParseExtensionString_any_buffer_witness :
  exists (pushed : list nat) (buf : list ascii),
    ParseExtensionString (list_ascii_of_string "  a   b " ++ [NUL]) = Some (pushed, buf)
    /\ Forall (fun p => readAt buf p <> []) pushed.
Proof.
  destruct (ParseExtensionString_any_buffer (list_ascii_of_string "  a   b " ++ [NUL]))
    as (pushed & buf & H1 & _ & H3).
  - vm_compute. auto 20.
  - exists pushed, buf. split; [exact H1 | exact H3].
Defined.

Lemma extensionNames_joinNames_witness :
  extensionNames
    (list_ascii_of_string "XR_KHR_D3D11_enable XR_EXT_hand_tracking" ++ [NUL])
  = Some [list_ascii_of_string "XR_KHR_D3D11_enable";
          list_ascii_of_string "XR_EXT_hand_tracking"].
Proof.
  apply (extensionNames_joinNames
           [list_ascii_of_string "XR_KHR_D3D11_enable";
            list_ascii_of_string "XR_EXT_hand_tracking"]).
  vm_compute. reflexivity.
Defined.

Lemma extensionNames_stray_space_witness :
  extensionNames (list_ascii_of_string "a  b" ++ [NUL])
  = Some [list_ascii_of_string "a"; list_ascii_of_string " b"].
Proof.
  destruct (extensionNames_stray_space (list_ascii_of_string "a")
              (list_ascii_of_string "b") eq_refl eq_refl) as (H & _).
  exact H.
Defined.

End ExtensionsFacts.

(** ** The scenarios, run *)

Module ScenarioFacts.

Import Float32 Xr Runtime System TraceFacts GetSystemFacts TraceRead SessionProtocol
  DerivationFacts DerivationOutcomes SessionFacts LifecycleFacts DeviceChangeFacts
  PropertiesFacts Scripted Scenarios.

Lemma calls_use_live_session_witness :
  replaySession (m_pvrSession runtimeOnDeviceA)
    (trace (snd (runGetSystem scriptedPvr stubPlatform 1%N hmdGetInfo
                   runtimeOnDeviceA takenOver)))
  = Some (m_pvrSession
            (rt (snd (runGetSystem scriptedPvr stubPlatform 1%N hmdGetInfo
                        runtimeOnDeviceA takenOver)))).
Proof.
  assert (Hv : forallb createdHandleValid
                 (trace (snd (runGetSystem scriptedPvr stubPlatform 1%N hmdGetInfo
                                runtimeOnDeviceA takenOver))) = true)
    by (vm_compute; reflexivity).
  exact (calls_use_live_session scriptedPvr stubPlatform 1%N hmdGetInfo
           runtimeOnDeviceA takenOver _ _ (surjective_pairing _) Hv).
Defined.

Lemma eyeTrackingConsistent_fresh : eyeTrackingConsistent freshRuntime.
Proof.
  split; [discriminate | ]. intros H. exfalso. apply H. reflexivity.
Qed.

Lemma invariants_over_calls_witness :
  Forall (fun out => sameInstance (rt (snd out)) freshRuntime
                     /\ eyeTrackingConsistent (rt (snd out))
                     /\ (m_systemCreated freshRuntime = true ->
                         m_systemCreated (rt (snd out)) = true))
    (runGetSystemCalls scriptedPvr stubPlatform freshRuntime
       [(1%N, hmdGetInfo, firstContact two_hundredths noSettings);
        (1%N, hmdGetInfo, unplugged);
        (1%N, hmdGetInfo, takenOver)]).
Proof.
  apply (invariants_over_calls scriptedPvr stubPlatform).
  split; [discriminate | ]. intros H. exfalso. apply H. reflexivity.
Defined.

Lemma system_id_valid_exactly_after_success_witness :
  fst (xrGetSystemProperties stubPlatform runtimeOnDeviceA 1%N 1%N chainedProperties)
  = XR_SUCCESS.
Proof.
  assert (Hrun : runGetSystem scriptedPvr stubPlatform 1%N hmdGetInfo freshRuntime
                   (firstContact two_hundredths noSettings)
                 = (Done (XR_SUCCESS, Some 1%N),
                    snd (runGetSystem scriptedPvr stubPlatform 1%N hmdGetInfo
                           freshRuntime (firstContact two_hundredths noSettings))))
    by (vm_compute; reflexivity).
  apply (system_id_valid_exactly_after_success scriptedPvr stubPlatform 1%N hmdGetInfo
           freshRuntime (firstContact two_hundredths noSettings) _ _
           chainedProperties 1%N Hrun eq_refl eq_refl).
  reflexivity.
Defined.

Lemma cached_geometry_follows_projection_witness :
  exists tr2 iL iR,
    afterLastFix
      (trace (snd (runGetSystem scriptedPvr stubPlatform 1%N hmdGetInfo freshRuntime
                     (firstContact two_hundredths noSettings))))
    = Some (1%Z, tr2)
    /\ filter isEyeQuery tr2
       = [EvGetEyeRenderInfo 5%N pvrEye_Left pvr_success iL;
          EvGetEyeRenderInfo 5%N pvrEye_Right pvr_success iR]
    /\ m_cachedEyeInfo runtimeOnDeviceA = mkPerEye iL iR.
Proof.
  assert (Hrun : runGetSystem scriptedPvr stubPlatform 1%N hmdGetInfo freshRuntime
                   (firstContact two_hundredths noSettings)
                 = (Done (XR_SUCCESS, Some 1%N),
                    snd (runGetSystem scriptedPvr stubPlatform 1%N hmdGetInfo
                           freshRuntime (firstContact two_hundredths noSettings))))
    by (vm_compute; reflexivity).
  assert (Hin : In (EvGetHmdInfo 5%N pvr_success deviceA)
                  (trace (snd (runGetSystem scriptedPvr stubPlatform 1%N hmdGetInfo
                                 freshRuntime (firstContact two_hundredths noSettings)))))
    by (vm_compute; auto 10).
  assert (Hne : SerialNumber deviceA <> SerialNumber (m_cachedHmdInfo freshRuntime))
    by discriminate.
  destruct (cached_geometry_follows_projection scriptedPvr stubPlatform 1%N hmdGetInfo
              freshRuntime (firstContact two_hundredths noSettings) _ _ 5%N deviceA
              Hrun Hin Hne)
    as (tr2 & iL & iR & H1 & H2 & H3 & _).
  exists tr2, iL, iR. split; [exact H1 | ]. split; [exact H2 | exact H3].
Defined.

Lemma eye_tracker_selection_witness :
  let out := runGetSystem scriptedPvr stubPlatform 1%N hmdGetInfo gazeRuntime
               crystalContact in
  m_isEyeTrackingAvailable (rt (snd out)) = true
  /\ m_eyeTrackingType (rt (snd out)) = EyeTracking_PVR
  /\ exists v, In (EvGetSetting "allow_eye_tracking" (Some v)) (trace (snd out))
               /\ int_to_bool v = true.
Proof.
  intros out.
  assert (Hrun : runGetSystem scriptedPvr stubPlatform 1%N hmdGetInfo gazeRuntime
                   crystalContact
                 = (Done (XR_SUCCESS, Some 1%N), snd out))
    by (vm_compute; reflexivity).
  assert (Hin : In (EvGetHmdInfo 5%N pvr_success crystal) (trace (snd out)))
    by (vm_compute; auto 10).
  assert (Hne : SerialNumber crystal <> SerialNumber (m_cachedHmdInfo gazeRuntime))
    by discriminate.
  assert (Ha : m_isEyeTrackingAvailable (rt (snd out)) = true)
    by (vm_compute; reflexivity).
  destruct (eye_tracker_selection scriptedPvr stubPlatform 1%N hmdGetInfo gazeRuntime
              crystalContact _ _ 5%N crystal Hrun Hin Hne)
    as (H1 & _).
  destruct (H1 Ha) as (_ & Hv).
  split; [exact Ha | ]. split; [vm_compute; reflexivity | exact Hv].
Defined.

Lemma failed_derivation_not_retried_witness :
  let failed := runGetSystem scriptedPvr stubPlatform 1%N hmdGetInfo freshRuntime
                  geometryFails in
  let next := runGetSystem scriptedPvr stubPlatform 1%N hmdGetInfo (rt (snd failed))
                steady in
  m_cachedHmdInfo (rt (snd failed)) = deviceA
  /\ snapshot (rt (snd next)) = snapshot (rt (snd failed))
  /\ existsb isDerivationQuery (trace (snd next)) = false
  /\ m_cachedEyeFov (rt (snd next)) = m_cachedEyeFov freshRuntime.
Proof.
  intros failed next.
  assert (H1 : runGetSystem scriptedPvr stubPlatform 1%N hmdGetInfo freshRuntime
                 geometryFails
               = (Thrown (PvrFailure pvr_failed "pvr_getEyeRenderInfo"), snd failed))
    by (vm_compute; reflexivity).
  assert (Hin : In (EvGetHmdInfo 5%N pvr_success deviceA) (trace (snd failed)))
    by (vm_compute; auto 10).
  assert (H2 : runGetSystem scriptedPvr stubPlatform 1%N hmdGetInfo (rt (snd failed))
                 steady
               = (Done (XR_SUCCESS, Some 1%N), snd next))
    by (vm_compute; reflexivity).
  assert (Hser : Forall (fun sn => sn = SerialNumber deviceA)
                   (reportedSerials (trace (snd next))))
    by (vm_compute; repeat constructor).
  destruct (failed_derivation_not_retried scriptedPvr stubPlatform 1%N hmdGetInfo
              freshRuntime geometryFails _ _ 5%N deviceA 1%N hmdGetInfo steady _ _
              H1 Hin H2 Hser)
    as (_ & Hid & Hsnap & Hq & Hfov).
  split; [exact Hid | ]. split; [exact Hsnap | ]. split; [exact Hq | ].
  apply Hfov. intros c Hc. discriminate Hc.
Defined.

Lemma properties_chain_witness :
  let out := snd (xrGetSystemProperties stubPlatform gazeRuntimeOnCrystal 1%N 1%N
                    chainedProperties) in
  nth_error (sp_next out) 0
  = Some (mkXrChainStruct XR_TYPE_SYSTEM_HAND_TRACKING_PROPERTIES_EXT true)
  /\ nth_error (sp_next out) 1
     = Some (mkXrChainStruct XR_TYPE_SYSTEM_EYE_GAZE_INTERACTION_PROPERTIES_EXT true)
  /\ nth_error (sp_next out) 2
     = Some (mkXrChainStruct XR_TYPE_SYSTEM_HAND_TRACKING_PROPERTIES_EXT false).
Proof.
  intros out.
  assert (Hrun : xrGetSystemProperties stubPlatform gazeRuntimeOnCrystal 1%N 1%N
                   chainedProperties = (XR_SUCCESS, out))
    by (vm_compute; reflexivity).
  destruct (properties_chain stubPlatform gazeRuntimeOnCrystal 1%N 1%N chainedProperties
              out Hrun)
    as (_ & Hother & Hhand & Heye).
  split; [ | split].
  - exact (Hhand 0%nat _ eq_refl eq_refl).
  - exact (Heye 1%nat _ eq_refl eq_refl).
  - apply Hother; [reflexivity | discriminate | discriminate].
Defined.

Lemma properties_after_success_witness :
  let out := xrGetSystemProperties stubPlatform runtimeOnDeviceA 1%N 1%N
               chainedProperties in
  fst out = XR_SUCCESS /\ sp_systemId (snd out) = 1%N.
Proof.
  assert (Hrun : runGetSystem scriptedPvr stubPlatform 1%N hmdGetInfo freshRuntime
                   (firstContact two_hundredths noSettings)
                 = (Done (XR_SUCCESS, Some 1%N),
                    snd (runGetSystem scriptedPvr stubPlatform 1%N hmdGetInfo
                           freshRuntime (firstContact two_hundredths noSettings))))
    by (vm_compute; reflexivity).
  destruct (properties_after_success scriptedPvr stubPlatform 1%N hmdGetInfo
              freshRuntime (firstContact two_hundredths noSettings) _ _
              chainedProperties Hrun eq_refl)
    as (h & info & _ & H1 & H2 & _).
  split; [exact H1 | exact H2].
Defined.

Lemma properties_after_unavailable_witness :
  let out := xrGetSystemProperties stubPlatform
               (rt (snd (runGetSystem scriptedPvr stubPlatform 1%N hmdGetInfo
                           runtimeOnDeviceA unplugged)))
               1%N 1%N chainedProperties in
  fst out = XR_SUCCESS
  /\ sp_vendorId (snd out) = 0%Z
  /\ sp_systemName (snd out) = EmptyString.
Proof.
  assert (Hrun : runGetSystem scriptedPvr stubPlatform 1%N hmdGetInfo runtimeOnDeviceA
                   unplugged
                 = (Done (XR_ERROR_FORM_FACTOR_UNAVAILABLE, None),
                    snd (runGetSystem scriptedPvr stubPlatform 1%N hmdGetInfo
                           runtimeOnDeviceA unplugged)))
    by (vm_compute; reflexivity).
  destruct (properties_after_unavailable scriptedPvr stubPlatform 1%N hmdGetInfo
              runtimeOnDeviceA unplugged _ _ chainedProperties Hrun eq_refl eq_refl)
    as (H1 & H2 & H3 & _).
  split; [exact H1 | ]. split; [exact H2 | exact H3].
Defined.

End ScenarioFacts.
